(** * hitomi-go: a shallow embedding of [main.go] and its properties

    The downloader resolves gallery URLs to metadata, fans every image of a
    gallery out to a pool of download workers and hands the fetched bodies to a
    single write worker.  This file embeds the functions of [main.go] and
    states the properties of the design document about them. *)

From Stdlib Require Import ZArith String Ascii List Bool Lia DecimalString.
From stdpp Require Import base decidable option list gmap strings.

Local Open Scope Z_scope.

(** ** Go strings and integers *)

(** Go strings are byte sequences; [string] (a list of 8-bit [ascii]) has the
    same shape. *)
Definition len (s : string) : Z := Z.of_nat (String.length s).

Definition byte_val (c : ascii) : Z := Z.of_N (N_of_ascii c).
Definition byte_of (z : Z) : ascii := ascii_of_N (Z.to_N z).

(** [int64] arithmetic wraps around. *)
Definition wrap64 (z : Z) : Z := (z + 2^63) mod 2^64 - 2^63.
Definition add64 (a b : Z) : Z := wrap64 (a + b).
Definition in_int64 (z : Z) : Prop := - 2^63 <= z < 2^63.

(** [s[lo:hi]]: a slice expression panics (here: [None]) unless
    [0 <= lo <= hi <= len(s)]. *)
Definition slice (s : string) (lo hi : Z) : option string :=
  if (0 <=? lo) && (lo <=? hi) && (hi <=? len s)
  then Some (substring (Z.to_nat lo) (Z.to_nat (hi - lo)) s)
  else None.

(** [s[lo:]] *)
Definition slice_from (s : string) (lo : Z) : option string := slice s lo (len s).

(** [strconv.Itoa] *)
Definition Itoa (z : Z) : string := NilZero.string_of_int (Z.to_int z).

(** [string(r)] for an integer [r]: the UTF-8 encoding of the code point, and
    U+FFFD for anything that is not a valid code point. *)
Definition string_of_rune (r : Z) : string :=
  let cont (x : Z) := byte_of (Z.lor 128 (Z.land x 63)) in
  if (r <? 0) || (1114111 <? r) || ((55296 <=? r) && (r <=? 57343)) then
    String (byte_of 239) (String (byte_of 191) (String (byte_of 189) EmptyString))
  else if r <? 128 then String (byte_of r) EmptyString
  else if r <? 2048 then
    String (byte_of (Z.lor 192 (Z.shiftr r 6))) (String (cont r) EmptyString)
  else if r <? 65536 then
    String (byte_of (Z.lor 224 (Z.shiftr r 12)))
      (String (cont (Z.shiftr r 6)) (String (cont r) EmptyString))
  else
    String (byte_of (Z.lor 240 (Z.shiftr r 18)))
      (String (cont (Z.shiftr r 12))
         (String (cont (Z.shiftr r 6)) (String (cont r) EmptyString))).

(** *** [strconv.ParseInt] with an explicit base

    The one call of the program passes base 16 and bit size 64, so neither the
    base prefixes nor the underscores of base 0 are modelled. *)
Inductive NumError := ErrSyntax | ErrRange.

Definition digit_val (c : ascii) : option Z :=
  let n := byte_val c in
  if (48 <=? n) && (n <=? 57) then Some (n - 48)
  else
    let l := Z.lor n 32 in
    if (97 <=? l) && (l <=? 122) then Some (l - 97 + 10) else None.

Fixpoint ParseUint_loop (base maxVal : Z) (s : string) (n : Z) : Z + NumError :=
  match s with
  | EmptyString => inl n
  | String c s' =>
      match digit_val c with
      | None => inr ErrSyntax
      | Some d =>
          if base <=? d then inr ErrSyntax
          else if maxVal / base + 1 <=? n then inr ErrRange
          else
            let n1 := n * base + d in
            if maxVal <? n1 then inr ErrRange else ParseUint_loop base maxVal s' n1
      end
  end.

Definition ParseUint (s : string) (base bitSize : Z) : Z + NumError :=
  match s with
  | EmptyString => inr ErrSyntax
  | _ => ParseUint_loop base (2 ^ bitSize - 1) s 0
  end.

Definition ParseInt (s : string) (base bitSize : Z) : Z + NumError :=
  match s with
  | EmptyString => inr ErrSyntax
  | String c s' =>
      let '(neg, s0) :=
        if Ascii.eqb c "+" then (false, s')
        else if Ascii.eqb c "-" then (true, s')
        else (false, s) in
      match ParseUint s0 base bitSize with
      | inr e => inr e
      | inl un =>
          let cutoff := 2 ^ (bitSize - 1) in
          if negb neg && (cutoff <=? un) then inr ErrRange
          else if neg && (cutoff <? un) then inr ErrRange
          else inl (if neg then - un else un)
      end
  end.

(** *** [strings.Split] and [strings.ReplaceAll]

    Every call of the program passes a separator of one byte; the functions
    below follow the library for any separator that is not empty. *)
Fixpoint Split_from (sep : string) (skip : nat) (s : string) : list string :=
  match s with
  | EmptyString => [EmptyString]
  | String c s' =>
      match skip with
      | S k => Split_from sep k s'
      | O =>
          if String.prefix sep s
          then EmptyString :: Split_from sep (Nat.pred (String.length sep)) s'
          else
            match Split_from sep O s' with
            | h :: t => String c h :: t
            | [] => [String c EmptyString]
            end
      end
  end.

Definition Split (s sep : string) : list string := Split_from sep O s.

Fixpoint ReplaceAll_from (old new : string) (skip : nat) (s : string) : string :=
  match s with
  | EmptyString => EmptyString
  | String c s' =>
      match skip with
      | S k => ReplaceAll_from old new k s'
      | O =>
          if String.prefix old s
          then new +:+ ReplaceAll_from old new (Nat.pred (String.length old)) s'
          else String c (ReplaceAll_from old new O s')
      end
  end.

Definition ReplaceAll (s old new : string) : string := ReplaceAll_from old new O s.

(** ** The data model of [main.go] *)

Record Conf := mkConf {
  SavePath : string;
  Socks : string;
  Retry : Z;
  ThreadNum : Z
}.

Record Image := mkImage {
  Name : string;
  Hash : string;
  HasWebp : Z;
  HasAvif : Z
}.

Record Gallery := mkGallery {
  Id : string;
  Title : string;
  JpTitle : string;
  Lang : string;
  Files : list Image;
  Url : string
}.

Record Job := mkJob {
  JImage : Image;
  JGallery : Gallery;
  JSavePath : string;
  JConf : Conf
}.

Record WriteJob := mkWriteJob {
  Content : string;
  FileName : string
}.

(** ** Pure helpers *)

(** [Unique]: [keys] is the Go map used as a set, [lst] the slice [list] that
    is appended to. *)
Fixpoint Unique_loop (strSlice : list string) (keys : gset string) (lst : list string)
  : list string :=
  match strSlice with
  | [] => lst
  | str :: rest =>
      if decide (str ∈ keys) then Unique_loop rest keys lst
      else Unique_loop rest ({[str]} ∪ keys) (lst ++ [str])
  end.

Definition Unique (strSlice : list string) : list string := Unique_loop strSlice ∅ [].

Definition illegalChars : list string :=
  [":"; "/"; "\"; "?"; "*"; String (byte_of 34) EmptyString; "<"; ">"; "|"]%string.

Definition ValidFileName (path : string) : string :=
  fold_left (fun path illegalChar => ReplaceAll path illegalChar EmptyString)
            illegalChars path.

Section Platform.
(** [runtime.GOOS == "windows"] *)
Variable windows : bool.

Definition Eol : string :=
  if windows then String (byte_of 13) (String (byte_of 10) EmptyString)
  else String (byte_of 10) EmptyString.

Definition IsPathSeparator (c : ascii) : bool :=
  Ascii.eqb c "/" || (windows && Ascii.eqb c "\").

(** [filepath.Ext]: scan from the end of the path up to the last separator;
    the extension starts at the first dot met on the way. *)
Fixpoint Ext_scan (rev_path : list ascii) (suffix : string) : string :=
  match rev_path with
  | [] => EmptyString
  | c :: rest =>
      if IsPathSeparator c then EmptyString
      else if Ascii.eqb c "." then String c suffix
      else Ext_scan rest (String c suffix)
  end.

Definition filepath_Ext (path : string) : string :=
  Ext_scan (rev (list_ascii_of_string path)) EmptyString.

(** [ImageUrl]; [None] is the panic of a slice expression out of range. *)
Definition ImageUrl (img : Image) : option string :=
  let subDomain := "a"%string in
  let directory := "images"%string in
  let numberOfFrontends := 3 in
  h1 ← slice_from (Hash img) (len (Hash img) - 1);
  h2 ← slice (Hash img) (len (Hash img) - 3) (len (Hash img) - 1);
  let ext := filepath_Ext (Name img) in
  let '(directory, ext, retval) :=
    if HasAvif img =? 1 then ("avif", ".avif", "a")%string
    else if HasWebp img =? 1 then ("webp", ".webp", "a")%string
    else (directory, ext, "b"%string) in
  let subDomain :=
    match ParseInt h2 16 64 with
    | inl g =>
        let numberOfFrontends := if g <? 48 then 2 else numberOfFrontends in
        let g := if g <? 9 then 1 else g in
        let char := add64 97 (Z.rem g numberOfFrontends) in
        string_of_rune char +:+ retval
    | inr _ => subDomain
    end in
  Some ("https://" +:+ subDomain +:+ ".hitomi.la/" +:+ directory +:+ "/" +:+ h1
          +:+ "/" +:+ h2 +:+ "/" +:+ Hash img +:+ ext)%string.
End Platform.

(** ** The environment

    Network, JSON decoding and the operating system are outside the program.
    They are oracles: the answer to the [n]-th network request and the fault,
    if any, of the [n]-th system call. *)

Inductive Errno := EEXIST | ENOTEMPTY | ENOTDIR | EISDIR | ENOENT | EACCES | ENOSPC | EIO.

Definition Errno_msg (e : Errno) : string :=
  match e with
  | EEXIST => "file exists"
  | ENOTEMPTY => "directory not empty"
  | ENOTDIR => "not a directory"
  | EISDIR => "is a directory"
  | ENOENT => "no such file or directory"
  | EACCES => "permission denied"
  | ENOSPC => "no space left on device"
  | EIO => "input/output error"
  end%string.

(** [*os.PathError] *)
Record PathError := mkPathError {
  Op : string;
  Path : string;
  Err : Errno
}.

Definition PathError_Error (e : PathError) : string :=
  (Op e +:+ " " +:+ Path e +:+ ": " +:+ Errno_msg (Err e))%string.

(** [os.IsExist] *)
Definition IsExist (e : PathError) : bool :=
  match Err e with
  | EEXIST | ENOTEMPTY => true
  | _ => false
  end.

(** A fault of a system call; [written] is the number of bytes a failing
    write got out before the error. *)
Record Fault := mkFault {
  errno : Errno;
  written : nat
}.

Record Request := mkRequest {
  ReqURI : string;
  ReqMethod : string;
  ReqReferer : string;
  ReqUserAgent : string
}.

(** What [Client.Do] leaves in the response, with the error it returns. *)
Record Response := mkResponse {
  RespErr : option string;
  StatusCode : Z;
  ContentLength : Z;
  Body : string
}.

(** What [Client.Get] returns: status code, body and error. *)
Record GetResult := mkGetResult {
  GetCode : Z;
  GetBody : string;
  GetErr : option string
}.

Record Env := mkEnv {
  GOOS_windows : bool;
  NumCPU : Z;
  Client_Get : nat -> string -> GetResult;
  Client_Do : nat -> Request -> Response;
  json_Unmarshal : string -> Gallery + string;
  os_fault : nat -> option Fault
}.

(** ** The state of a run *)

Inductive Event :=
| EvLog (msg : string)
| EvPrint (msg : string)
| EvGallery (g : Gallery)
| EvJob (j : Job)
| EvWriteJob (wj : WriteJob).

(** The package-level variables ([conf], the two counters, the three
    channels), the file system, and what the run has printed, logged and sent
    so far (latest event first). *)
Record World := mkWorld {
  conf : Conf;
  downloadingCount : Z;
  downloadStartCount : Z;
  queue : list Job;
  galleryQueue : list Gallery;
  writeQueue : list WriteJob;
  fs_dirs : gset string;
  fs_files : gmap string string;
  trace : list Event;
  net_clock : nat;
  os_clock : nat
}.

Definition set_downloadingCount (v : Z) (w : World) : World :=
  mkWorld (conf w) v (downloadStartCount w) (queue w) (galleryQueue w) (writeQueue w)
          (fs_dirs w) (fs_files w) (trace w) (net_clock w) (os_clock w).
Definition set_downloadStartCount (v : Z) (w : World) : World :=
  mkWorld (conf w) (downloadingCount w) v (queue w) (galleryQueue w) (writeQueue w)
          (fs_dirs w) (fs_files w) (trace w) (net_clock w) (os_clock w).
Definition set_queue (v : list Job) (w : World) : World :=
  mkWorld (conf w) (downloadingCount w) (downloadStartCount w) v (galleryQueue w)
          (writeQueue w) (fs_dirs w) (fs_files w) (trace w) (net_clock w) (os_clock w).
Definition set_galleryQueue (v : list Gallery) (w : World) : World :=
  mkWorld (conf w) (downloadingCount w) (downloadStartCount w) (queue w) v
          (writeQueue w) (fs_dirs w) (fs_files w) (trace w) (net_clock w) (os_clock w).
Definition set_writeQueue (v : list WriteJob) (w : World) : World :=
  mkWorld (conf w) (downloadingCount w) (downloadStartCount w) (queue w) (galleryQueue w)
          v (fs_dirs w) (fs_files w) (trace w) (net_clock w) (os_clock w).
Definition set_fs_dirs (v : gset string) (w : World) : World :=
  mkWorld (conf w) (downloadingCount w) (downloadStartCount w) (queue w) (galleryQueue w)
          (writeQueue w) v (fs_files w) (trace w) (net_clock w) (os_clock w).
Definition set_fs_files (v : gmap string string) (w : World) : World :=
  mkWorld (conf w) (downloadingCount w) (downloadStartCount w) (queue w) (galleryQueue w)
          (writeQueue w) (fs_dirs w) v (trace w) (net_clock w) (os_clock w).
Definition set_trace (v : list Event) (w : World) : World :=
  mkWorld (conf w) (downloadingCount w) (downloadStartCount w) (queue w) (galleryQueue w)
          (writeQueue w) (fs_dirs w) (fs_files w) v (net_clock w) (os_clock w).
Definition set_net_clock (v : nat) (w : World) : World :=
  mkWorld (conf w) (downloadingCount w) (downloadStartCount w) (queue w) (galleryQueue w)
          (writeQueue w) (fs_dirs w) (fs_files w) (trace w) v (os_clock w).
Definition set_os_clock (v : nat) (w : World) : World :=
  mkWorld (conf w) (downloadingCount w) (downloadStartCount w) (queue w) (galleryQueue w)
          (writeQueue w) (fs_dirs w) (fs_files w) (trace w) (net_clock w) v.

Definition emit (e : Event) (w : World) : World := set_trace (e :: trace w) w.

(** [log.Println], [log.Print]: the message, without the time stamp. *)
Definition log_Println (msg : string) (w : World) : World := emit (EvLog msg) w.
Definition log_Print (msg : string) (w : World) : World := emit (EvLog msg) w.
Definition fmt_Print (msg : string) (w : World) : World := emit (EvPrint msg) w.
Definition fmt_Println (w : World) : World := emit (EvPrint EmptyString) w.

(** [atomic.AddInt64] on the two counters *)
Definition AddInt64_downloadingCount (d : Z) (w : World) : World :=
  set_downloadingCount (add64 (downloadingCount w) d) w.
Definition AddInt64_downloadStartCount (d : Z) (w : World) : World :=
  set_downloadStartCount (add64 (downloadStartCount w) d) w.

(** Channel sends.  A send appends to the buffer; whether there is room for it
    is the business of the scheduler below. *)
Definition send_queue (j : Job) (w : World) : World :=
  emit (EvJob j) (set_queue (queue w ++ [j]) w).
Definition send_galleryQueue (g : Gallery) (w : World) : World :=
  emit (EvGallery g) (set_galleryQueue (galleryQueue w ++ [g]) w).
Definition send_writeQueue (wj : WriteJob) (w : World) : World :=
  emit (EvWriteJob wj) (set_writeQueue (writeQueue w ++ [wj]) w).

(** The events of each kind in a trace. *)
Definition logs (t : list Event) : list string :=
  omap (fun e => match e with EvLog m => Some m | _ => None end) t.
Definition writeJobs_sent (t : list Event) : list WriteJob :=
  omap (fun e => match e with EvWriteJob wj => Some wj | _ => None end) t.
Definition jobs_sent (t : list Event) : list Job :=
  omap (fun e => match e with EvJob j => Some j | _ => None end) t.
Definition galleries_sent (t : list Event) : list Gallery :=
  omap (fun e => match e with EvGallery g => Some g | _ => None end) t.

(** ** The file system *)

Definition os_ModeDir : Z := 2 ^ 31.
Definition os_ModeAppend : Z := 2 ^ 30.

(** The directories above [path]: every prefix that ends before a slash. *)
Fixpoint parents_from (pre : string) (path : string) : list string :=
  match path with
  | EmptyString => []
  | String c rest =>
      if Ascii.eqb c "/"
      then (if String.eqb pre EmptyString then [] else [pre])
             ++ parents_from (pre +:+ String c EmptyString) rest
      else parents_from (pre +:+ String c EmptyString) rest
  end.

Definition parents (path : string) : list string := parents_from EmptyString path.

Definition syscall (env : Env) (w : World) : World * option Fault :=
  (set_os_clock (S (os_clock w)) w, os_fault env (os_clock w)).

(** [os.MkdirAll]: nothing to do when [path] is a directory already; an error
    when it is a file or when the system refuses; otherwise [path] and the
    directories above it exist afterwards.  [perm] only sets the mode of what
    is created. *)
Definition MkdirAll (env : Env) (path : string) (perm : Z) (w : World)
  : World * option PathError :=
  let '(w, fault) := syscall env w in
  match fault with
  | Some f => (w, Some (mkPathError "mkdir" path (errno f)))
  | None =>
      if decide (path ∈ fs_dirs w) then (w, None)
      else if decide (is_Some (fs_files w !! path))
      then (w, Some (mkPathError "mkdir" path ENOTDIR))
      else (set_fs_dirs (fs_dirs w ∪ {[path]} ∪ list_to_set (parents path)) w, None)
  end.

(** [ioutil.WriteFile]: open the file with [O_WRONLY|O_CREATE|O_TRUNC], write
    the data, close.  [perm] only sets the mode of a file that is created. *)
Definition WriteFile (env : Env) (filename : string) (data : string) (perm : Z)
    (w : World) : World * option PathError :=
  let '(w, fault) := syscall env w in
  match fault with
  | Some f => (w, Some (mkPathError "open" filename (errno f)))
  | None =>
      if decide (filename ∈ fs_dirs w)
      then (w, Some (mkPathError "open" filename EISDIR))
      else
        let w := set_fs_files (<[filename := EmptyString]> (fs_files w)) w in
        let '(w, fault) := syscall env w in
        match fault with
        | Some f =>
            let w := set_fs_files
                       (<[filename := substring 0 (written f) data]> (fs_files w)) w in
            let '(w, _) := syscall env w in
            (w, Some (mkPathError "write" filename (errno f)))
        | None =>
            let w := set_fs_files (<[filename := data]> (fs_files w)) w in
            let '(w, fault) := syscall env w in
            match fault with
            | Some f => (w, Some (mkPathError "close" filename (errno f)))
            | None => (w, None)
            end
        end
  end.

(** ** The functions of [main.go] that act on the world *)

(** [GalleryInfo]: the address it asks for.  [Split] never returns an empty
    slice, so the two index expressions cannot panic. *)
Definition GalleryInfo_address (url : string) : string :=
  let pieces := Split url "-" in
  let last := List.last pieces EmptyString in
  let id := hd EmptyString (Split last ".") in
  ("https://ltn.hitomi.la/galleries/" +:+ id +:+ ".js")%string.

(** [GalleryInfo]: what it makes of the answer; [inr] carries [err.Error()]. *)
Definition GalleryInfo_answer (env : Env) (r : GetResult) : Gallery + string :=
  match GetErr r with
  | Some err => inr err
  | None =>
      if negb (GetCode r =? 200) then inr (Itoa (GetCode r))
      else
        let resp := ReplaceAll (GetBody r) "var galleryinfo = " EmptyString in
        json_Unmarshal env resp
  end.

Definition GalleryInfo (env : Env) (url : string) (w : World)
  : World * (Gallery + string) :=
  let r := Client_Get env (net_clock w) (GalleryInfo_address url) in
  (set_net_clock (S (net_clock w)) w, GalleryInfo_answer env r).

Definition with_Url (url : string) (g : Gallery) : Gallery :=
  mkGallery (Id g) (Title g) (JpTitle g) (Lang g) (Files g) url.

(** [DownloadGallery] up to the loop over the files: the directory the jobs of
    the gallery are to be saved to, or [None] when the function returns early. *)
Definition DownloadGallery_dir (env : Env) (gallery : Gallery) (index total : Z)
    (conf : Conf) (w : World) : World * option string :=
  let lang := Lang gallery in
  let title := JpTitle gallery in
  let lang := if String.eqb lang EmptyString then "null"%string else lang in
  let title := if String.eqb title EmptyString then Title gallery else title in
  let w := fmt_Println w in
  let w := log_Println ("Start Download (" +:+ Itoa (add64 index 1) +:+ "/"
                          +:+ Itoa total +:+ "): " +:+ title)%string w in
  let savePath := (SavePath conf +:+ lang +:+ "/" +:+ ValidFileName title)%string in
  let '(w, err) := MkdirAll env savePath os_ModeDir w in
  match err with
  | Some err =>
      if IsExist err then
        let savePath := (SavePath conf +:+ lang +:+ "/" +:+ ValidFileName title
                           +:+ " - " +:+ Id gallery)%string in
        let '(w, err2) := MkdirAll env savePath os_ModeDir w in
        match err2 with
        | Some err2 => (log_Print (PathError_Error err2) w, None)
        | None => (log_Print (PathError_Error err) w, None)
        end
      else (log_Print (PathError_Error err) w, None)
  | None => (w, Some savePath)
  end.

Definition jobs_of (gallery : Gallery) (savePath : string) (conf : Conf) : list Job :=
  map (fun img => mkJob img gallery savePath conf) (Files gallery).

(** [DownloadGallery], with room in [queue] for every job. *)
Definition DownloadGallery (env : Env) (gallery : Gallery) (index total : Z)
    (conf : Conf) (w : World) : World :=
  let '(w, dir) := DownloadGallery_dir env gallery index total conf w in
  match dir with
  | None => w
  | Some savePath => fold_left (fun w job => send_queue job w) (jobs_of gallery savePath conf) w
  end.

Definition UserAgent : string :=
  "Mozilla/5.0 (Windows NT 6.1; Win64; x64) AppleWebKit/537.36 (KHTML, like Gecko) Chrome/87.0.4280.88 Safari/537.36".

Inductive AttemptResult :=
| Succeeded (writeJob : WriteJob)
| Abandoned
| Again.

(** The request an iteration of the loop of [DownloadImageHandler] builds;
    [None] is a panic ([ImageUrl]). *)
Definition request_of (env : Env) (job : Job) : option Request :=
  uri ← ImageUrl (GOOS_windows env) (JImage job);
  Some (mkRequest uri "GET"
          ("https://hitomi.la/reader/" +:+ Id (JGallery job) +:+ ".html")%string
          UserAgent).

(** [err == nil && res.Header.StatusCode() == 200 && res.Header.ContentLength() > 0] *)
Definition response_ok (res : Response) : bool :=
  bool_decide (RespErr res = None) && (StatusCode res =? 200) && (0 <? ContentLength res).

(** One iteration of the loop of [DownloadImageHandler], up to the send of the
    write job. *)
Definition attempt (env : Env) (job : Job) (tries : Z) (w : World)
  : option (World * AttemptResult) :=
  req ← request_of env job;
  let res := Client_Do env (net_clock w) req in
  let w := set_net_clock (S (net_clock w)) w in
  if response_ok res
  then
    let fileName := Name (JImage job) in
    let fileName :=
      if HasAvif (JImage job) =? 1
      then (hd EmptyString (Split fileName ".") +:+ ".avif")%string
      else if HasWebp (JImage job) =? 1
      then (hd EmptyString (Split fileName ".") +:+ ".webp")%string
      else fileName in
    Some (w, Succeeded (mkWriteJob (Body res) (JSavePath job +:+ "/" +:+ fileName)%string))
  else if Retry (conf w) <? tries then
    let toPrint := ("Download Image Fail: " +:+ Name (JImage job)
                      +:+ " Because Max Retry Times Reached")%string in
    let toPrint :=
      match RespErr res with
      | Some err => (toPrint +:+ Eol (GOOS_windows env) +:+ "Last Error: " +:+ err)%string
      | None => toPrint
      end in
    let toPrint :=
      if negb (StatusCode res =? 200)
      then (toPrint +:+ Eol (GOOS_windows env) +:+ "Last Error: Status Code "
              +:+ Itoa (StatusCode res))%string
      else toPrint in
    Some (AddInt64_downloadingCount (-1) (log_Println toPrint w), Abandoned)
  else Some (w, Again).

(** What [DownloadImageHandler] does before its loop. *)
Definition DownloadImageHandler_enter (w : World) : World :=
  AddInt64_downloadStartCount 1 (AddInt64_downloadingCount 1 (fmt_Print "." w)).

Inductive Outcome (A : Type) :=
| Returns (a : A)
| Panics
| OutOfFuel.
Arguments Returns {A} a.
Arguments Panics {A}.
Arguments OutOfFuel {A}.

(** The loop [for tries := 1; ; tries++]; [fuel] bounds the iterations. *)
Fixpoint DownloadImageHandler_loop (fuel : nat) (env : Env) (job : Job) (tries : Z)
    (w : World) : Outcome World :=
  match fuel with
  | O => OutOfFuel
  | S fuel =>
      match attempt env job tries w with
      | None => Panics
      | Some (w, Succeeded writeJob) => Returns (send_writeQueue writeJob w)
      | Some (w, Abandoned) => Returns w
      | Some (w, Again) => DownloadImageHandler_loop fuel env job (add64 tries 1) w
      end
  end.

(** [DownloadImageHandler], with room in [writeQueue]. *)
Definition DownloadImageHandler (fuel : nat) (env : Env) (job : Job) (w : World)
  : Outcome World :=
  DownloadImageHandler_loop fuel env job 1 (DownloadImageHandler_enter w).

Definition WriterHandler (env : Env) (job : WriteJob) (w : World) : World :=
  let '(w, err) := WriteFile env (FileName job) (Content job) os_ModeAppend w in
  let w :=
    match err with
    | Some err =>
        log_Print ("Download Image Fail: " +:+ FileName job +:+ " Because "
                     +:+ PathError_Error err)%string w
    | None => w
    end in
  AddInt64_downloadingCount (-1) w.

(** The test that ends the loops of [DownloadImageWorker] and [WriteWorker]. *)
Definition worker_done (w : World) : bool :=
  (downloadingCount w =? 0) && (0 <? downloadStartCount w).

(** The test of the last loop of [main]. *)
Definition main_done (w : World) : bool := downloadingCount w =? 0.

(** [main], lines 73 to 75 *)
Definition normalize_ThreadNum (env : Env) (c : Conf) : Conf :=
  if (ThreadNum c <? 1) || (NumCPU env <? ThreadNum c)
  then mkConf (SavePath c) (Socks c) (Retry c) (NumCPU env)
  else c.

(** ** The run: goroutines and their interleaving

    Each goroutine is a small automaton over the shared [World]; a schedule
    picks the goroutine that moves next.  A step is one operation that the
    other goroutines can see: a channel operation, an atomic addition, a read
    of a counter, a line of output, a request, a call of the file system.  A
    goroutine that waits on a full or empty channel, or that has ended, has no
    step. *)

(** [DownloadGallery], lines 137 to 150: the values it computes from its
    arguments. *)
Definition lang_of (gallery : Gallery) : string :=
  if String.eqb (Lang gallery) EmptyString then "null"%string else Lang gallery.

Definition title_of (gallery : Gallery) : string :=
  if String.eqb (JpTitle gallery) EmptyString then Title gallery else JpTitle gallery.

Definition start_line (gallery : Gallery) (index total : Z) : string :=
  ("Start Download (" +:+ Itoa (add64 index 1) +:+ "/" +:+ Itoa total +:+ "): "
     +:+ title_of gallery)%string.

Definition savePath_of (conf : Conf) (gallery : Gallery) : string :=
  (SavePath conf +:+ lang_of gallery +:+ "/" +:+ ValidFileName (title_of gallery))%string.

Definition savePath_with_id (conf : Conf) (gallery : Gallery) : string :=
  (SavePath conf +:+ lang_of gallery +:+ "/" +:+ ValidFileName (title_of gallery)
     +:+ " - " +:+ Id gallery)%string.

(** [DownloadImageHandler], lines 195 to 204: the write job of a good answer. *)
Definition fileName_of (img : Image) : string :=
  if HasAvif img =? 1
  then (hd EmptyString (Split (Name img) ".") +:+ ".avif")%string
  else if HasWebp img =? 1
  then (hd EmptyString (Split (Name img) ".") +:+ ".webp")%string
  else Name img.

Definition writeJob_of (job : Job) (res : Response) : WriteJob :=
  mkWriteJob (Body res) (JSavePath job +:+ "/" +:+ fileName_of (JImage job))%string.

(** [DownloadImageHandler], lines 211 to 217: the line it logs when it gives
    up. *)
Definition toPrint_of (env : Env) (job : Job) (res : Response) : string :=
  let toPrint := ("Download Image Fail: " +:+ Name (JImage job)
                    +:+ " Because Max Retry Times Reached")%string in
  let toPrint :=
    match RespErr res with
    | Some err => (toPrint +:+ Eol (GOOS_windows env) +:+ "Last Error: " +:+ err)%string
    | None => toPrint
    end in
  if negb (StatusCode res =? 200)
  then (toPrint +:+ Eol (GOOS_windows env) +:+ "Last Error: Status Code "
          +:+ Itoa (StatusCode res))%string
  else toPrint.

(** The goroutine of lines 106 to 116: at the head of the loop, about to log
    a failure (line 110), about to send (line 113). *)
Inductive ProducerPc :=
| P_range (rest : list string)
| P_log (msg : string) (rest : list string)
| P_send (gallery : Gallery) (rest : list string).

(** [main] from line 118 on: about to receive (line 119); in
    [DownloadGallery], about to print the empty line (145), to log the start
    (146), to make the directory (148), to make the directory with the id
    (151), to log an error (152, 156), to send the jobs left (166) and then to
    compare (121); in the last loop, about to read the counter (127), to print
    (128), to log the end (129). *)
Inductive MainPc :=
| M_recv (i : Z)
| M_blank (i : Z) (gallery : Gallery)
| M_start (i : Z) (gallery : Gallery)
| M_mkdir (i : Z) (gallery : Gallery)
| M_mkdir_id (i : Z) (gallery : Gallery) (err : PathError)
| M_error (i : Z) (gallery : Gallery) (err : PathError)
| M_send (i : Z) (gallery : Gallery) (jobs : list Job)
| M_wait
| M_newline
| M_finish
| M_done.

(** [DownloadImageWorker] with [DownloadImageHandler]: at the [select] (line
    172); with a job in hand, about to print the dot (184), to add to
    [downloadingCount] (185), to add to [downloadStartCount] (186), to make
    the request numbered [tries] (188 to 194), to send the write job (205), to
    log the failure (218), to take the job off [downloadingCount] (219); about
    to read [downloadingCount] and then [downloadStartCount] (177). *)
Inductive WorkerPc :=
| W_select
| W_print (job : Job)
| W_count (job : Job)
| W_started (job : Job)
| W_try (job : Job) (tries : Z)
| W_send (writeJob : WriteJob)
| W_log (msg : string)
| W_dec
| W_check
| W_check2
| W_exit.

(** [WriteWorker] with [WriterHandler]: at the [select] (line 229); with a
    write job in hand, about to write the file (243), to log the failure
    (244), to take the job off [downloadingCount] (246); about to read the two
    counters (236). *)
Inductive WriterPc :=
| Wr_select
| Wr_write (job : WriteJob)
| Wr_log (msg : string)
| Wr_dec
| Wr_check
| Wr_check2
| Wr_exit.

Record RunState := mkRunState {
  world : World;
  galleryUrls : list string;
  producerPc : ProducerPc;
  mainPc : MainPc;
  workers : list WorkerPc;
  writerPc : WriterPc;
  panicked : bool
}.

Inductive Thread :=
| T_producer
| T_main
| T_worker (k : nat)
| T_writer.

Definition has_room {A} (buffer : list A) (capacity : Z) : bool :=
  Z.of_nat (length buffer) <? capacity.

Definition cap_queue (w : World) : Z := ThreadNum (conf w).
Definition cap_galleryQueue (w : World) : Z := ThreadNum (conf w).
Definition cap_writeQueue (w : World) : Z := wrap64 (ThreadNum (conf w) * 100).

Definition with_producer (w : World) (pc : ProducerPc) (s : RunState) : RunState :=
  mkRunState w (galleryUrls s) pc (mainPc s) (workers s) (writerPc s) (panicked s).
Definition with_main (w : World) (pc : MainPc) (s : RunState) : RunState :=
  mkRunState w (galleryUrls s) (producerPc s) pc (workers s) (writerPc s) (panicked s).
Definition with_worker (w : World) (k : nat) (pc : WorkerPc) (s : RunState) : RunState :=
  mkRunState w (galleryUrls s) (producerPc s) (mainPc s) (<[k := pc]> (workers s))
             (writerPc s) (panicked s).
Definition with_writer (w : World) (pc : WriterPc) (s : RunState) : RunState :=
  mkRunState w (galleryUrls s) (producerPc s) (mainPc s) (workers s) pc (panicked s).
Definition with_panic (s : RunState) : RunState :=
  mkRunState (world s) (galleryUrls s) (producerPc s) (mainPc s) (workers s)
             (writerPc s) true.

(** The goroutine of lines 106 to 116. *)
Definition producer_step (env : Env) (s : RunState) : option RunState :=
  let w := world s in
  match producerPc s with
  | P_range [] => None
  | P_range (url :: rest) =>
      let '(w, r) := GalleryInfo env url w in
      match r with
      | inr err =>
          Some (with_producer w
                  (P_log ("Read Gallery Info Fail: " +:+ url +:+ " Because " +:+ err)%string
                         rest) s)
      | inl gallery => Some (with_producer w (P_send (with_Url url gallery) rest) s)
      end
  | P_log msg rest => Some (with_producer (log_Println msg w) (P_range rest) s)
  | P_send gallery rest =>
      if has_room (galleryQueue w) (cap_galleryQueue w)
      then Some (with_producer (send_galleryQueue gallery w) (P_range rest) s)
      else None
  end.

(** [main] from line 118 on, with the body of [DownloadGallery]. *)
Definition main_step (env : Env) (s : RunState) : option RunState :=
  let w := world s in
  match mainPc s with
  | M_recv i =>
      match galleryQueue w with
      | [] => None
      | gallery :: rest => Some (with_main (set_galleryQueue rest w) (M_blank i gallery) s)
      end
  | M_blank i gallery => Some (with_main (fmt_Println w) (M_start i gallery) s)
  | M_start i gallery =>
      Some (with_main
              (log_Println (start_line gallery i (Z.of_nat (length (galleryUrls s)))) w)
              (M_mkdir i gallery) s)
  | M_mkdir i gallery =>
      let '(w, err) := MkdirAll env (savePath_of (conf w) gallery) os_ModeDir w in
      match err with
      | Some err =>
          if IsExist err then Some (with_main w (M_mkdir_id i gallery err) s)
          else Some (with_main w (M_error i gallery err) s)
      | None =>
          Some (with_main w
                  (M_send i gallery (jobs_of gallery (savePath_of (conf w) gallery) (conf w)))
                  s)
      end
  | M_mkdir_id i gallery err =>
      let '(w, err2) := MkdirAll env (savePath_with_id (conf w) gallery) os_ModeDir w in
      match err2 with
      | Some err2 => Some (with_main w (M_error i gallery err2) s)
      | None => Some (with_main w (M_error i gallery err) s)
      end
  | M_error i gallery err =>
      Some (with_main (log_Print (PathError_Error err) w) (M_send i gallery []) s)
  | M_send i gallery (job :: jobs) =>
      if has_room (queue w) (cap_queue w)
      then Some (with_main (send_queue job w) (M_send i gallery jobs) s)
      else None
  | M_send i gallery [] =>
      if (i <? 0) then Some (with_panic s)
      else
        match galleryUrls s !! Z.to_nat i with
        | None => Some (with_panic s)
        | Some url =>
            if String.eqb (Url gallery) url
            then Some (with_main w M_wait s)
            else Some (with_main w (M_recv (add64 i 1)) s)
        end
  | M_wait =>
      if main_done w then Some (with_main w M_newline s) else Some s
  | M_newline => Some (with_main (fmt_Println w) M_finish s)
  | M_finish => Some (with_main (log_Println "Download Finish" w) M_done s)
  | M_done => None
  end.

(** [DownloadImageWorker] with the body of [DownloadImageHandler]. *)
Definition worker_step (env : Env) (k : nat) (s : RunState) : option RunState :=
  let w := world s in
  pc ← workers s !! k;
  match pc with
  | W_select =>
      match queue w with
      | job :: rest => Some (with_worker (set_queue rest w) k (W_print job) s)
      | [] => Some (with_worker w k W_check s)
      end
  | W_print job => Some (with_worker (fmt_Print "." w) k (W_count job) s)
  | W_count job => Some (with_worker (AddInt64_downloadingCount 1 w) k (W_started job) s)
  | W_started job => Some (with_worker (AddInt64_downloadStartCount 1 w) k (W_try job 1) s)
  | W_try job tries =>
      match request_of env job with
      | None => Some (with_panic s)
      | Some req =>
          let res := Client_Do env (net_clock w) req in
          let w := set_net_clock (S (net_clock w)) w in
          if response_ok res then Some (with_worker w k (W_send (writeJob_of job res)) s)
          else if Retry (conf w) <? tries
          then Some (with_worker w k (W_log (toPrint_of env job res)) s)
          else Some (with_worker w k (W_try job (add64 tries 1)) s)
      end
  | W_send writeJob =>
      if has_room (writeQueue w) (cap_writeQueue w)
      then Some (with_worker (send_writeQueue writeJob w) k W_check s)
      else None
  | W_log msg => Some (with_worker (log_Println msg w) k W_dec s)
  | W_dec => Some (with_worker (AddInt64_downloadingCount (-1) w) k W_check s)
  | W_check =>
      if downloadingCount w =? 0 then Some (with_worker w k W_check2 s)
      else Some (with_worker w k W_select s)
  | W_check2 =>
      if 0 <? downloadStartCount w then Some (with_worker w k W_exit s)
      else Some (with_worker w k W_select s)
  | W_exit => None
  end.

(** [WriteWorker] with the body of [WriterHandler]. *)
Definition writer_step (env : Env) (s : RunState) : option RunState :=
  let w := world s in
  match writerPc s with
  | Wr_select =>
      match writeQueue w with
      | job :: rest => Some (with_writer (set_writeQueue rest w) (Wr_write job) s)
      | [] => Some (with_writer w Wr_check s)
      end
  | Wr_write job =>
      let '(w, err) := WriteFile env (FileName job) (Content job) os_ModeAppend w in
      match err with
      | Some err =>
          Some (with_writer w
                  (Wr_log ("Download Image Fail: " +:+ FileName job +:+ " Because "
                             +:+ PathError_Error err)%string) s)
      | None => Some (with_writer w Wr_dec s)
      end
  | Wr_log msg => Some (with_writer (log_Print msg w) Wr_dec s)
  | Wr_dec => Some (with_writer (AddInt64_downloadingCount (-1) w) Wr_check s)
  | Wr_check =>
      if downloadingCount w =? 0 then Some (with_writer w Wr_check2 s)
      else Some (with_writer w Wr_select s)
  | Wr_check2 =>
      if 0 <? downloadStartCount w then Some (with_writer w Wr_exit s)
      else Some (with_writer w Wr_select s)
  | Wr_exit => None
  end.

(** A panic in any goroutine ends the process. *)
Definition step (env : Env) (t : Thread) (s : RunState) : option RunState :=
  if panicked s then None
  else
    match t with
    | T_producer => producer_step env s
    | T_main => main_step env s
    | T_worker k => worker_step env k s
    | T_writer => writer_step env s
    end.

Fixpoint run (env : Env) (schedule : list Thread) (s : RunState) : option RunState :=
  match schedule with
  | [] => Some s
  | t :: rest => s' ← step env t s; run env rest s'
  end.

(** The loop of lines 96 to 100 starts one worker per [i] below [ThreadNum]. *)
Definition spawn_workers (threadNum : Z) : list WorkerPc :=
  replicate (Z.to_nat threadNum) W_select.

(** [main] up to line 116: the state in which the goroutines start.  [lines]
    is what [strings.Split] makes of the trimmed [list.txt]; the file system is
    the one the run finds. *)
Definition start (env : Env) (c : Conf) (lines : list string)
    (dirs : gset string) (files : gmap string string) : RunState :=
  let c := normalize_ThreadNum env c in
  let galleryUrls := Unique lines in
  mkRunState (mkWorld c 0 0 [] [] [] dirs files [] 0%nat 0%nat)
             galleryUrls (P_range galleryUrls) (M_recv 0)
             (spawn_workers (ThreadNum c)) Wr_select false.

Definition reachable (env : Env) (s0 s : RunState) : Prop :=
  exists schedule, run env schedule s0 = Some s.

(** Every goroutine has ended: [main] has reported the end of the run, the
    producer has gone through its list, the workers have left their loops. *)
Definition all_ended (s : RunState) : bool :=
  match mainPc s, producerPc s, writerPc s with
  | M_done, P_range [], Wr_exit =>
      forallb (fun pc => match pc with W_exit => true | _ => false end) (workers s)
  | _, _, _ => false
  end.

(** A goroutine on its own: [n] steps of the goroutine [t]. *)
Definition alone (env : Env) (t : Thread) (n : nat) (s : RunState) : option RunState :=
  run env (replicate n t) s.

(** ** The words of the design document, for comparison with the code *)

(** [Dedup]: elements in first-seen order, duplicates removed. *)
Fixpoint Dedup_spec (l : list string) : list string :=
  match l with
  | [] => []
  | x :: rest => x :: filter (fun y => y ≠ x) (Dedup_spec rest)
  end.

(** The shard algorithm of the image locator. *)
Definition hex_digit (c : ascii) : option Z :=
  let n := byte_val c in
  if (48 <=? n) && (n <=? 57) then Some (n - 48)
  else if (97 <=? n) && (n <=? 102) then Some (n - 87)
  else if (65 <=? n) && (n <=? 70) then Some (n - 55)
  else None.

Definition parse16 (h2 : string) : option Z :=
  match h2 with
  | String c1 (String c2 EmptyString) =>
      v1 ← hex_digit c1; v2 ← hex_digit c2; Some (16 * v1 + v2)
  | _ => None
  end.

Definition shard_count (g : Z) : Z := if g <? 48 then 2 else 3.
Definition clamp_g (g : Z) : Z := if g <? 9 then 1 else g.
Definition shard_letter (g : Z) : ascii := byte_of (97 + clamp_g g mod shard_count g).

Definition uses_variant (img : Image) : bool := (HasAvif img =? 1) || (HasWebp img =? 1).
Definition kind_suffix (img : Image) : ascii := if uses_variant img then "a"%char else "b"%char.
Definition kind_directory (img : Image) : string :=
  if HasAvif img =? 1 then "avif" else if HasWebp img =? 1 then "webp" else "images".
Definition kind_extension (windows : bool) (img : Image) : string :=
  if HasAvif img =? 1 then ".avif"
  else if HasWebp img =? 1 then ".webp"
  else filepath_Ext windows (Name img).

(** The last character of the hash, and the two before it. *)
Definition h1_of (img : Image) : string :=
  substring (String.length (Hash img) - 1) 1 (Hash img).
Definition h2_of (img : Image) : string :=
  substring (String.length (Hash img) - 3) 2 (Hash img).

Definition ImageUrl_spec (windows : bool) (img : Image) (g : Z) : string :=
  ("https://" +:+ String (shard_letter g) (String (kind_suffix img) EmptyString)
     +:+ ".hitomi.la/" +:+ kind_directory img +:+ "/" +:+ h1_of img +:+ "/"
     +:+ h2_of img +:+ "/" +:+ Hash img +:+ kind_extension windows img)%string.

(** The directory of a gallery: language, or "null", and sanitized title. *)
Definition destination_dir (c : Conf) (gallery : Gallery) : string :=
  (SavePath c
     +:+ (if String.eqb (Lang gallery) EmptyString then "null" else Lang gallery)
     +:+ "/"
     +:+ ValidFileName (if String.eqb (JpTitle gallery) EmptyString
                        then Title gallery else JpTitle gallery))%string.

(** The claim of the design document on the whole run: once everything has
    ended, as many write jobs were sent as the resolved galleries have
    images. *)
Definition images_of (gs : list Gallery) : nat :=
  sum_list_with (fun g => length (Files g)) gs.

Definition WriteJobs_match_images (env : Env) (s0 : RunState) : Prop :=
  forall s, reachable env s0 s -> all_ended s = true ->
            length (writeJobs_sent (trace (world s)))
            = images_of (galleries_sent (trace (world s))).

(** Channels, counters and configuration are the same, and nothing was sent in
    between: only the log, the file system and the clocks may differ. *)
Record quiet (w w' : World) : Prop := mkQuiet {
  q_conf : conf w' = conf w;
  q_downloadingCount : downloadingCount w' = downloadingCount w;
  q_downloadStartCount : downloadStartCount w' = downloadStartCount w;
  q_queue : queue w' = queue w;
  q_galleryQueue : galleryQueue w' = galleryQueue w;
  q_writeQueue : writeQueue w' = writeQueue w;
  q_jobs : jobs_sent (trace w') = jobs_sent (trace w);
  q_writeJobs : writeJobs_sent (trace w') = writeJobs_sent (trace w);
  q_galleries : galleries_sent (trace w') = galleries_sent (trace w)
}.

(** ** Sample environments and inputs *)

Module Sample.

Definition img_a : Image := mkImage "1.jpg" "abcdef00a" 0 0.

Definition gallery_1 : Gallery := mkGallery "1" "T" EmptyString EmptyString [img_a] EmptyString.
Definition gallery_2 : Gallery := mkGallery "2" "T" EmptyString EmptyString [img_a] EmptyString.
Definition gallery_empty : Gallery := mkGallery "3" "E" EmptyString EmptyString [] EmptyString.

Definition url_1 : string := "https://hitomi.la/galleries/x-1.html".
Definition url_2 : string := "https://hitomi.la/galleries/y-2.html".
Definition url_3 : string := "https://hitomi.la/galleries/z-3.html".

(** The metadata server knows the galleries 1, 2 and 3. *)
Definition get (n : nat) (url : string) : GetResult :=
  if String.eqb url "https://ltn.hitomi.la/galleries/1.js"
  then mkGetResult 200 "var galleryinfo = 1" None
  else if String.eqb url "https://ltn.hitomi.la/galleries/2.js"
  then mkGetResult 200 "var galleryinfo = 2" None
  else if String.eqb url "https://ltn.hitomi.la/galleries/3.js"
  then mkGetResult 200 "var galleryinfo = 3" None
  else mkGetResult 404 EmptyString None.

Definition decode (body : string) : Gallery + string :=
  if String.eqb body "1" then inl gallery_1
  else if String.eqb body "2" then inl gallery_2
  else if String.eqb body "3" then inl gallery_empty
  else inr "invalid character"%string.

Definition found : Response := mkResponse None 200 3 "abc".
Definition not_found : Response := mkResponse None 404 9 "not found".

(** The image server fails the first [failures] requests. *)
Definition do_after (failures : nat) (n : nat) (req : Request) : Response :=
  if (n <? failures)%nat then not_found else found.
Definition do_never (n : nat) (req : Request) : Response := not_found.

Definition no_fault (n : nat) : option Fault := None.
Definition fault_at (k : nat) (e : Errno) (n : nat) : option Fault :=
  if (n =? k)%nat then Some (mkFault e 0) else None.

Definition env_good (cpus : Z) : Env := mkEnv false cpus get (do_after 0) decode no_fault.
Definition env_flaky (failures : nat) : Env :=
  mkEnv false 2 get (do_after failures) decode no_fault.
Definition env_down : Env := mkEnv false 1 get do_never decode no_fault.
Definition env_exists : Env := mkEnv false 2 get (do_after 0) decode (fault_at 0 EEXIST).

Definition conf_of (retry threads : Z) : Conf := mkConf "save/" EmptyString retry threads.

Definition world_0 (c : Conf) : World := mkWorld c 0 0 [] [] [] ∅ ∅ [] 0%nat 0%nat.

Definition job_a : Job := mkJob img_a (with_Url url_1 gallery_1) "save/null/T" (conf_of 2 2).

Definition world_with_file : World :=
  set_fs_files {[ "save/null/T/1.jpg"%string := "old contents"%string ]}
               (world_0 (conf_of 2 2)).

(** Two galleries of the same title, one after the other. *)
Definition two_galleries (env : Env) : World :=
  let c := conf_of 2 2 in
  DownloadGallery env (with_Url url_2 gallery_2) 1 2 c
    (DownloadGallery env (with_Url url_1 gallery_1) 0 2 c (world_0 c)).

Definition req_a : Request :=
  mkRequest "https://bb.hitomi.la/images/a/00/abcdef00a.jpg" "GET"
            "https://hitomi.la/reader/1.html" UserAgent.

(** The producer resolves and sends the one gallery; [main] takes it, sends
    its job, leaves its first loop, reads the counter and reports the end, all
    before any worker has moved. *)
Definition schedule_early : list Thread :=
  replicate 2 T_producer ++ replicate 9 T_main.

(** The same for a gallery without images: no job is ever sent. *)
Definition schedule_empty : list Thread :=
  replicate 2 T_producer ++ replicate 8 T_main.

Definition url_bad : string := "https://hitomi.la/galleries/w-9.html".

(** One image from the queue to the disk: a worker takes the job, counts it,
    fetches the image and sends the write job; the writer writes it and
    leaves; the worker leaves; a second worker looks and leaves. *)
Definition schedule_image : list Thread :=
  replicate 6 (T_worker 0) ++ replicate 5 T_writer ++ replicate 2 (T_worker 0)
    ++ replicate 3 (T_worker 1).

(** The first identifier does not resolve, the second does: its image is
    downloaded and written, and every goroutine but [main] ends. *)
Definition schedule_blocked : list Thread :=
  replicate 4 T_producer ++ replicate 6 T_main ++ schedule_image.

(** Two galleries that resolve: a whole run. *)
Definition schedule_two : list Thread :=
  replicate 4 T_producer ++ replicate 6 T_main ++ schedule_image ++ replicate 3 T_main.

(** Three identifiers, the second of which does not resolve: a whole run. *)
Definition schedule_skipped : list Thread :=
  replicate 6 T_producer ++ replicate 6 T_main ++ schedule_image ++ replicate 3 T_main.

(** Four identifiers and one worker, so that [galleryQueue] holds one
    gallery: the producer sends the first two galleries and waits to send the
    third, while [main] deals with the first, one worker and the writer do
    their work and leave, and [main] reports the end. *)
Definition schedule_stuck : list Thread :=
  replicate 3 T_producer ++ [T_main] ++ replicate 2 T_producer ++ replicate 5 T_main
    ++ replicate 6 (T_worker 0) ++ replicate 5 T_writer ++ replicate 2 (T_worker 0)
    ++ replicate 3 T_main.

End Sample.

(** ** More of the code in words, for comparison *)

(** The characters [ValidFileName] removes. *)
Definition is_illegal (c : ascii) : bool :=
  existsb (Ascii.eqb c)
          [":"; "/"; "\"; "?"; "*"; byte_of 34; "<"; ">"; "|"]%char.

(** The characters of a string that pass a test, in their order. *)
Fixpoint keep (P : ascii -> bool) (s : string) : string :=
  match s with
  | EmptyString => EmptyString
  | String c rest => if P c then String c (keep P rest) else keep P rest
  end.

(** Whether the character [c] occurs in a string. *)
Fixpoint has_char (c : ascii) (s : string) : bool :=
  match s with
  | EmptyString => false
  | String a rest => Ascii.eqb a c || has_char c rest
  end.

Definition one_byte (c : ascii) : string := String c EmptyString.

(** Whether [old] occurs in a string. *)
Fixpoint occurs (old : string) (s : string) : bool :=
  String.prefix old s
  || match s with
     | EmptyString => false
     | String _ rest => occurs old rest
     end.

Definition galleries_address (id : string) : string :=
  ("https://ltn.hitomi.la/galleries/" +:+ id +:+ ".js")%string.

Definition wrapper : string := "var galleryinfo = ".

(** The name a downloaded image is saved under; [stem] is the name up to its
    first dot. *)
Definition saved_name (img : Image) (stem : string) : string :=
  if HasAvif img =? 1 then (stem +:+ ".avif")%string
  else if HasWebp img =? 1 then (stem +:+ ".webp")%string
  else Name img.

(** The subdomains [ImageUrl] can name. *)
Definition subdomains : list string :=
  ["a"; "aa"; "ba"; "ca"; "ab"; "bb"; "cb"]%string.

(** ** Invariants of a run *)

(** A worker counts in [downloadingCount] from its addition of line 185 to
    its send of line 205 or its subtraction of line 219; the writer from its
    receive of line 230 to its subtraction of line 246. *)
Definition in_flight (pc : WorkerPc) : nat :=
  match pc with
  | W_started _ | W_try _ _ | W_send _ | W_log _ | W_dec => 1
  | _ => 0
  end.

Definition in_flight_workers (pcs : list WorkerPc) : nat := sum_list_with in_flight pcs.

Definition writing (pc : WriterPc) : nat :=
  match pc with
  | Wr_write _ | Wr_log _ | Wr_dec => 1
  | _ => 0
  end.

(** A worker that has taken a job from the queue and has not yet added it to
    [downloadStartCount] (line 186). *)
Definition unstarted (pc : WorkerPc) : nat :=
  match pc with
  | W_print _ | W_count _ | W_started _ => 1
  | _ => 0
  end.

Definition unstarted_workers (pcs : list WorkerPc) : nat := sum_list_with unstarted pcs.

(** What the two counters count, as [int64]. *)
Definition counted (s : RunState) : Prop :=
  let w := world s in
  downloadingCount w
    = wrap64 (Z.of_nat (in_flight_workers (workers s) + length (writeQueue w)
                        + writing (writerPc s)))
  /\ downloadStartCount w
     = wrap64 (Z.of_nat (length (jobs_sent (trace w))) - Z.of_nat (length (queue w))
               - Z.of_nat (unstarted_workers (workers s))).

(** No channel holds more than its capacity. *)
Definition within_capacity (s : RunState) : Prop :=
  let w := world s in
  Z.of_nat (length (queue w)) <= Z.max 0 (cap_queue w)
  /\ Z.of_nat (length (galleryQueue w)) <= Z.max 0 (cap_galleryQueue w)
  /\ Z.of_nat (length (writeQueue w)) <= Z.max 0 (cap_writeQueue w).

(** Images whose hash [ImageUrl] can slice. *)
Definition good_image (img : Image) : Prop := 3 <= len (Hash img).
Definition good_gallery (g : Gallery) : Prop := Forall good_image (Files g).
Definition good_job (j : Job) : Prop := good_image (JImage j).

(** The decoder only yields galleries of such images. *)
Definition well_decoded (env : Env) : Prop :=
  forall body g, json_Unmarshal env body = inl g -> good_gallery g.

(** The identifiers the producer has not dealt with yet. *)
Definition remaining (pc : ProducerPc) : nat :=
  match pc with
  | P_range rest | P_log _ rest => length rest
  | P_send _ rest => S (length rest)
  end.

Definition good_producer (pc : ProducerPc) : Prop :=
  match pc with
  | P_send g _ => good_gallery g
  | P_range _ | P_log _ _ => True
  end.

Definition good_worker (pc : WorkerPc) : Prop :=
  match pc with
  | W_print job | W_count job | W_started job | W_try job _ => good_job job
  | _ => True
  end.

(** The index of [main] stays below the number of identifiers that can still
    reach it. *)
Definition good_main (s : RunState) : Prop :=
  let ahead := (length (galleryQueue (world s)) + remaining (producerPc s))%nat in
  match mainPc s with
  | M_recv i => 0 <= i /\ i + Z.of_nat ahead <= Z.of_nat (length (galleryUrls s))
  | M_blank i g | M_start i g | M_mkdir i g | M_mkdir_id i g _ | M_error i g _ =>
      0 <= i /\ i + 1 + Z.of_nat ahead <= Z.of_nat (length (galleryUrls s))
      /\ good_gallery g
  | M_send i _ jobs =>
      0 <= i /\ i + 1 + Z.of_nat ahead <= Z.of_nat (length (galleryUrls s))
      /\ Forall good_job jobs
  | M_wait | M_newline | M_finish | M_done => True
  end.

Definition sound (s : RunState) : Prop :=
  panicked s = false
  /\ good_main s
  /\ good_producer (producerPc s)
  /\ Forall good_gallery (galleryQueue (world s))
  /\ Forall good_job (queue (world s))
  /\ Forall good_worker (workers s).

(** Where the jobs of a run come from.  A job is made by [DownloadGallery]
    for an image of a gallery that the producer has sent; a write job is made
    by [DownloadImageHandler] for such a job. *)
Definition job_from (c : Conf) (sent : list Gallery) (job : Job) : Prop :=
  JGallery job ∈ sent
  /\ JImage job ∈ Files (JGallery job)
  /\ JSavePath job = savePath_of c (JGallery job).

Definition writeJob_from (c : Conf) (sent : list Gallery) (writeJob : WriteJob) : Prop :=
  exists gallery img,
    gallery ∈ sent /\ img ∈ Files gallery
    /\ FileName writeJob = (savePath_of c gallery +:+ "/" +:+ fileName_of img)%string.

Definition worker_from (c : Conf) (sent : list Gallery) (pc : WorkerPc) : Prop :=
  match pc with
  | W_print job | W_count job | W_started job | W_try job _ => job_from c sent job
  | W_send writeJob => writeJob_from c sent writeJob
  | _ => True
  end.

Definition main_from (c : Conf) (sent : list Gallery) (pc : MainPc) : Prop :=
  match pc with
  | M_blank _ g | M_start _ g | M_mkdir _ g | M_mkdir_id _ g _ | M_error _ g _ => g ∈ sent
  | M_send _ g jobs => g ∈ sent /\ Forall (job_from c sent) jobs
  | _ => True
  end.

Definition traced (c : Conf) (s : RunState) : Prop :=
  let w := world s in
  let sent := galleries_sent (trace w) in
  conf w = c
  /\ Forall (fun g => g ∈ sent) (galleryQueue w)
  /\ main_from c sent (mainPc s)
  /\ Forall (job_from c sent) (queue w)
  /\ Forall (worker_from c sent) (workers s)
  /\ Forall (writeJob_from c sent) (writeQueue w)
  /\ match writerPc s with
     | Wr_write writeJob => writeJob_from c sent writeJob
     | _ => True
     end.

(** [main] and the first gallery.  While [main] is at index 0, the gallery it
    has, or the next one it will get, is that of the first identifier; and
    every job sent so far is a job of that gallery. *)
Definition of_url (url : string) (job : Job) : Prop := Url (JGallery job) = url.

Definition first_only (url : string) (s : RunState) : Prop :=
  let w := world s in
  Forall (of_url url) (jobs_sent (trace w))
  /\ match mainPc s with
     | M_recv i =>
         i = 0
         /\ match galleryQueue w with
            | g :: _ => Url g = url
            | [] =>
                match producerPc s with
                | P_range (u :: _) => u = url
                | P_send g _ => Url g = url
                | _ => False
                end
            end
     | M_blank i g | M_start i g | M_mkdir i g | M_mkdir_id i g _ | M_error i g _ =>
         i = 0 /\ Url g = url
     | M_send i g jobs => i = 0 /\ Url g = url /\ Forall (of_url url) jobs
     | M_wait | M_newline | M_finish | M_done => True
     end.

(** * Properties *)

(** ** Integers, slices and lists *)

Lemma len_nonneg s : 0 <= len s.
Proof. unfold len. lia. Qed.

Lemma slice_Some s lo hi :
  0 <= lo -> lo <= hi -> hi <= len s ->
  slice s lo hi = Some (substring (Z.to_nat lo) (Z.to_nat (hi - lo)) s).
Proof.
  intros H1 H2 H3. unfold slice.
  rewrite (proj2 (Z.leb_le _ _) H1), (proj2 (Z.leb_le _ _) H2), (proj2 (Z.leb_le _ _) H3).
  reflexivity.
Qed.

Lemma slice_None s lo hi : lo < 0 -> slice s lo hi = None.
Proof.
  intros H. unfold slice. rewrite (proj2 (Z.leb_gt _ _) H). reflexivity.
Qed.

Lemma wrap64_small z : - 2^63 <= z < 2^63 -> wrap64 z = z.
Proof. intros H. unfold wrap64. rewrite Z.mod_small; lia. Qed.

Lemma add64_cancel c d : in_int64 c -> add64 (add64 c d) (- d) = c.
Proof.
  intros Hc. unfold add64, wrap64, in_int64 in *.
  replace ((c + d + 2 ^ 63) mod 2 ^ 64 - 2 ^ 63 + - d + 2 ^ 63)
    with ((c + d + 2 ^ 63) mod 2 ^ 64 + - d) by lia.
  rewrite Zplus_mod_idemp_l.
  replace (c + d + 2 ^ 63 + - d) with (c + 2 ^ 63) by lia.
  rewrite Z.mod_small; lia.
Qed.

(** ** [Unique] *)

Lemma filter_all {A} (P : A → Prop) `{∀ x, Decision (P x)} (l : list A) :
  (∀ x, x ∈ l → P x) → filter P l = l.
Proof.
  induction l as [|x l IH]; intros HP; [done|].
  rewrite filter_cons_True by (apply HP; left).
  f_equal. apply IH. intros y Hy. apply HP. by right.
Qed.

Lemma Unique_loop_spec (l : list string) (keys : gset string) (acc : list string) :
  Unique_loop l keys acc = acc ++ filter (fun y => y ∉ keys) (Dedup_spec l).
Proof.
  revert keys acc. induction l as [|x l IH]; intros keys acc; simpl.
  - by rewrite app_nil_r.
  - case_decide as Hx.
    + rewrite IH. f_equal. rewrite filter_cons_False by (intros Hn; by apply Hn).
      rewrite list_filter_filter. apply list_filter_iff. intros y. split; [|tauto].
      intros Hy. split; [done|]. intros ->. done.
    + rewrite IH. rewrite <- app_assoc. simpl. f_equal.
      rewrite filter_cons_True by done. f_equal.
      rewrite list_filter_filter. apply list_filter_iff. intros y.
      rewrite not_elem_of_union, not_elem_of_singleton. tauto.
Qed.

Lemma Unique_Dedup_spec l : Unique l = Dedup_spec l.
Proof.
  unfold Unique. rewrite Unique_loop_spec. simpl.
  apply filter_all. intros y _. apply not_elem_of_empty.
Qed.

Lemma Dedup_spec_elem l x : x ∈ Dedup_spec l ↔ x ∈ l.
Proof.
  induction l as [|y l IH]; simpl; [done|].
  rewrite !elem_of_cons, list_elem_of_filter, IH.
  destruct (decide (x = y)); tauto.
Qed.

Lemma Dedup_spec_NoDup l : NoDup (Dedup_spec l).
Proof.
  induction l as [|y l IH]; simpl; constructor.
  - rewrite list_elem_of_filter. intros [Hne _]. by apply Hne.
  - by apply NoDup_filter.
Qed.

Lemma Dedup_spec_fixed l : NoDup l → Dedup_spec l = l.
Proof.
  induction 1 as [|x l Hx Hl IH]; simpl; [done|].
  rewrite IH. f_equal. apply filter_all.
  intros y Hy ->. done.
Qed.

(** C9.  [Unique] is idempotent; it returns the elements in first-seen order
    with duplicates removed (it is [Dedup_spec]): no element occurs twice, the
    elements are those of the input, and [Unique ["a"; "b"; "a"]] is
    ["a"; "b"]. *)
Theorem Unique_idempotent (x : list string) :
  Unique (Unique x) = Unique x
  ∧ Unique x = Dedup_spec x
  ∧ NoDup (Unique x)
  ∧ (∀ s, s ∈ Unique x ↔ s ∈ x)
  ∧ Unique ["a"; "b"; "a"]%string = ["a"; "b"]%string.
Proof.
  rewrite !Unique_Dedup_spec. split_and!.
  - apply Dedup_spec_fixed, Dedup_spec_NoDup.
  - done.
  - apply Dedup_spec_NoDup.
  - intros s. apply Dedup_spec_elem.
  - vm_compute. reflexivity.
Qed.

(** ** [ImageUrl] *)

(** C10.  [ImageUrl] returns a value exactly for the images whose hash has at
    least three bytes; for a shorter hash a slice expression is out of range. *)
Theorem ImageUrl_defined_iff (windows : bool) (img : Image) :
  is_Some (ImageUrl windows img) <-> 3 <= len (Hash img).
Proof.
  unfold ImageUrl, slice_from. pose proof (len_nonneg (Hash img)) as Hn.
  destruct (Z_lt_le_dec (len (Hash img)) 3) as [Hlt|Hge].
  - split; [|lia]. intros [u Hu]. exfalso.
    rewrite (slice_None _ (len (Hash img) - 3)) in Hu by lia.
    destruct (slice (Hash img) (len (Hash img) - 1) (len (Hash img))); discriminate.
  - split; [done|]. intros _.
    rewrite !slice_Some by lia. simpl.
    destruct (HasAvif img =? 1), (HasWebp img =? 1); simpl; eauto.
Qed.

Lemma hex_digit_digit_val c v :
  hex_digit c = Some v ->
  digit_val c = Some v /\ 0 <= v < 16 /\ Ascii.eqb c "+" = false /\ Ascii.eqb c "-" = false.
Proof.
  destruct c as [[] [] [] [] [] [] [] []]; vm_compute; intros H;
    first [discriminate H | injection H as <-; repeat split; discriminate].
Qed.

Lemma ParseInt_hex2 c1 c2 v1 v2 :
  hex_digit c1 = Some v1 -> hex_digit c2 = Some v2 ->
  ParseInt (String c1 (String c2 EmptyString)) 16 64 = inl (16 * v1 + v2).
Proof.
  intros H1 H2.
  destruct (hex_digit_digit_val _ _ H1) as (D1 & R1 & P1 & M1).
  destruct (hex_digit_digit_val _ _ H2) as (D2 & R2 & _ & _).
  unfold ParseInt. rewrite P1, M1. unfold ParseUint.
  cbn [ParseUint_loop]. rewrite D1, D2.
  change (2 ^ 64 - 1) with 18446744073709551615.
  change (18446744073709551615 / 16 + 1) with 1152921504606846976.
  change (2 ^ (64 - 1)) with 9223372036854775808.
  replace (16 <=? v1) with false by (symmetry; apply Z.leb_gt; lia).
  replace (16 <=? v2) with false by (symmetry; apply Z.leb_gt; lia).
  replace (1152921504606846976 <=? 0) with false by reflexivity.
  replace (18446744073709551615 <? 0 * 16 + v1) with false
    by (symmetry; apply Z.ltb_ge; lia).
  replace (1152921504606846976 <=? 0 * 16 + v1) with false
    by (symmetry; apply Z.leb_gt; lia).
  replace (18446744073709551615 <? (0 * 16 + v1) * 16 + v2) with false
    by (symmetry; apply Z.ltb_ge; lia).
  cbn [negb andb].
  replace (9223372036854775808 <=? (0 * 16 + v1) * 16 + v2) with false
    by (symmetry; apply Z.leb_gt; lia).
  f_equal. lia.
Qed.

Lemma parse16_range h2 g : parse16 h2 = Some g -> 0 <= g < 256.
Proof.
  destruct h2 as [|c1 [|c2 [|]]]; try discriminate. simpl.
  destruct (hex_digit c1) as [v1|] eqn:H1; [|discriminate].
  destruct (hex_digit c2) as [v2|] eqn:H2; [|discriminate].
  simpl. intros [= <-].
  destruct (hex_digit_digit_val _ _ H1) as (_ & R1 & _).
  destruct (hex_digit_digit_val _ _ H2) as (_ & R2 & _). lia.
Qed.

Lemma ParseInt_parse16 h2 g : parse16 h2 = Some g -> ParseInt h2 16 64 = inl g.
Proof.
  destruct h2 as [|c1 [|c2 [|]]]; try discriminate. simpl parse16.
  destruct (hex_digit c1) as [v1|] eqn:H1; [|discriminate].
  destruct (hex_digit c2) as [v2|] eqn:H2; [|discriminate].
  simpl. intros [= <-]. by apply ParseInt_hex2.
Qed.

Lemma string_of_rune_ascii r :
  0 <= r < 128 -> string_of_rune r = String (byte_of r) EmptyString.
Proof.
  intros H. unfold string_of_rune.
  replace (r <? 0) with false by (symmetry; apply Z.ltb_ge; lia).
  replace (1114111 <? r) with false by (symmetry; apply Z.ltb_ge; lia).
  replace (55296 <=? r) with false by (symmetry; apply Z.leb_gt; lia).
  replace (r <? 128) with true by (symmetry; apply Z.ltb_lt; lia).
  reflexivity.
Qed.

Lemma shard_code g :
  0 <= g ->
  string_of_rune (add64 97 (Z.rem (if g <? 9 then 1 else g) (if g <? 48 then 2 else 3)))
  = String (shard_letter g) EmptyString.
Proof.
  intros Hg. unfold shard_letter, clamp_g, shard_count, add64.
  set (g' := if g <? 9 then 1 else g). set (n := if g <? 48 then 2 else 3).
  assert (0 <= g') by (unfold g'; destruct (Z.ltb_spec g 9); lia).
  assert (0 < n <= 3) by (unfold n; destruct (Z.ltb_spec g 48); lia).
  rewrite Z.rem_mod_nonneg by lia.
  pose proof (Z.mod_pos_bound g' n ltac:(lia)).
  rewrite wrap64_small by lia.
  apply string_of_rune_ascii. lia.
Qed.

(** C2.  For an image whose hash has at least three bytes and whose [h2] is
    two hex digits of value [g], [ImageUrl] builds the address of the shard
    algorithm: two shards when [g < 0x30] and three otherwise, [g] clamped to
    1 when [g < 0x09], letter ['a' + g mod shards], then ['a'] for avif and
    webp and ['b'] for the original; for [h2 = "00"] the letter is ['b']. *)
Theorem ImageUrl_shard (windows : bool) (img : Image) (g : Z) :
  3 <= len (Hash img) ->
  parse16 (h2_of img) = Some g ->
  ImageUrl windows img = Some (ImageUrl_spec windows img g)
  /\ (h2_of img = "00"%string -> shard_letter g = "b"%char).
Proof.
  intros Hlen Hg. split.
  - unfold ImageUrl, slice_from. pose proof (len_nonneg (Hash img)).
    rewrite !slice_Some by lia. cbn [mbind option_bind].
    replace (Z.to_nat (len (Hash img) - 3)) with (String.length (Hash img) - 3)%nat
      by (unfold len; lia).
    replace (Z.to_nat (len (Hash img) - 1 - (len (Hash img) - 3))) with 2%nat by lia.
    replace (Z.to_nat (len (Hash img) - 1)) with (String.length (Hash img) - 1)%nat
      by (unfold len; lia).
    replace (Z.to_nat (len (Hash img) - (len (Hash img) - 1))) with 1%nat by lia.
    fold (h1_of img). fold (h2_of img).
    rewrite (ParseInt_parse16 _ _ Hg).
    pose proof (parse16_range _ _ Hg) as Hr.
    unfold ImageUrl_spec, kind_suffix, kind_directory, kind_extension, uses_variant.
    destruct (HasAvif img =? 1); [|destruct (HasWebp img =? 1)]; cbn [orb];
      rewrite shard_code by lia; reflexivity.
  - intros E. rewrite E in Hg. vm_compute in Hg. by injection Hg as <-.
Qed.

Lemma ImageUrl_shard_witness :
  3 <= len (Hash Sample.img_a)
  /\ parse16 (h2_of Sample.img_a) = Some 0
  /\ ImageUrl false Sample.img_a
     = Some "https://bb.hitomi.la/images/a/00/abcdef00a.jpg"%string
  /\ shard_letter 0 = "b"%char.
Proof.
  assert (3 <= len (Hash Sample.img_a)) as Hlen by (vm_compute; discriminate).
  assert (parse16 (h2_of Sample.img_a) = Some 0) as Hg by reflexivity.
  split; [exact Hlen|]. split; [exact Hg|].
  destruct (ImageUrl_shard false Sample.img_a 0 Hlen Hg) as [Hurl Hb].
  split; [exact Hurl | exact (Hb eq_refl)].
Defined.

(** ** The pool of download workers *)

Lemma workers_start env c lines dirs files :
  workers (start env c lines dirs files)
  = spawn_workers (ThreadNum (normalize_ThreadNum env c)).
Proof. reflexivity. Qed.

(** C8, as stated, fails: with a configured count of 0 and 4 processors the
    pool has 4 workers, and the minimum of the two is 0. *)
Lemma pool_not_min :
  Z.of_nat (length (workers (start (Sample.env_good 4) (Sample.conf_of 2 0) [] ∅ ∅)))
  <> Z.min (ThreadNum (Sample.conf_of 2 0)) (NumCPU (Sample.env_good 4)).
Proof. vm_compute. discriminate. Qed.

(** C8, amended.  A configured count of at least 1 gives the minimum of the
    configured count and the number of processors; a configured count below 1
    gives the number of processors. *)
Theorem pool_size (env : Env) (c : Conf) (lines : list string)
    (dirs : gset string) (files : gmap string string) :
  0 < NumCPU env ->
  Z.of_nat (length (workers (start env c lines dirs files)))
  = if ThreadNum c <? 1 then NumCPU env else Z.min (ThreadNum c) (NumCPU env).
Proof.
  intros Hcpu. rewrite workers_start. unfold spawn_workers, normalize_ThreadNum.
  rewrite length_replicate.
  destruct (Z.ltb_spec (ThreadNum c) 1) as [H1|H1]; cbn [orb].
  - simpl. lia.
  - destruct (Z.ltb_spec (NumCPU env) (ThreadNum c)) as [H2|H2]; simpl; lia.
Qed.

Lemma pool_size_witness :
  0 < NumCPU (Sample.env_good 4)
  /\ Z.of_nat (length (workers (start (Sample.env_good 4) (Sample.conf_of 2 3) [] ∅ ∅))) = 3
  /\ Z.of_nat (length (workers (start (Sample.env_good 4) (Sample.conf_of 2 9) [] ∅ ∅))) = 4.
Proof.
  split; [reflexivity|]. split.
  - apply (pool_size (Sample.env_good 4) (Sample.conf_of 2 3) [] ∅ ∅). reflexivity.
  - apply (pool_size (Sample.env_good 4) (Sample.conf_of 2 9) [] ∅ ∅). reflexivity.
Defined.

(** ** [WriterHandler] *)

(** [WriteFile] reports no error exactly when none of its three system calls
    faults and the name is not a directory; the file then holds the data. *)
Lemma WriteFile_ok env filename data perm w w' :
  WriteFile env filename data perm w = (w', None) ->
  fs_files w' = <[filename := data]> (fs_files w)
  /\ fs_dirs w' = fs_dirs w
  /\ downloadingCount w' = downloadingCount w
  /\ trace w' = trace w.
Proof.
  unfold WriteFile, syscall.
  destruct (os_fault env (os_clock w)); [intros [=]|].
  cbn. case_decide; [intros [=]|].
  destruct (os_fault env (S (os_clock w))); [intros [=]|].
  destruct (os_fault env (S (S (os_clock w)))); intros [= <-].
  cbn. by rewrite insert_insert_eq.
Qed.

(** C7.  When the write of a write job succeeds, the file at its path holds
    exactly its payload, whatever the file held before; no other file
    changes, and the in-flight counter goes down by one. *)
Theorem WriterHandler_overwrites (env : Env) (job : WriteJob) (w : World) :
  snd (WriteFile env (FileName job) (Content job) os_ModeAppend w) = None ->
  let w' := WriterHandler env job w in
  fs_files w' !! FileName job = Some (Content job)
  /\ (forall other, other <> FileName job -> fs_files w' !! other = fs_files w !! other)
  /\ downloadingCount w' = add64 (downloadingCount w) (-1)
  /\ trace w' = trace w.
Proof.
  intros Hok. unfold WriterHandler.
  destruct (WriteFile env (FileName job) (Content job) os_ModeAppend w) as [w1 err] eqn:E.
  simpl in Hok. subst err.
  destruct (WriteFile_ok _ _ _ _ _ _ E) as (Hf & Hd & Hc & Ht).
  cbn. rewrite Hf, Hc, Ht. split_and!; try done.
  - apply lookup_insert_eq.
  - intros other Hne. by apply lookup_insert_ne.
Qed.

Lemma WriterHandler_overwrites_witness :
  fs_files Sample.world_with_file !! "save/null/T/1.jpg"%string = Some "old contents"%string
  /\ fs_files (WriterHandler (Sample.env_good 2)
                 (mkWriteJob "abc" "save/null/T/1.jpg") Sample.world_with_file)
       !! "save/null/T/1.jpg"%string = Some "abc"%string.
Proof.
  split; [reflexivity|].
  apply (WriterHandler_overwrites (Sample.env_good 2)
           (mkWriteJob "abc" "save/null/T/1.jpg") Sample.world_with_file).
  reflexivity.
Defined.

(** Whether or not the write succeeds, the counter goes down by one, and the
    file is either as it was or holds a prefix of the payload. *)
Lemma WriterHandler_never_appends (env : Env) (job : WriteJob) (w : World) :
  let w' := WriterHandler env job w in
  downloadingCount w' = add64 (downloadingCount w) (-1)
  /\ (fs_files w' !! FileName job = fs_files w !! FileName job
      \/ exists k, fs_files w' !! FileName job = Some (substring 0 k (Content job))).
Proof.
  unfold WriterHandler, WriteFile, syscall.
  destruct (os_fault env (os_clock w)); cbn; [by auto|].
  case_decide; cbn; [by auto|].
  destruct (os_fault env (S (os_clock w))) as [f|]; cbn.
  - split; [done|]. right. exists (written f). by rewrite lookup_insert_eq.
  - assert (substring 0 (String.length (Content job)) (Content job) = Content job) as Hs.
    { generalize (Content job). induction s; simpl; congruence. }
    destruct (os_fault env (S (S (os_clock w)))); cbn; (split; [done|]); right;
      exists (String.length (Content job)); by rewrite lookup_insert_eq, Hs.
Qed.

(** ** [DownloadImageHandler] *)

Section Attempt.
Variables (env : Env) (job : Job) (req : Request).
Hypothesis Hreq : request_of env job = Some req.

Lemma attempt_again tries w :
  response_ok (Client_Do env (net_clock w) req) = false ->
  (Retry (conf w) <? tries) = false ->
  attempt env job tries w = Some (set_net_clock (S (net_clock w)) w, Again).
Proof.
  intros Hres Htries. unfold attempt. rewrite Hreq. cbn. by rewrite Hres, Htries.
Qed.

Lemma attempt_abandon tries w :
  response_ok (Client_Do env (net_clock w) req) = false ->
  (Retry (conf w) <? tries) = true ->
  exists toPrint,
    attempt env job tries w
    = Some (AddInt64_downloadingCount (-1)
              (log_Println toPrint (set_net_clock (S (net_clock w)) w)), Abandoned).
Proof.
  intros Hres Htries. unfold attempt. rewrite Hreq. cbn. rewrite Hres, Htries.
  eexists. reflexivity.
Qed.

Lemma attempt_success tries w :
  response_ok (Client_Do env (net_clock w) req) = true ->
  exists writeJob,
    attempt env job tries w = Some (set_net_clock (S (net_clock w)) w, Succeeded writeJob)
    /\ Content writeJob = Body (Client_Do env (net_clock w) req).
Proof.
  intros Hres. unfold attempt. rewrite Hreq. cbn. rewrite Hres.
  eexists. split; reflexivity.
Qed.
End Attempt.

(** C3.  With a retry limit of 2 and two failed attempts, [DownloadImageHandler]
    makes a third request.  When that fails too it logs once, sends no write
    job and leaves the in-flight counter where it was; when it succeeds the
    handler sends exactly one write job and logs nothing. *)
Theorem DownloadImageHandler_retry (env : Env) (job : Job) (req : Request)
    (w : World) (fuel : nat) :
  Retry (conf w) = 2 ->
  request_of env job = Some req ->
  (3 <= fuel)%nat ->
  in_int64 (downloadingCount w) ->
  response_ok (Client_Do env (net_clock w) req) = false ->
  response_ok (Client_Do env (S (net_clock w)) req) = false ->
  (response_ok (Client_Do env (S (S (net_clock w))) req) = false ->
   exists w' msg,
     DownloadImageHandler fuel env job w = Returns w'
     /\ net_clock w' = (net_clock w + 3)%nat
     /\ logs (trace w') = msg :: logs (trace w)
     /\ writeJobs_sent (trace w') = writeJobs_sent (trace w)
     /\ writeQueue w' = writeQueue w
     /\ downloadingCount w' = downloadingCount w)
  /\ (response_ok (Client_Do env (S (S (net_clock w))) req) = true ->
      exists w' writeJob,
        DownloadImageHandler fuel env job w = Returns w'
        /\ net_clock w' = (net_clock w + 3)%nat
        /\ logs (trace w') = logs (trace w)
        /\ writeJobs_sent (trace w') = writeJob :: writeJobs_sent (trace w)
        /\ writeQueue w' = writeQueue w ++ [writeJob]
        /\ Content writeJob = Body (Client_Do env (S (S (net_clock w))) req)
        /\ downloadingCount w' = add64 (downloadingCount w) 1).
Proof.
  intros Hretry Hreq Hfuel Hcount H0 H1.
  destruct fuel as [|[|[|fuel]]]; try lia.
  unfold DownloadImageHandler. set (w0 := DownloadImageHandler_enter w).
  assert (net_clock w0 = net_clock w) as Hn0 by reflexivity.
  assert (Retry (conf w0) = 2) as Hr0 by exact Hretry.
  cbn [DownloadImageHandler_loop].
  rewrite (attempt_again env job req Hreq 1 w0) by (rewrite ?Hn0, ?Hr0; done).
  change (add64 1 1) with 2.
  set (w1 := set_net_clock (S (net_clock w0)) w0).
  rewrite (attempt_again env job req Hreq 2 w1) by (cbn; rewrite ?Hretry; done).
  change (add64 2 1) with 3.
  set (w2 := set_net_clock (S (net_clock w1)) w1).
  split; intros H2.
  - destruct (attempt_abandon env job req Hreq 3 w2) as [msg ->];
      [exact H2 | cbn; by rewrite Hretry |].
    eexists _, msg. split; [reflexivity|]. cbn.
    split_and!; try done; [lia|].
    by apply (add64_cancel _ 1).
  - destruct (attempt_success env job req Hreq 3 w2 H2) as (wj & -> & Hbody).
    eexists _, wj. split; [reflexivity|]. cbn.
    split_and!; try done. lia.
Qed.

Lemma DownloadImageHandler_retry_witness :
  (exists w' msg,
     DownloadImageHandler 3 (Sample.env_flaky 3) Sample.job_a (Sample.world_0 (Sample.conf_of 2 2))
       = Returns w'
     /\ net_clock w' = 3%nat
     /\ logs (trace w') = [msg]
     /\ writeJobs_sent (trace w') = []
     /\ writeQueue w' = []
     /\ downloadingCount w' = 0)
  /\ (exists w' writeJob,
        DownloadImageHandler 3 (Sample.env_flaky 2) Sample.job_a
                             (Sample.world_0 (Sample.conf_of 2 2)) = Returns w'
        /\ net_clock w' = 3%nat
        /\ logs (trace w') = []
        /\ writeJobs_sent (trace w') = [writeJob]
        /\ writeQueue w' = [writeJob]
        /\ Content writeJob = "abc"%string
        /\ downloadingCount w' = 1).
Proof.
  assert (in_int64 0) as H0 by (unfold in_int64; lia).
  split.
  - exact (proj1 (DownloadImageHandler_retry (Sample.env_flaky 3) Sample.job_a Sample.req_a
                    (Sample.world_0 (Sample.conf_of 2 2)) 3
                    eq_refl eq_refl (le_n 3) H0 eq_refl eq_refl) eq_refl).
  - exact (proj2 (DownloadImageHandler_retry (Sample.env_flaky 2) Sample.job_a Sample.req_a
                    (Sample.world_0 (Sample.conf_of 2 2)) 3
                    eq_refl eq_refl (le_n 3) H0 eq_refl eq_refl) eq_refl).
Defined.

(** ** The events of a trace *)

Lemma jobs_sent_EvLog m t : jobs_sent (EvLog m :: t) = jobs_sent t.
Proof. reflexivity. Qed.

Lemma jobs_sent_EvPrint m t : jobs_sent (EvPrint m :: t) = jobs_sent t.
Proof. reflexivity. Qed.

Lemma jobs_sent_EvGallery g t : jobs_sent (EvGallery g :: t) = jobs_sent t.
Proof. reflexivity. Qed.

Lemma jobs_sent_EvJob j t : jobs_sent (EvJob j :: t) = j :: jobs_sent t.
Proof. reflexivity. Qed.

Lemma jobs_sent_EvWriteJob wj t : jobs_sent (EvWriteJob wj :: t) = jobs_sent t.
Proof. reflexivity. Qed.

Lemma writeJobs_sent_EvLog m t : writeJobs_sent (EvLog m :: t) = writeJobs_sent t.
Proof. reflexivity. Qed.

Lemma writeJobs_sent_EvPrint m t : writeJobs_sent (EvPrint m :: t) = writeJobs_sent t.
Proof. reflexivity. Qed.

Lemma writeJobs_sent_EvGallery g t : writeJobs_sent (EvGallery g :: t) = writeJobs_sent t.
Proof. reflexivity. Qed.

Lemma writeJobs_sent_EvJob j t : writeJobs_sent (EvJob j :: t) = writeJobs_sent t.
Proof. reflexivity. Qed.

Lemma writeJobs_sent_EvWriteJob wj t : writeJobs_sent (EvWriteJob wj :: t) = wj :: writeJobs_sent t.
Proof. reflexivity. Qed.

Lemma galleries_sent_EvLog m t : galleries_sent (EvLog m :: t) = galleries_sent t.
Proof. reflexivity. Qed.

Lemma galleries_sent_EvPrint m t : galleries_sent (EvPrint m :: t) = galleries_sent t.
Proof. reflexivity. Qed.

Lemma galleries_sent_EvGallery g t : galleries_sent (EvGallery g :: t) = g :: galleries_sent t.
Proof. reflexivity. Qed.

Lemma galleries_sent_EvJob j t : galleries_sent (EvJob j :: t) = galleries_sent t.
Proof. reflexivity. Qed.

Lemma galleries_sent_EvWriteJob wj t : galleries_sent (EvWriteJob wj :: t) = galleries_sent t.
Proof. reflexivity. Qed.

Lemma logs_EvLog m t : logs (EvLog m :: t) = m :: logs t.
Proof. reflexivity. Qed.

Lemma logs_EvPrint m t : logs (EvPrint m :: t) = logs t.
Proof. reflexivity. Qed.

Lemma logs_EvGallery g t : logs (EvGallery g :: t) = logs t.
Proof. reflexivity. Qed.

Lemma logs_EvJob j t : logs (EvJob j :: t) = logs t.
Proof. reflexivity. Qed.

Lemma logs_EvWriteJob wj t : logs (EvWriteJob wj :: t) = logs t.
Proof. reflexivity. Qed.

Create Rewrite HintDb sent.
Hint Rewrite jobs_sent_EvLog jobs_sent_EvPrint jobs_sent_EvGallery jobs_sent_EvJob
  jobs_sent_EvWriteJob writeJobs_sent_EvLog writeJobs_sent_EvPrint
  writeJobs_sent_EvGallery writeJobs_sent_EvJob writeJobs_sent_EvWriteJob
  galleries_sent_EvLog galleries_sent_EvPrint galleries_sent_EvGallery
  galleries_sent_EvJob galleries_sent_EvWriteJob logs_EvLog logs_EvPrint
  logs_EvGallery logs_EvJob logs_EvWriteJob : sent.

(** ** What a function leaves alone *)

Ltac quiet_solve :=
  constructor; unfold jobs_sent, writeJobs_sent, galleries_sent, logs in *;
  cbn in *; congruence.

Lemma quiet_MkdirAll env path perm w :
  quiet w (fst (MkdirAll env path perm w)).
Proof.
  unfold MkdirAll, syscall. destruct (os_fault env (os_clock w)); cbn; [by constructor|].
  repeat case_decide; by constructor.
Qed.

Lemma quiet_DownloadGallery_dir env gallery index total c w :
  quiet w (fst (DownloadGallery_dir env gallery index total c w)).
Proof.
  unfold DownloadGallery_dir.
  match goal with |- context [MkdirAll env ?p ?m ?w0] =>
    pose proof (quiet_MkdirAll env p m w0) as Q1;
    destruct (MkdirAll env p m w0) as [w1 [err|]] end;
    cbn [fst] in Q1; cbv beta iota.
  - destruct (IsExist err).
    + match goal with |- context [MkdirAll env ?p ?m w1] =>
        pose proof (quiet_MkdirAll env p m w1) as Q2;
        destruct (MkdirAll env p m w1) as [w2 [err2|]] end;
        cbn [fst] in Q2; cbv beta iota;
        destruct Q1, Q2; quiet_solve.
    + destruct Q1; quiet_solve.
  - destruct Q1; quiet_solve.
Qed.

Lemma DownloadGallery_dir_result env gallery index total c w :
  snd (DownloadGallery_dir env gallery index total c w) = None
  \/ snd (DownloadGallery_dir env gallery index total c w) = Some (destination_dir c gallery).
Proof.
  unfold DownloadGallery_dir.
  match goal with |- context [MkdirAll env ?p ?m ?w0] =>
    destruct (MkdirAll env p m w0) as [w1 [err|]] end; cbv beta iota.
  - left. destruct (IsExist err); [|done].
    match goal with |- context [MkdirAll env ?p ?m w1] =>
      destruct (MkdirAll env p m w1) as [w2 [err2|]] end; done.
  - right. reflexivity.
Qed.

Lemma quiet_attempt env job tries w w' r :
  attempt env job tries w = Some (w', r) ->
  conf w' = conf w /\ queue w' = queue w /\ galleryQueue w' = galleryQueue w
  /\ writeQueue w' = writeQueue w
  /\ jobs_sent (trace w') = jobs_sent (trace w)
  /\ writeJobs_sent (trace w') = writeJobs_sent (trace w)
  /\ galleries_sent (trace w') = galleries_sent (trace w).
Proof.
  unfold attempt. destruct (request_of env job) as [req|]; [|discriminate]. cbn.
  destruct (response_ok _); [intros [= <- <-]; by cbn|].
  destruct (_ <? tries); intros [= <- <-]; by cbn.
Qed.

Lemma quiet_WriterHandler env job w :
  let w' := WriterHandler env job w in
  conf w' = conf w /\ queue w' = queue w /\ galleryQueue w' = galleryQueue w
  /\ writeQueue w' = writeQueue w
  /\ jobs_sent (trace w') = jobs_sent (trace w)
  /\ writeJobs_sent (trace w') = writeJobs_sent (trace w)
  /\ galleries_sent (trace w') = galleries_sent (trace w).
Proof.
  unfold WriterHandler, WriteFile, syscall.
  destruct (os_fault env (os_clock w)); cbn; [done|].
  case_decide; cbn; [done|].
  destruct (os_fault env (S (os_clock w))); cbn; [done|].
  destruct (os_fault env (S (S (os_clock w)))); cbn; done.
Qed.

(** ** The fan-out of a gallery *)

Arguments jobs_sent : simpl never.
Arguments writeJobs_sent : simpl never.
Arguments galleries_sent : simpl never.
Arguments logs : simpl never.

Lemma jobs_sent_fold jobs w :
  let w' := fold_left (fun w job => send_queue job w) jobs w in
  jobs_sent (trace w') = rev jobs ++ jobs_sent (trace w)
  /\ queue w' = queue w ++ jobs
  /\ writeJobs_sent (trace w') = writeJobs_sent (trace w)
  /\ galleries_sent (trace w') = galleries_sent (trace w)
  /\ logs (trace w') = logs (trace w)
  /\ writeQueue w' = writeQueue w
  /\ downloadingCount w' = downloadingCount w
  /\ downloadStartCount w' = downloadStartCount w.
Proof.
  revert w. induction jobs as [|j jobs IH]; intros w; cbn.
  - by rewrite app_nil_r.
  - destruct (IH (send_queue j w)) as (H1 & H2 & H3 & H4 & H5 & H6 & H7 & H8).
    cbn in *. rewrite H1, H2, H3, H4, H5, H6, H7, H8.
    rewrite <- !app_assoc. done.
Qed.

(** A gallery whose directory is there gets one job per image, in the order of
    its images, all saved to the directory of the title; a gallery whose
    directory fails gets none. *)
Lemma DownloadGallery_jobs env gallery index total c w :
  let w' := DownloadGallery env gallery index total c w in
  (exists sent,
     (sent = [] \/ sent = jobs_of gallery (destination_dir c gallery) c)
     /\ queue w' = queue w ++ sent
     /\ jobs_sent (trace w') = rev sent ++ jobs_sent (trace w))
  /\ writeJobs_sent (trace w') = writeJobs_sent (trace w).
Proof.
  unfold DownloadGallery.
  pose proof (quiet_DownloadGallery_dir env gallery index total c w) as Q.
  pose proof (DownloadGallery_dir_result env gallery index total c w) as R.
  destruct (DownloadGallery_dir env gallery index total c w) as [w1 dir].
  cbn in Q, R. destruct Q. destruct R as [-> | ->].
  - split; [|done]. exists []. rewrite app_nil_r. auto.
  - destruct (jobs_sent_fold (jobs_of gallery (destination_dir c gallery) c) w1)
      as (H1 & H2 & H3 & _).
    cbn in *. split; [|congruence].
    eexists. split; [right; reflexivity|]. split; congruence.
Qed.

Lemma DownloadGallery_dir_exists env gallery index total c w f :
  os_fault env (os_clock w) = Some f ->
  errno f = EEXIST ->
  snd (DownloadGallery_dir env gallery index total c w) = None.
Proof.
  intros Hf He. unfold DownloadGallery_dir, MkdirAll at 1, syscall. cbn [os_clock emit set_trace fmt_Println log_Println].
  rewrite Hf. cbv beta iota. unfold IsExist. cbn [Err]. rewrite He.
  match goal with |- context [MkdirAll env ?p ?m ?w1] =>
    destruct (MkdirAll env p m w1) as [w2 [err2|]] end; done.
Qed.

(** C4.  What [DownloadGallery] does where the claim expects the directory
    with the id appended.  Whatever the system answers, the jobs of a gallery
    are either none or saved to the directory of the title: no path of the
    function sends a job to the directory with the id appended.  Two
    galleries of the same title are both saved to the directory of the title,
    and no second directory is made.  And when the system reports that the
    directory exists, the directory with the id appended is made, but the
    gallery is skipped: no job is sent, and the first error is logged. *)
Theorem DownloadGallery_collision :
  (forall env gallery index total c w,
     exists sent,
       (sent = [] \/ sent = jobs_of gallery (destination_dir c gallery) c)
       /\ queue (DownloadGallery env gallery index total c w) = queue w ++ sent)
  /\ map JSavePath (queue (Sample.two_galleries (Sample.env_good 2)))
     = ["save/null/T"; "save/null/T"]%string
  /\ elements (fs_dirs (Sample.two_galleries (Sample.env_good 2)))
     = ["save/null/T"; "save/null"; "save"]%string
  /\ (let w := DownloadGallery Sample.env_exists
                 (with_Url Sample.url_2 Sample.gallery_2) 0 1 (Sample.conf_of 2 2)
                 (Sample.world_0 (Sample.conf_of 2 2)) in
      queue w = []
      /\ jobs_sent (trace w) = []
      /\ elements (fs_dirs w) = ["save/null/T - 2"; "save/null"; "save"]%string
      /\ logs (trace w)
         = ["mkdir save/null/T: file exists"; "Start Download (1/1): T"]%string).
Proof.
  split.
  - intros env gallery index total c w.
    destruct (DownloadGallery_jobs env gallery index total c w)
      as [(sent & Hsent & Hqueue & _) _].
    exists sent. split; [exact Hsent | exact Hqueue].
  - vm_compute. repeat split; reflexivity.
Qed.

(** ** The accounts of a run *)

Lemma attempt_effects env job tries w w' r :
  attempt env job tries w = Some (w', r) ->
  match r with
  | Abandoned =>
      (exists msg, logs (trace w') = msg :: logs (trace w))
      /\ downloadingCount w' = add64 (downloadingCount w) (-1)
  | _ => logs (trace w') = logs (trace w) /\ downloadingCount w' = downloadingCount w
  end
  /\ writeJobs_sent (trace w') = writeJobs_sent (trace w)
  /\ writeQueue w' = writeQueue w.
Proof.
  unfold attempt. destruct (request_of env job) as [req|]; [|discriminate]. cbn.
  destruct (response_ok _); [intros [= <- <-]; by cbn|].
  destruct (_ <? tries); intros [= <- <-]; cbn; autorewrite with sent; eauto.
Qed.

Lemma DownloadImageHandler_loop_yield fuel env job tries w w' :
  DownloadImageHandler_loop fuel env job tries w = Returns w' ->
  (exists writeJob,
     writeJobs_sent (trace w') = writeJob :: writeJobs_sent (trace w)
     /\ writeQueue w' = writeQueue w ++ [writeJob]
     /\ logs (trace w') = logs (trace w)
     /\ downloadingCount w' = downloadingCount w)
  \/ (exists msg,
        writeJobs_sent (trace w') = writeJobs_sent (trace w)
        /\ writeQueue w' = writeQueue w
        /\ logs (trace w') = msg :: logs (trace w)
        /\ downloadingCount w' = add64 (downloadingCount w) (-1)).
Proof.
  revert tries w. induction fuel as [|fuel IH]; intros tries w; cbn; [discriminate|].
  destruct (attempt env job tries w) as [[w1 r]|] eqn:Ha; [|discriminate].
  destruct (attempt_effects _ _ _ _ _ _ Ha) as (Hr & Hw & Hq).
  destruct r as [wj| |].
  - intros [= <-]. left. exists wj. cbn. autorewrite with sent.
    destruct Hr as [Hl Hd]. rewrite Hw, Hq, Hl, Hd. done.
  - intros [= <-]. right. destruct Hr as [[msg Hl] Hd]. exists msg. done.
  - intros Hloop. destruct Hr as [Hl Hd].
    destruct (IH _ _ Hloop) as [(wj & ? & ? & ? & ?)|(msg & ? & ? & ? & ?)];
      [left; exists wj | right; exists msg]; split_and!; congruence.
Qed.

(** C5.  A run of two galleries of one image each, in which both galleries
    resolve and every download succeeds.  [main] leaves its first loop after
    the first gallery, whose [Url] is [galleryUrls[0]]: every goroutine ends
    and the end is reported with the second gallery still in [galleryQueue],
    one job and one write job sent and one file written, for two images of
    resolved galleries, and with nothing logged but the start of the first
    gallery and the end.  So the total of the claim does not hold of this
    run. *)
Theorem WriteJobs_miss_later_galleries :
  (exists s,
     run (Sample.env_good 2) Sample.schedule_two
         (start (Sample.env_good 2) (Sample.conf_of 2 2) [Sample.url_1; Sample.url_2] ∅ ∅)
       = Some s
     /\ all_ended s = true
     /\ map Id (galleries_sent (trace (world s))) = ["2"; "1"]%string
     /\ images_of (galleries_sent (trace (world s))) = 2%nat
     /\ map Id (galleryQueue (world s)) = ["2"]%string
     /\ map (fun j => Id (JGallery j)) (jobs_sent (trace (world s))) = ["1"]%string
     /\ map FileName (writeJobs_sent (trace (world s))) = ["save/null/T/1.jpg"]%string
     /\ map_to_list (fs_files (world s)) = [("save/null/T/1.jpg", "abc")]%string
     /\ logs (trace (world s)) = ["Download Finish"; "Start Download (1/2): T"]%string)
  /\ ~ WriteJobs_match_images (Sample.env_good 2)
         (start (Sample.env_good 2) (Sample.conf_of 2 2) [Sample.url_1; Sample.url_2] ∅ ∅).
Proof.
  split.
  - vm_compute. eexists. repeat split.
  - intros Hclaim.
    destruct (run (Sample.env_good 2) Sample.schedule_two
                (start (Sample.env_good 2) (Sample.conf_of 2 2)
                       [Sample.url_1; Sample.url_2] ∅ ∅))
      as [s|] eqn:Hrun; [|vm_compute in Hrun; discriminate].
    assert (all_ended s = true
            /\ length (writeJobs_sent (trace (world s))) = 1%nat
            /\ images_of (galleries_sent (trace (world s))) = 2%nat) as (He & Hw & Hi).
    { vm_compute in Hrun. injection Hrun as <-. vm_compute. auto. }
    specialize (Hclaim s (ex_intro _ Sample.schedule_two Hrun) He).
    rewrite Hw, Hi in Hclaim. discriminate Hclaim.
Qed.

(** ** The end of the run *)

(** The workers and the writer leave their loops when the in-flight counter is
    zero and a job has been started. *)
Lemma worker_done_iff w :
  worker_done w = true <-> downloadingCount w = 0 /\ 0 < downloadStartCount w.
Proof.
  unfold worker_done. rewrite andb_true_iff, Z.eqb_eq, Z.ltb_lt. reflexivity.
Qed.

(** [main] reports the end when the in-flight counter is zero, whether or not
    a job has been started. *)
Lemma main_done_iff w : main_done w = true <-> downloadingCount w = 0.
Proof. unfold main_done. apply Z.eqb_eq. Qed.

(** C1.  Three runs that end otherwise than the claim says.  In the first,
    [main] reports the end although no job has been started: the one job of
    the run is still in the queue and no worker has taken it.  In the second,
    the gallery has no image: [main] reports the end and no job is ever sent.
    In the third, the first identifier of the list does not resolve: the
    image of the second gallery is downloaded and written, the in-flight
    counter is back to zero with one job started, the workers and the writer
    have left their loops, and yet [main] waits for a gallery and no goroutine
    can move, so that the end is never reported. *)
Theorem main_reports_before_start :
  (exists s,
     run (Sample.env_good 2) Sample.schedule_early
         (start (Sample.env_good 2) (Sample.conf_of 2 2) [Sample.url_1] ∅ ∅) = Some s
     /\ mainPc s = M_done
     /\ logs (trace (world s)) = ["Download Finish"; "Start Download (1/1): T"]%string
     /\ downloadStartCount (world s) = 0
     /\ worker_done (world s) = false
     /\ map JImage (queue (world s)) = [Sample.img_a]
     /\ workers s = [W_select; W_select]
     /\ writeJobs_sent (trace (world s)) = [])
  /\ (exists s,
        run (Sample.env_good 2) Sample.schedule_empty
            (start (Sample.env_good 2) (Sample.conf_of 2 2) [Sample.url_3] ∅ ∅) = Some s
        /\ mainPc s = M_done
        /\ logs (trace (world s)) = ["Download Finish"; "Start Download (1/1): E"]%string
        /\ downloadStartCount (world s) = 0
        /\ jobs_sent (trace (world s)) = [])
  /\ (exists s,
        run (Sample.env_good 2) Sample.schedule_blocked
            (start (Sample.env_good 2) (Sample.conf_of 2 2)
                   [Sample.url_bad; Sample.url_1] ∅ ∅) = Some s
        /\ worker_done (world s) = true
        /\ downloadingCount (world s) = 0
        /\ downloadStartCount (world s) = 1
        /\ fs_files (world s) !! "save/null/T/1.jpg"%string = Some "abc"%string
        /\ mainPc s = M_recv 1
        /\ forall t, step (Sample.env_good 2) t s = None).
Proof.
  split; [|split].
  - vm_compute. eexists. repeat split.
  - vm_compute. eexists. repeat split.
  - eexists. split; [vm_compute; reflexivity|].
    do 5 (split; [vm_compute; reflexivity|]).
    intros [| |k|]; [reflexivity | reflexivity | | reflexivity].
    destruct k as [|[|k]]; reflexivity.
Qed.

(** C6.  Two runs in which the identifiers after the first are not dealt
    with.  In the first, the second identifier of three does not resolve:
    the failure is logged and the third gallery is resolved and sent, but
    [main] has left its first loop after the first gallery, so the run ends,
    and reports its end, with the third gallery in [galleryQueue] and no job
    sent for it.  In the second, with one worker, [galleryQueue] holds one
    gallery: the run ends with the producer waiting to send the third gallery,
    no goroutine can move, and the fourth identifier, which would not resolve,
    was never asked for and no failure was logged. *)
Theorem run_leaves_identifiers_out :
  (exists s,
     run (Sample.env_good 2) Sample.schedule_skipped
         (start (Sample.env_good 2) (Sample.conf_of 2 2)
                [Sample.url_1; Sample.url_bad; Sample.url_2] ∅ ∅) = Some s
     /\ all_ended s = true
     /\ logs (trace (world s))
        = ["Download Finish"; "Start Download (1/3): T";
           "Read Gallery Info Fail: https://hitomi.la/galleries/w-9.html Because 404"]%string
     /\ map Id (galleries_sent (trace (world s))) = ["2"; "1"]%string
     /\ map Id (galleryQueue (world s)) = ["2"]%string
     /\ map (fun j => Id (JGallery j)) (jobs_sent (trace (world s))) = ["1"]%string
     /\ map_to_list (fs_files (world s)) = [("save/null/T/1.jpg", "abc")]%string)
  /\ (exists s,
        run (Sample.env_good 1) Sample.schedule_stuck
            (start (Sample.env_good 1) (Sample.conf_of 2 1)
                   [Sample.url_1; Sample.url_2; Sample.url_3; Sample.url_bad] ∅ ∅) = Some s
        /\ mainPc s = M_done
        /\ producerPc s
           = P_send (with_Url Sample.url_3 Sample.gallery_empty) [Sample.url_bad]
        /\ map Id (galleryQueue (world s)) = ["2"]%string
        /\ map (fun j => Id (JGallery j)) (jobs_sent (trace (world s))) = ["1"]%string
        /\ logs (trace (world s)) = ["Download Finish"; "Start Download (1/4): T"]%string
        /\ forall t, step (Sample.env_good 1) t s = None).
Proof.
  split.
  - vm_compute. eexists. repeat split.
  - eexists. split; [vm_compute; reflexivity|].
    do 5 (split; [vm_compute; reflexivity|]).
    intros [| |k|]; [reflexivity | reflexivity | | reflexivity].
    destruct k as [|k]; reflexivity.
Qed.

(** ** [strings.Split] and [strings.ReplaceAll] with a separator of one byte *)

Lemma prefix_char c a s :
  String.prefix (String c EmptyString) (String a s) = Ascii.eqb c a.
Proof.
  cbn. destruct (ascii_dec c a) as [->|Hne].
  - rewrite Ascii.eqb_refl. by destruct s.
  - symmetry. by apply Ascii.eqb_neq.
Qed.

Lemma ReplaceAll_char c a s :
  ReplaceAll (String a s) (String c EmptyString) EmptyString
  = if Ascii.eqb c a then ReplaceAll s (String c EmptyString) EmptyString
    else String a (ReplaceAll s (String c EmptyString) EmptyString).
Proof.
  unfold ReplaceAll. cbn [ReplaceAll_from]. rewrite prefix_char.
  destruct (Ascii.eqb c a); reflexivity.
Qed.

Lemma ReplaceAll_empty old new : ReplaceAll EmptyString old new = EmptyString.
Proof. reflexivity. Qed.

Lemma remove_chars_cons cs a s :
  fold_left (fun path illegalChar => ReplaceAll path illegalChar EmptyString)
            (map one_byte cs) (String a s)
  = if existsb (Ascii.eqb a) cs
    then fold_left (fun path illegalChar => ReplaceAll path illegalChar EmptyString)
                   (map one_byte cs) s
    else String a (fold_left (fun path illegalChar => ReplaceAll path illegalChar EmptyString)
                             (map one_byte cs) s).
Proof.
  revert s. induction cs as [|c cs IH]; intros s; [reflexivity|].
  cbn [map fold_left existsb]. change (one_byte c) with (String c EmptyString).
  rewrite ReplaceAll_char.
  rewrite (Ascii.eqb_sym a c). destruct (Ascii.eqb c a); [reflexivity|].
  cbn [orb]. apply IH.
Qed.

Lemma ValidFileName_cons a s :
  ValidFileName (String a s)
  = if is_illegal a then ValidFileName s else String a (ValidFileName s).
Proof.
  exact (remove_chars_cons [":"; "/"; "\"; "?"; "*"; byte_of 34; "<"; ">"; "|"]%char a s).
Qed.

Lemma ValidFileName_nil : ValidFileName EmptyString = EmptyString.
Proof. reflexivity. Qed.

Lemma ValidFileName_as_keep (path : string) :
  ValidFileName path = keep (fun c => negb (is_illegal c)) path.
Proof.
  induction path as [|a s IH]; [reflexivity|].
  rewrite ValidFileName_cons. cbn [keep]. rewrite <- IH.
  by destruct (is_illegal a).
Qed.

Lemma keep_keep P s : keep P (keep P s) = keep P s.
Proof.
  induction s as [|a s IH]; [reflexivity|]. cbn [keep].
  destruct (P a) eqn:E; [|exact IH]. cbn [keep]. by rewrite E, IH.
Qed.

Lemma has_char_keep P c s : P c = false -> has_char c (keep P s) = false.
Proof.
  intros Hc. induction s as [|a s IH]; [reflexivity|]. cbn [keep].
  destruct (P a) eqn:E; [|exact IH]. cbn [has_char]. rewrite IH, orb_false_r.
  apply Ascii.eqb_neq. intros ->. congruence.
Qed.

Lemma keep_all P s : (forall c, has_char c s = true -> P c = true) -> keep P s = s.
Proof.
  induction s as [|a s IH]; intros H; [reflexivity|]. cbn [keep].
  rewrite (H a) by (cbn; by rewrite Ascii.eqb_refl).
  f_equal. apply IH. intros c Hc. apply H. cbn. rewrite Hc. apply orb_true_r.
Qed.

(** X1.  [ValidFileName] keeps the characters of the path that are none of the
    nine illegal ones, in their order.  So no illegal character is left, a
    second pass changes nothing, a path without illegal characters comes back
    as it is, and the result is never longer than the path. *)
Theorem ValidFileName_clean (path : string) :
  ValidFileName path = keep (fun c => negb (is_illegal c)) path
  /\ (forall c, is_illegal c = true -> has_char c (ValidFileName path) = false)
  /\ ValidFileName (ValidFileName path) = ValidFileName path
  /\ ((forall c, is_illegal c = true -> has_char c path = false) ->
      ValidFileName path = path)
  /\ (String.length (ValidFileName path) <= String.length path)%nat.
Proof.
  rewrite !ValidFileName_as_keep. split_and!.
  - reflexivity.
  - intros c Hc. apply has_char_keep. by rewrite Hc.
  - apply keep_keep.
  - intros Hclean. apply keep_all. intros c Hc.
    destruct (is_illegal c) eqn:E; [|reflexivity].
    rewrite (Hclean c E) in Hc. discriminate.
  - induction path as [|a s IH]; [done|]. cbn [keep].
    destruct (negb (is_illegal a)); cbn [String.length]; lia.
Qed.

(** ** [GalleryInfo] *)


Lemma Split_from_nonempty sep k s : Split_from sep k s <> [].
Proof.
  revert k. induction s as [|a s IH]; intros k; cbn [Split_from]; [done|].
  destruct k; [|apply IH].
  destruct (String.prefix sep (String a s)); [done|].
  destruct (Split_from sep 0 s); done.
Qed.

Lemma Split_char_cons c a s :
  Split (String a s) (one_byte c)
  = if Ascii.eqb c a then EmptyString :: Split s (one_byte c)
    else match Split s (one_byte c) with
         | h :: t => String a h :: t
         | [] => [String a EmptyString]
         end.
Proof.
  unfold Split, one_byte. cbn [Split_from]. rewrite prefix_char.
  destruct (Ascii.eqb c a); reflexivity.
Qed.

Lemma Split_free c s : has_char c s = false -> Split s (one_byte c) = [s].
Proof.
  induction s as [|a s IH]; [reflexivity|]. cbn [has_char].
  intros H. apply orb_false_elim in H as [Ha Hs].
  rewrite Split_char_cons, (Ascii.eqb_sym c a), Ha, (IH Hs). reflexivity.
Qed.

Lemma Split_head c before after :
  has_char c before = false ->
  exists t, Split (before +:+ String c after) (one_byte c) = before :: t.
Proof.
  induction before as [|a s IH]; cbn [has_char String.append]; intros H.
  - change (EmptyString +:+ String c after)%string with (String c after).
    rewrite Split_char_cons, Ascii.eqb_refl. eauto.
  - apply orb_false_elim in H as [Ha Hs]. destruct (IH Hs) as [t Ht].
    change (String a s +:+ String c after)%string with (String a (s +:+ String c after)).
    rewrite Split_char_cons, (Ascii.eqb_sym c a), Ha, Ht. eauto.
Qed.

Lemma Split_last c before after :
  has_char c after = false ->
  exists front, Split (before +:+ String c after) (one_byte c) = front ++ [after]
                /\ front <> [].
Proof.
  intros Hafter. induction before as [|a s IH].
  - change (EmptyString +:+ String c after)%string with (String c after).
    rewrite Split_char_cons, Ascii.eqb_refl, (Split_free _ _ Hafter).
    exists [EmptyString]. done.
  - destruct IH as ([|f0 front] & Hs & Hne); [done|].
    change (String a s +:+ String c after)%string with (String a (s +:+ String c after)).
    rewrite Split_char_cons, Hs. destruct (Ascii.eqb c a).
    + exists (EmptyString :: f0 :: front). done.
    + exists (String a f0 :: front). done.
Qed.

Lemma has_char_app c s t : has_char c (s +:+ t) = has_char c s || has_char c t.
Proof.
  induction s as [|a s IH]; [done|].
  change (String a s +:+ t)%string with (String a (s +:+ t)).
  cbn [has_char]. by rewrite IH, orb_assoc.
Qed.

(** X2.  The address [GalleryInfo] asks for is that of the gallery id: the part
    of the line after its last hyphen, up to the first dot.  A line without a
    hyphen, or without an extension, gives the same address. *)
Theorem GalleryInfo_address_id (before id after : string) :
  has_char "-" id = false -> has_char "." id = false -> has_char "-" after = false ->
  GalleryInfo_address (before +:+ "-" +:+ id +:+ "." +:+ after) = galleries_address id
  /\ GalleryInfo_address (id +:+ "." +:+ after) = galleries_address id
  /\ GalleryInfo_address (before +:+ "-" +:+ id) = galleries_address id.
Proof.
  intros Hid1 Hid2 Hafter.
  assert (forall s, hd EmptyString (Split (id +:+ "." +:+ s) ".") = id) as Hhd.
  { intros s. destruct (Split_head "." id s Hid2) as [t Ht].
    change (Split (id +:+ "." +:+ s) ".") with (Split (id +:+ String "." s) (one_byte ".")).
    by rewrite Ht. }
  assert (has_char "-" (id +:+ "." +:+ after) = false) as Htail.
  { rewrite has_char_app, Hid1. cbn. exact Hafter. }
  unfold GalleryInfo_address, galleries_address. split_and!.
  - destruct (Split_last "-" before (id +:+ "." +:+ after) Htail) as (front & Hs & _).
    change (Split (before +:+ "-" +:+ id +:+ "." +:+ after) "-")
      with (Split (before +:+ String "-" (id +:+ "." +:+ after)) (one_byte "-")).
    rewrite Hs, last_last, Hhd. reflexivity.
  - change (Split (id +:+ "." +:+ after) "-")
      with (Split (id +:+ "." +:+ after) (one_byte "-")).
    rewrite (Split_free _ _ Htail). cbn [List.last]. rewrite Hhd. reflexivity.
  - destruct (Split_last "-" before id Hid1) as (front & Hs & _).
    change (Split (before +:+ "-" +:+ id) "-")
      with (Split (before +:+ String "-" id) (one_byte "-")).
    rewrite Hs, last_last.
    change (Split id ".") with (Split id (one_byte ".")).
    rewrite (Split_free _ _ Hid2). reflexivity.
Qed.

Lemma GalleryInfo_address_id_witness :
  GalleryInfo_address "https://hitomi.la/galleries/some-title-1234.html"
  = "https://ltn.hitomi.la/galleries/1234.js"%string.
Proof.
  exact (proj1 (GalleryInfo_address_id "https://hitomi.la/galleries/some-title" "1234" "html"
                  eq_refl eq_refl eq_refl)).
Defined.


Lemma prefix_app old s : String.prefix old (old +:+ s) = true.
Proof.
  induction old as [|a old IH]; [by destruct s|].
  change (String a old +:+ s)%string with (String a (old +:+ s)).
  cbn [String.prefix]. destruct (ascii_dec a a); [exact IH|done].
Qed.

Lemma ReplaceAll_from_skip old new t s :
  ReplaceAll_from old new (String.length t) (t +:+ s) = ReplaceAll_from old new 0 s.
Proof.
  induction t as [|a t IH]; [by destruct s|].
  change (String a t +:+ s)%string with (String a (t +:+ s)). exact IH.
Qed.

Lemma ReplaceAll_absent old new s : occurs old s = false -> ReplaceAll s old new = s.
Proof.
  unfold ReplaceAll. induction s as [|a s IH]; [reflexivity|].
  cbn [occurs]. intros H. apply orb_false_elim in H as [Hp Hs].
  cbn [ReplaceAll_from]. rewrite Hp. f_equal. exact (IH Hs).
Qed.

Lemma ReplaceAll_leading c old new s :
  ReplaceAll (String c old +:+ s) (String c old) new
  = (new +:+ ReplaceAll s (String c old) new)%string.
Proof.
  unfold ReplaceAll.
  change (String c old +:+ s)%string with (String c (old +:+ s)).
  cbn [ReplaceAll_from].
  change (String c (old +:+ s)) with (String c old +:+ s)%string.
  rewrite prefix_app. cbn [String.length Nat.pred].
  by rewrite ReplaceAll_from_skip.
Qed.

(** X3.  An answer of status 200 is decoded without the prefix
    [var galleryinfo = ]; an answer that comes without the prefix is decoded
    as it is. *)
Theorem GalleryInfo_answer_unwraps (env : Env) (r : GetResult) (json : string) :
  GetErr r = None -> GetCode r = 200 -> occurs wrapper json = false ->
  (GetBody r = (wrapper +:+ json)%string -> GalleryInfo_answer env r = json_Unmarshal env json)
  /\ (GetBody r = json -> GalleryInfo_answer env r = json_Unmarshal env json).
Proof.
  intros Herr Hcode Hjson. unfold GalleryInfo_answer. rewrite Herr, Hcode. cbn [Z.eqb negb Pos.eqb].
  split; intros ->.
  - change "var galleryinfo = "%string with wrapper. unfold wrapper at 1 2.
    rewrite ReplaceAll_leading. fold wrapper.
    by rewrite (ReplaceAll_absent _ _ _ Hjson).
  - change "var galleryinfo = "%string with wrapper.
    by rewrite (ReplaceAll_absent _ _ _ Hjson).
Qed.

Lemma GalleryInfo_answer_unwraps_witness :
  GalleryInfo_answer (Sample.env_good 2) (mkGetResult 200 "var galleryinfo = 1" None)
  = inl Sample.gallery_1.
Proof.
  exact (proj1 (GalleryInfo_answer_unwraps (Sample.env_good 2)
                  (mkGetResult 200 "var galleryinfo = 1" None) "1"
                  eq_refl eq_refl eq_refl) eq_refl).
Defined.


(** ** [DownloadImageHandler], any retry limit *)


(** The loop of the handler from [tries] on, when every answer fails: [d] is
    the number of tries left before [tries] exceeds the retry limit. *)
Lemma DownloadImageHandler_loop_fails env job req :
  request_of env job = Some req ->
  forall (d : nat) (tries : Z) (w : World) (fuel : nat),
    Retry (conf w) < 2^63 - 1 -> 1 <= tries ->
    Z.to_nat (Retry (conf w) + 1 - tries) = d ->
    (d < fuel)%nat ->
    (forall k, (k <= d)%nat ->
               response_ok (Client_Do env (net_clock w + k)%nat req) = false) ->
    exists w' msg,
      DownloadImageHandler_loop fuel env job tries w = Returns w'
      /\ net_clock w' = (net_clock w + S d)%nat
      /\ logs (trace w') = msg :: logs (trace w)
      /\ writeJobs_sent (trace w') = writeJobs_sent (trace w)
      /\ writeQueue w' = writeQueue w
      /\ downloadingCount w' = add64 (downloadingCount w) (-1)
      /\ downloadStartCount w' = downloadStartCount w.
Proof.
  intros Hreq. induction d as [|d IH]; intros tries w fuel Hmax Htries Hd Hfuel Hfail;
    (destruct fuel as [|fuel]; [lia|]); cbn [DownloadImageHandler_loop];
    pose proof (Hfail 0%nat ltac:(lia)) as Hnow; rewrite Nat.add_0_r in Hnow.
  - destruct (attempt_abandon env job req Hreq tries w Hnow) as [msg ->];
      [apply Z.ltb_lt; lia|].
    eexists _, msg. split; [reflexivity|]. cbn. split_and!; try done. lia.
  - rewrite (attempt_again env job req Hreq tries w Hnow) by (apply Z.ltb_ge; lia).
    assert (add64 tries 1 = tries + 1) as -> by (apply wrap64_small; lia).
    destruct (IH (tries + 1) (set_net_clock (S (net_clock w)) w) fuel)
      as (w' & msg & -> & H1 & H2 & H3 & H4 & H5 & H6); cbn; try lia.
    + intros k Hk. replace (S (net_clock w + k)) with (net_clock w + S k)%nat by lia.
      apply Hfail. lia.
    + exists w', msg. cbn in *. split_and!; try done. lia.
Qed.

(** The same loop when the answer numbered [n] is the first that succeeds. *)
Lemma DownloadImageHandler_loop_succeeds env job req :
  request_of env job = Some req ->
  forall (n : nat) (tries : Z) (w : World) (fuel : nat),
    Retry (conf w) < 2^63 - 1 -> 1 <= tries ->
    (n <= Z.to_nat (Retry (conf w) + 1 - tries))%nat ->
    (n < fuel)%nat ->
    (forall k, (k < n)%nat ->
               response_ok (Client_Do env (net_clock w + k)%nat req) = false) ->
    response_ok (Client_Do env (net_clock w + n)%nat req) = true ->
    exists w' writeJob,
      DownloadImageHandler_loop fuel env job tries w = Returns w'
      /\ net_clock w' = (net_clock w + S n)%nat
      /\ logs (trace w') = logs (trace w)
      /\ writeJobs_sent (trace w') = writeJob :: writeJobs_sent (trace w)
      /\ writeQueue w' = writeQueue w ++ [writeJob]
      /\ Content writeJob = Body (Client_Do env (net_clock w + n)%nat req)
      /\ downloadingCount w' = downloadingCount w
      /\ downloadStartCount w' = downloadStartCount w.
Proof.
  intros Hreq. induction n as [|n IH]; intros tries w fuel Hmax Htries Hn Hfuel Hfail Hok;
    (destruct fuel as [|fuel]; [lia|]); cbn [DownloadImageHandler_loop].
  - rewrite Nat.add_0_r in *.
    destruct (attempt_success env job req Hreq tries w Hok) as (wj & -> & Hbody).
    eexists _, wj. split; [reflexivity|]. cbn. split_and!; try done. lia.
  - pose proof (Hfail 0%nat ltac:(lia)) as Hnow. rewrite Nat.add_0_r in Hnow.
    rewrite (attempt_again env job req Hreq tries w Hnow) by (apply Z.ltb_ge; lia).
    assert (add64 tries 1 = tries + 1) as -> by (apply wrap64_small; lia).
    destruct (IH (tries + 1) (set_net_clock (S (net_clock w)) w) fuel)
      as (w' & wj & -> & H1 & H2 & H3 & H4 & H5 & H6 & H7); cbn; try lia.
    + intros k Hk. replace (S (net_clock w + k)) with (net_clock w + S k)%nat by lia.
      apply Hfail. lia.
    + replace (S (net_clock w + n)) with (net_clock w + S n)%nat by lia. exact Hok.
    + exists w', wj. cbn in *. split_and!; try done; try lia.
      rewrite H5. f_equal. f_equal. lia.
Qed.

(** X4.  Whatever the retry limit, a download whose every answer fails makes one
    request more than the limit (one request when the limit is zero or
    negative), logs one line, sends no write job, counts the job as started and
    leaves the in-flight counter where it was. *)
Theorem DownloadImageHandler_gives_up (env : Env) (job : Job) (req : Request)
    (w : World) (fuel : nat) :
  request_of env job = Some req ->
  Retry (conf w) < 2^63 - 1 ->
  in_int64 (downloadingCount w) ->
  (Z.to_nat (Retry (conf w)) < fuel)%nat ->
  (forall k, (k <= Z.to_nat (Retry (conf w)))%nat ->
             response_ok (Client_Do env (net_clock w + k)%nat req) = false) ->
  exists w' msg,
    DownloadImageHandler fuel env job w = Returns w'
    /\ net_clock w' = (net_clock w + S (Z.to_nat (Retry (conf w))))%nat
    /\ logs (trace w') = msg :: logs (trace w)
    /\ writeJobs_sent (trace w') = writeJobs_sent (trace w)
    /\ writeQueue w' = writeQueue w
    /\ downloadingCount w' = downloadingCount w
    /\ downloadStartCount w' = add64 (downloadStartCount w) 1.
Proof.
  intros Hreq Hmax Hcount Hfuel Hfail. unfold DownloadImageHandler.
  destruct (DownloadImageHandler_loop_fails env job req Hreq (Z.to_nat (Retry (conf w))) 1
              (DownloadImageHandler_enter w) fuel)
    as (w' & msg & Hrun & H1 & H2 & H3 & H4 & H5 & H6); try done.
  - cbn. f_equal. lia.
  - exists w', msg. cbn in *. split_and!; try done.
    rewrite H5. by apply (add64_cancel _ 1).
Qed.

(** X5.  When the answer numbered [n] is the first good one, and [n] is within
    the retry limit, the handler makes [n + 1] requests, logs nothing and sends
    one write job with the body of that answer; the job stays in flight. *)
Theorem DownloadImageHandler_first_success (env : Env) (job : Job) (req : Request)
    (w : World) (fuel n : nat) :
  request_of env job = Some req ->
  Retry (conf w) < 2^63 - 1 ->
  (n <= Z.to_nat (Retry (conf w)))%nat ->
  (n < fuel)%nat ->
  (forall k, (k < n)%nat ->
             response_ok (Client_Do env (net_clock w + k)%nat req) = false) ->
  response_ok (Client_Do env (net_clock w + n)%nat req) = true ->
  exists w' writeJob,
    DownloadImageHandler fuel env job w = Returns w'
    /\ net_clock w' = (net_clock w + S n)%nat
    /\ logs (trace w') = logs (trace w)
    /\ writeJobs_sent (trace w') = writeJob :: writeJobs_sent (trace w)
    /\ writeQueue w' = writeQueue w ++ [writeJob]
    /\ Content writeJob = Body (Client_Do env (net_clock w + n)%nat req)
    /\ downloadingCount w' = add64 (downloadingCount w) 1
    /\ downloadStartCount w' = add64 (downloadStartCount w) 1.
Proof.
  intros Hreq Hmax Hn Hfuel Hfail Hok. unfold DownloadImageHandler.
  destruct (DownloadImageHandler_loop_succeeds env job req Hreq n 1
              (DownloadImageHandler_enter w) fuel)
    as (w' & wj & Hrun & H1 & H2 & H3 & H4 & H5 & H6 & H7); try done.
  - cbn. replace (Retry (conf w) + 1 - 1) with (Retry (conf w)) by lia. exact Hn.
  - exists w', wj. cbn in *. by split_and!.
Qed.

Lemma DownloadImageHandler_gives_up_witness :
  exists w' msg,
    DownloadImageHandler 6 Sample.env_down Sample.job_a (Sample.world_0 (Sample.conf_of 5 1))
      = Returns w'
    /\ net_clock w' = 6%nat
    /\ logs (trace w') = [msg]
    /\ writeJobs_sent (trace w') = []
    /\ writeQueue w' = []
    /\ downloadingCount w' = 0
    /\ downloadStartCount w' = 1.
Proof.
  assert (in_int64 0) as H0 by (unfold in_int64; lia).
  exact (DownloadImageHandler_gives_up Sample.env_down Sample.job_a Sample.req_a
           (Sample.world_0 (Sample.conf_of 5 1)) 6 eq_refl eq_refl H0 (le_n 6)
           (fun k _ => eq_refl)).
Defined.

Lemma DownloadImageHandler_first_success_witness :
  exists w' writeJob,
    DownloadImageHandler 9 (Sample.env_flaky 4) Sample.job_a
                         (Sample.world_0 (Sample.conf_of 5 1)) = Returns w'
    /\ net_clock w' = 5%nat
    /\ logs (trace w') = []
    /\ writeJobs_sent (trace w') = [writeJob]
    /\ writeQueue w' = [writeJob]
    /\ Content writeJob = "abc"%string
    /\ downloadingCount w' = 1
    /\ downloadStartCount w' = 1.
Proof.
  refine (DownloadImageHandler_first_success (Sample.env_flaky 4) Sample.job_a Sample.req_a
            (Sample.world_0 (Sample.conf_of 5 1)) 9 4 eq_refl eq_refl _ _ _ eq_refl).
  - vm_compute. lia.
  - lia.
  - intros k Hk. do 4 (destruct k as [|k]; [reflexivity|]). lia.
Defined.

(** X6.  With the largest retry limit an [int64] holds, [tries] never exceeds
    the limit: while every answer fails the loop goes on, whatever the number
    of iterations it is given. *)
Theorem DownloadImageHandler_retries_forever (env : Env) (job : Job) (req : Request)
    (w : World) (fuel : nat) :
  request_of env job = Some req ->
  Retry (conf w) = 2^63 - 1 ->
  (forall k, response_ok (Client_Do env (net_clock w + k)%nat req) = false) ->
  DownloadImageHandler fuel env job w = OutOfFuel.
Proof.
  intros Hreq Hmax Hfail. unfold DownloadImageHandler.
  assert (forall fuel tries w0,
             Retry (conf w0) = 2^63 - 1 -> in_int64 tries ->
             (forall k, response_ok (Client_Do env (net_clock w0 + k)%nat req) = false) ->
             DownloadImageHandler_loop fuel env job tries w0 = OutOfFuel) as Hloop.
  { clear Hmax Hfail. intros fuel0. induction fuel0 as [|fuel0 IH]; intros tries w0 Hmax Htries Hfail;
      [reflexivity|]. cbn [DownloadImageHandler_loop].
    pose proof (Hfail 0%nat) as Hnow. rewrite Nat.add_0_r in Hnow.
    rewrite (attempt_again env job req Hreq tries w0 Hnow)
      by (apply Z.ltb_ge; unfold in_int64 in Htries; lia).
    apply IH; [exact Hmax | |].
    - unfold add64, wrap64, in_int64.
      pose proof (Z.mod_pos_bound (tries + 1 + 2 ^ 63) (2 ^ 64) ltac:(lia)). lia.
    - intros k. cbn. replace (S (net_clock w0 + k)) with (net_clock w0 + S k)%nat by lia.
      apply Hfail. }
  apply Hloop; [exact Hmax | unfold in_int64; lia | exact Hfail].
Qed.

Lemma DownloadImageHandler_retries_forever_witness :
  DownloadImageHandler 5 Sample.env_down Sample.job_a
                       (Sample.world_0 (Sample.conf_of (2^63 - 1) 1)) = OutOfFuel.
Proof.
  exact (DownloadImageHandler_retries_forever Sample.env_down Sample.job_a Sample.req_a
           (Sample.world_0 (Sample.conf_of (2^63 - 1) 1)) 5 eq_refl eq_refl
           (fun k => eq_refl)).
Defined.

(** ** The name of the file a download is written to *)

(** X7.  A download that succeeds is saved in the directory of the job, under
    the name of the image; for an avif or webp image, under the name up to its
    first dot with that extension, avif first. *)
Theorem attempt_file_name (env : Env) (job : Job) (req : Request) (tries : Z) (w : World)
    (stem rest : string) :
  request_of env job = Some req ->
  response_ok (Client_Do env (net_clock w) req) = true ->
  has_char "." stem = false ->
  (Name (JImage job) = (stem +:+ "." +:+ rest)%string \/ Name (JImage job) = stem) ->
  exists w',
    attempt env job tries w
    = Some (w', Succeeded
                  (mkWriteJob (Body (Client_Do env (net_clock w) req))
                     (JSavePath job +:+ "/" +:+ saved_name (JImage job) stem)%string)).
Proof.
  intros Hreq Hok Hstem Hname.
  assert (hd EmptyString (Split (Name (JImage job)) ".") = stem) as Hhd.
  { destruct Hname as [-> | ->].
    - destruct (Split_head "." stem rest Hstem) as [t Ht].
      change (Split (stem +:+ "." +:+ rest) ".")
        with (Split (stem +:+ String "." rest) (one_byte ".")).
      by rewrite Ht.
    - change (Split stem ".") with (Split stem (one_byte ".")).
      by rewrite (Split_free _ _ Hstem). }
  unfold attempt. rewrite Hreq. cbn [mbind option_bind]. rewrite Hok, Hhd.
  eexists. unfold saved_name.
  destruct (HasAvif (JImage job) =? 1), (HasWebp (JImage job) =? 1); reflexivity.
Qed.

Lemma attempt_file_name_witness :
  exists w',
    attempt (Sample.env_good 2)
            (mkJob (mkImage "p.01.v2.jpg" "abcdef00a" 1 0) Sample.gallery_1 "save/null/T"
                   (Sample.conf_of 2 2))
            1 (Sample.world_0 (Sample.conf_of 2 2))
    = Some (w', Succeeded (mkWriteJob "abc" "save/null/T/p.webp")).
Proof.
  exact (attempt_file_name (Sample.env_good 2)
           (mkJob (mkImage "p.01.v2.jpg" "abcdef00a" 1 0) Sample.gallery_1 "save/null/T"
                  (Sample.conf_of 2 2))
           (mkRequest "https://ba.hitomi.la/webp/a/00/abcdef00a.webp" "GET"
                      "https://hitomi.la/reader/1.html" UserAgent)
           1 (Sample.world_0 (Sample.conf_of 2 2)) "p" "01.v2.jpg"
           eq_refl eq_refl eq_refl (or_introl eq_refl)).
Defined.

(** ** A download job from the handler to the writer *)

Lemma attempt_counters env job tries w w' r :
  attempt env job tries w = Some (w', r) ->
  downloadStartCount w' = downloadStartCount w.
Proof.
  unfold attempt. destruct (request_of env job) as [req|]; [|discriminate].
  cbn [mbind option_bind].
  destruct (response_ok _); [intros [= <- <-]; reflexivity|].
  destruct (_ <? tries); intros [= <- <-]; reflexivity.
Qed.

Lemma DownloadImageHandler_loop_started fuel env job tries w w' :
  DownloadImageHandler_loop fuel env job tries w = Returns w' ->
  downloadStartCount w' = downloadStartCount w.
Proof.
  revert tries w. induction fuel as [|fuel IH]; intros tries w; cbn; [discriminate|].
  destruct (attempt env job tries w) as [[w1 r]|] eqn:Ha; [|discriminate].
  pose proof (attempt_counters _ _ _ _ _ _ Ha) as Hs.
  destruct r as [wj| |]; [intros [= <-]; exact Hs | intros [= <-]; exact Hs |].
  intros Hloop. rewrite (IH _ _ Hloop). exact Hs.
Qed.

(** X8.  A handler that returns has counted its job as started once.  Either
    it gave up and the in-flight counter is back where it was, or it sent one
    write job and the counter is one higher until [WriterHandler] has dealt
    with that write job. *)
Theorem job_accounted_once (env : Env) (fuel : nat) (job : Job) (w w' : World) :
  in_int64 (downloadingCount w) ->
  DownloadImageHandler fuel env job w = Returns w' ->
  downloadStartCount w' = add64 (downloadStartCount w) 1
  /\ ((writeQueue w' = writeQueue w /\ downloadingCount w' = downloadingCount w)
      \/ (exists writeJob,
            writeQueue w' = writeQueue w ++ [writeJob]
            /\ downloadingCount w' = add64 (downloadingCount w) 1
            /\ downloadingCount (WriterHandler env writeJob w') = downloadingCount w)).
Proof.
  intros Hcount Hrun. unfold DownloadImageHandler in Hrun. split.
  - by rewrite (DownloadImageHandler_loop_started _ _ _ _ _ _ Hrun).
  - destruct (DownloadImageHandler_loop_yield _ _ _ _ _ _ Hrun)
      as [(wj & _ & Hq & _ & Hd)|(msg & _ & Hq & _ & Hd)].
    + right. exists wj. cbn in Hq, Hd. split_and!; try done.
      rewrite (proj1 (WriterHandler_never_appends env wj w')), Hd.
      by apply (add64_cancel _ 1).
    + left. cbn in Hq, Hd. split; [done|]. rewrite Hd. by apply (add64_cancel _ 1).
Qed.

Lemma job_accounted_once_witness :
  exists w',
    DownloadImageHandler 3 (Sample.env_good 2) Sample.job_a
                         (Sample.world_0 (Sample.conf_of 2 2)) = Returns w'
    /\ downloadStartCount w' = 1
    /\ exists writeJob,
         writeQueue w' = [writeJob]
         /\ downloadingCount w' = 1
         /\ downloadingCount (WriterHandler (Sample.env_good 2) writeJob w') = 0.
Proof.
  assert (in_int64 0) as H0 by (unfold in_int64; lia).
  destruct (DownloadImageHandler 3 (Sample.env_good 2) Sample.job_a
              (Sample.world_0 (Sample.conf_of 2 2))) as [w'| |] eqn:Hrun;
    [|vm_compute in Hrun; discriminate..].
  exists w'. split; [reflexivity|].
  destruct (job_accounted_once (Sample.env_good 2) 3 Sample.job_a
              (Sample.world_0 (Sample.conf_of 2 2)) w' H0 Hrun) as [Hs [[Hq Hd]|Hw]].
  - exfalso. vm_compute in Hrun. injection Hrun as <-. vm_compute in Hq. discriminate.
  - split; [exact Hs | exact Hw].
Defined.

(** ** [ImageUrl]: asset kinds and odd hashes *)

(** X9.  For an avif image, and for a webp image that is not avif, the address
    depends on the hash alone: the name of the image and the platform play no
    part, and avif wins over webp. *)
Theorem ImageUrl_variant_priority (windows windows' : bool) (img img' : Image) :
  Hash img = Hash img' ->
  (HasAvif img = 1 -> HasAvif img' = 1 -> ImageUrl windows img = ImageUrl windows' img')
  /\ (HasAvif img <> 1 -> HasAvif img' <> 1 -> HasWebp img = 1 -> HasWebp img' = 1 ->
      ImageUrl windows img = ImageUrl windows' img').
Proof.
  intros Hhash. unfold ImageUrl. rewrite Hhash. split.
  - intros -> ->. reflexivity.
  - intros H1 H2 -> ->. apply Z.eqb_neq in H1, H2. rewrite H1, H2. reflexivity.
Qed.

Lemma ImageUrl_variant_priority_witness :
  ImageUrl false (mkImage "1.jpg" "abcdef00a" 1 1)
  = ImageUrl true (mkImage "other\name.png" "abcdef00a" 0 1).
Proof.
  exact (proj1 (ImageUrl_variant_priority false true (mkImage "1.jpg" "abcdef00a" 1 1)
                  (mkImage "other\name.png" "abcdef00a" 0 1) eq_refl) eq_refl eq_refl).
Defined.

Lemma digit_val_range c d : digit_val c = Some d -> 0 <= d <= 35.
Proof.
  destruct c as [[] [] [] [] [] [] [] []]; vm_compute; intros H;
    first [discriminate H | injection H as <-; split; discriminate].
Qed.

Lemma digit_val_not_hex c :
  hex_digit c = None -> digit_val c = None \/ exists d, digit_val c = Some d /\ 16 <= d.
Proof.
  destruct c as [[] [] [] [] [] [] [] []]; vm_compute; intros H;
    first [discriminate H | by left | right; eexists; split; [reflexivity | discriminate]].
Qed.

Lemma ParseUint_loop_bad base maxVal c n :
  digit_val c = None \/ (exists d, digit_val c = Some d /\ base <= d) ->
  exists e, ParseUint_loop base maxVal (String c EmptyString) n = inr e.
Proof.
  intros [H | (d & H & Hd)]; cbn [ParseUint_loop]; rewrite H; [eauto|].
  apply Z.leb_le in Hd. rewrite Hd. eauto.
Qed.

Lemma ParseInt_second_not_hex c1 c2 :
  hex_digit c2 = None ->
  exists e, ParseInt (String c1 (String c2 EmptyString)) 16 64 = inr e.
Proof.
  intros H2. pose proof (digit_val_not_hex _ H2) as Hbad.
  unfold ParseInt.
  destruct (Ascii.eqb c1 "+");
    [|destruct (Ascii.eqb c1 "-")].
  - unfold ParseUint. destruct (ParseUint_loop_bad 16 (2 ^ 64 - 1) c2 0 Hbad) as [e ->]. eauto.
  - unfold ParseUint. destruct (ParseUint_loop_bad 16 (2 ^ 64 - 1) c2 0 Hbad) as [e ->]. eauto.
  - unfold ParseUint. cbn [ParseUint_loop].
    destruct (digit_val c1) as [d1|]; [|eauto].
    destruct (16 <=? d1); [eauto|].
    destruct (_ <=? 0); [eauto|].
    destruct (_ <? 0 * 16 + d1); [eauto|].
    destruct Hbad as [-> | (d & -> & Hd)]; [eauto|].
    apply Z.leb_le in Hd. rewrite Hd. eauto.
Qed.

(** X10.  When the second of the two shard characters is no hexadecimal digit,
    [strconv.ParseInt] fails and the address names the subdomain [a]. *)
Theorem ImageUrl_fallback (windows : bool) (img : Image) (c1 c2 : ascii) :
  3 <= len (Hash img) ->
  h2_of img = String c1 (String c2 EmptyString) ->
  hex_digit c2 = None ->
  ImageUrl windows img
  = Some ("https://a.hitomi.la/" +:+ kind_directory img +:+ "/" +:+ h1_of img +:+ "/"
            +:+ h2_of img +:+ "/" +:+ Hash img +:+ kind_extension windows img)%string.
Proof.
  intros Hlen Hh2 Hc2.
  unfold ImageUrl, slice_from. pose proof (len_nonneg (Hash img)).
  rewrite !slice_Some by lia. cbn [mbind option_bind].
  replace (Z.to_nat (len (Hash img) - 3)) with (String.length (Hash img) - 3)%nat
    by (unfold len; lia).
  replace (Z.to_nat (len (Hash img) - 1 - (len (Hash img) - 3))) with 2%nat by lia.
  replace (Z.to_nat (len (Hash img) - 1)) with (String.length (Hash img) - 1)%nat
    by (unfold len; lia).
  replace (Z.to_nat (len (Hash img) - (len (Hash img) - 1))) with 1%nat by lia.
  fold (h1_of img). fold (h2_of img). rewrite Hh2.
  destruct (ParseInt_second_not_hex c1 c2 Hc2) as [e ->].
  unfold kind_directory, kind_extension.
  destruct (HasAvif img =? 1); [|destruct (HasWebp img =? 1)]; reflexivity.
Qed.

Lemma ImageUrl_fallback_witness :
  ImageUrl false (mkImage "1.jpg" "abcdef0-a" 0 0)
  = Some "https://a.hitomi.la/images/a/0-/abcdef0-a.jpg"%string.
Proof.
  exact (ImageUrl_fallback false (mkImage "1.jpg" "abcdef0-a" 0 0) "0" "-"
           ltac:(vm_compute; discriminate) eq_refl eq_refl).
Defined.

Lemma substring_two n s :
  (n + 2 <= String.length s)%nat ->
  exists c1 c2, substring n 2 s = String c1 (String c2 EmptyString).
Proof.
  revert n. induction s as [|a s IH]; intros n Hn; cbn in Hn; [lia|].
  destruct n as [|n].
  - destruct s as [|b s]; cbn in Hn; [lia|]. exists a, b. cbn. by destruct s.
  - cbn [substring]. apply IH. lia.
Qed.

Lemma ParseUint_loop_cons c s n r :
  ParseUint_loop 16 (2 ^ 64 - 1) (String c s) n = inl r ->
  exists d, 0 <= d < 16 /\ ParseUint_loop 16 (2 ^ 64 - 1) s (n * 16 + d) = inl r.
Proof.
  cbn [ParseUint_loop]. destruct (digit_val c) as [d|] eqn:Hd; [|discriminate].
  pose proof (digit_val_range _ _ Hd).
  destruct (Z.leb_spec 16 d); [discriminate|].
  destruct (_ <=? n); [discriminate|].
  destruct (_ <? n * 16 + d); [discriminate|].
  intros Hr. exists d. split; [lia|exact Hr].
Qed.

Lemma ParseInt_two_range c1 c2 g :
  ParseInt (String c1 (String c2 EmptyString)) 16 64 = inl g -> -15 <= g <= 255.
Proof.
  unfold ParseInt.
  destruct (Ascii.eqb c1 "+"); [|destruct (Ascii.eqb c1 "-")]; unfold ParseUint.
  - destruct (ParseUint_loop _ _ _ _) as [un|] eqn:Hu; [|discriminate].
    destruct (ParseUint_loop_cons _ _ _ _ Hu) as (d & Hd & [= <-]).
    cbn [negb andb]. destruct (_ <=? _); [discriminate|]. intros [= <-]. lia.
  - destruct (ParseUint_loop _ _ _ _) as [un|] eqn:Hu; [|discriminate].
    destruct (ParseUint_loop_cons _ _ _ _ Hu) as (d & Hd & [= <-]).
    cbn [negb andb]. destruct (_ <? _); [discriminate|]. intros [= <-]. lia.
  - destruct (ParseUint_loop _ _ _ _) as [un|] eqn:Hu; [|discriminate].
    destruct (ParseUint_loop_cons _ _ _ _ Hu) as (d1 & Hd1 & Hu2).
    destruct (ParseUint_loop_cons _ _ _ _ Hu2) as (d2 & Hd2 & [= <-]).
    cbn [negb andb]. destruct (_ <=? _); [discriminate|]. intros [= <-]. lia.
Qed.

Lemma shard_rune g :
  -15 <= g <= 255 ->
  let r := Z.rem (if g <? 9 then 1 else g) (if g <? 48 then 2 else 3) in
  (r = 0 \/ r = 1 \/ (r = 2 /\ 48 <= g)) /\ add64 97 r = 97 + r.
Proof.
  intros Hg. cbn zeta.
  set (g' := if g <? 9 then 1 else g). set (n := if g <? 48 then 2 else 3).
  assert (1 <= g' <= 255) by (unfold g'; destruct (Z.ltb_spec g 9); lia).
  assert ((n = 2 /\ g < 48) \/ (n = 3 /\ 48 <= g))
    by (unfold n; destruct (Z.ltb_spec g 48); lia).
  rewrite Z.rem_mod_nonneg by lia.
  pose proof (Z.mod_pos_bound g' n ltac:(lia)).
  split; [lia|]. apply wrap64_small. lia.
Qed.

(** X11.  Every address [ImageUrl] returns has the shape
    [https://SUB.hitomi.la/DIR/H1/H2/HASH EXT], with [SUB] one of seven
    subdomains. *)
Theorem ImageUrl_subdomain (windows : bool) (img : Image) :
  3 <= len (Hash img) ->
  exists sub,
    In sub subdomains
    /\ ImageUrl windows img
       = Some ("https://" +:+ sub +:+ ".hitomi.la/" +:+ kind_directory img +:+ "/"
                 +:+ h1_of img +:+ "/" +:+ h2_of img +:+ "/" +:+ Hash img
                 +:+ kind_extension windows img)%string.
Proof.
  intros Hlen.
  unfold ImageUrl, slice_from. pose proof (len_nonneg (Hash img)).
  rewrite !slice_Some by lia. cbn [mbind option_bind].
  replace (Z.to_nat (len (Hash img) - 3)) with (String.length (Hash img) - 3)%nat
    by (unfold len; lia).
  replace (Z.to_nat (len (Hash img) - 1 - (len (Hash img) - 3))) with 2%nat by lia.
  replace (Z.to_nat (len (Hash img) - 1)) with (String.length (Hash img) - 1)%nat
    by (unfold len; lia).
  replace (Z.to_nat (len (Hash img) - (len (Hash img) - 1))) with 1%nat by lia.
  fold (h1_of img). fold (h2_of img).
  destruct (substring_two (String.length (Hash img) - 3) (Hash img)) as (c1 & c2 & Hh2);
    [unfold len in Hlen; lia|].
  fold (h2_of img) in Hh2.
  unfold kind_directory, kind_extension, subdomains.
  destruct (ParseInt (h2_of img) 16 64) as [g|e] eqn:Hparse.
  - rewrite Hh2 in Hparse. apply ParseInt_two_range in Hparse.
    destruct (shard_rune g Hparse) as [Hr ->].
    destruct Hr as [-> | [-> | [-> _]]];
      (destruct (HasAvif img =? 1); [|destruct (HasWebp img =? 1)]);
      (eexists; split; [|reflexivity]); cbn; tauto.
  - destruct (HasAvif img =? 1); [|destruct (HasWebp img =? 1)];
      (eexists; split; [|reflexivity]); cbn; tauto.
Qed.

Lemma ImageUrl_subdomain_witness :
  exists sub,
    In sub subdomains
    /\ ImageUrl false (mkImage "1.jpg" "abc-fa" 0 0)
       = Some ("https://" +:+ sub +:+ ".hitomi.la/images/a/-f/abc-fa.jpg")%string.
Proof.
  exact (ImageUrl_subdomain false (mkImage "1.jpg" "abc-fa" 0 0)
           ltac:(vm_compute; discriminate)).
Defined.

(** ** [Unique], once more *)

Lemma Dedup_spec_sublist l : Dedup_spec l `sublist_of` l.
Proof.
  induction l as [|x l IH]; [done|]. cbn [Dedup_spec].
  apply sublist_skip. etrans; [apply sublist_filter | exact IH].
Qed.

(** X12.  [Unique] returns a subsequence of its argument, so never a longer
    list, and returns the argument itself exactly when it has no duplicates. *)
Theorem Unique_subsequence (strSlice : list string) :
  Unique strSlice `sublist_of` strSlice
  /\ (length (Unique strSlice) <= length strSlice)%nat
  /\ (Unique strSlice = strSlice <-> NoDup strSlice).
Proof.
  rewrite Unique_Dedup_spec. split_and!.
  - apply Dedup_spec_sublist.
  - apply sublist_length, Dedup_spec_sublist.
  - split.
    + intros <-. apply Dedup_spec_NoDup.
    + apply Dedup_spec_fixed.
Qed.

(** ** [WriterHandler] and [DownloadGallery] when the system refuses *)

Lemma WriteFile_frame env filename data perm w :
  let w' := fst (WriteFile env filename data perm w) in
  trace w' = trace w
  /\ downloadingCount w' = downloadingCount w
  /\ fs_dirs w' = fs_dirs w
  /\ forall other, other <> filename -> fs_files w' !! other = fs_files w !! other.
Proof.
  unfold WriteFile, syscall.
  destruct (os_fault env (os_clock w)); cbn; [done|].
  case_decide; cbn; [done|].
  destruct (os_fault env (S (os_clock w))); cbn.
  - split_and!; try done. intros other Hne. by rewrite !lookup_insert_ne.
  - destruct (os_fault env (S (S (os_clock w)))); cbn; (split_and!; try done);
      intros other Hne; by rewrite !lookup_insert_ne.
Qed.

(** X13.  When [ioutil.WriteFile] fails, [WriterHandler] logs one line with the
    name of the file and the error, takes the job off the in-flight counter all
    the same, and leaves every other file as it was. *)
Theorem WriterHandler_failure (env : Env) (job : WriteJob) (w : World) (err : PathError) :
  snd (WriteFile env (FileName job) (Content job) os_ModeAppend w) = Some err ->
  let w' := WriterHandler env job w in
  logs (trace w')
  = ("Download Image Fail: " +:+ FileName job +:+ " Because " +:+ PathError_Error err)%string
      :: logs (trace w)
  /\ downloadingCount w' = add64 (downloadingCount w) (-1)
  /\ fs_dirs w' = fs_dirs w
  /\ forall other, other <> FileName job -> fs_files w' !! other = fs_files w !! other.
Proof.
  intros Herr. unfold WriterHandler.
  pose proof (WriteFile_frame env (FileName job) (Content job) os_ModeAppend w) as F.
  destruct (WriteFile env (FileName job) (Content job) os_ModeAppend w) as [w1 e].
  cbn in Herr, F. subst e. destruct F as (Ht & Hd & Hdirs & Hfiles).
  cbn. autorewrite with sent. rewrite Ht, Hd. done.
Qed.

Lemma WriterHandler_failure_witness :
  let env := mkEnv false 2 Sample.get (Sample.do_after 0) Sample.decode
                   (Sample.fault_at 0 EACCES) in
  let w' := WriterHandler env (mkWriteJob "abc" "save/null/T/1.jpg") Sample.world_with_file in
  logs (trace w')
  = ["Download Image Fail: save/null/T/1.jpg Because open save/null/T/1.jpg: permission denied"]%string
  /\ downloadingCount w' = -1
  /\ fs_files w' !! "save/null/T/1.jpg"%string = Some "old contents"%string.
Proof.
  intros env w'.
  destruct (WriterHandler_failure env (mkWriteJob "abc" "save/null/T/1.jpg")
              Sample.world_with_file
              (mkPathError "open" "save/null/T/1.jpg" EACCES) eq_refl) as (Hl & Hd & _).
  split; [exact Hl|]. split; [exact Hd|]. reflexivity.
Defined.

Lemma MkdirAll_outcome env path perm w :
  let w' := fst (MkdirAll env path perm w) in
  trace w' = trace w
  /\ os_clock w' = S (os_clock w)
  /\ (snd (MkdirAll env path perm w) = None -> path ∈ fs_dirs w').
Proof.
  unfold MkdirAll, syscall. destruct (os_fault env (os_clock w)); cbn; [done|].
  repeat case_decide; cbn; split_and!; try done. intros _. set_solver.
Qed.

(** X14.  [DownloadGallery] logs its start line first.  When it goes on to send
    jobs, nothing else was logged, the directory is that of the title and it
    exists, after one system call; when it returns early, one error line
    follows the start line, after one or two system calls. *)
Theorem DownloadGallery_never_silent (env : Env) (gallery : Gallery) (index total : Z)
    (c : Conf) (w : World) :
  let '(w', dir) := DownloadGallery_dir env gallery index total c w in
  let start_line :=
    ("Start Download (" +:+ Itoa (add64 index 1) +:+ "/" +:+ Itoa total +:+ "): "
       +:+ (if String.eqb (JpTitle gallery) EmptyString then Title gallery
            else JpTitle gallery))%string in
  match dir with
  | Some savePath =>
      logs (trace w') = start_line :: logs (trace w)
      /\ savePath = destination_dir c gallery
      /\ os_clock w' = S (os_clock w)
      /\ savePath ∈ fs_dirs w'
  | None =>
      (exists error_line, logs (trace w') = error_line :: start_line :: logs (trace w))
      /\ (os_clock w' = S (os_clock w) \/ os_clock w' = S (S (os_clock w)))
  end.
Proof.
  unfold DownloadGallery_dir.
  match goal with |- context [MkdirAll env ?p ?m ?w0] =>
    pose proof (MkdirAll_outcome env p m w0) as (T1 & C1 & D1);
    destruct (MkdirAll env p m w0) as [w1 [err|]] end;
    cbn [fst snd] in T1, C1, D1; cbv beta iota.
  - destruct (IsExist err).
    + match goal with |- context [MkdirAll env ?p ?m w1] =>
        pose proof (MkdirAll_outcome env p m w1) as (T2 & C2 & _);
        destruct (MkdirAll env p m w1) as [w2 [err2|]] end;
        cbn [fst snd] in T2, C2; cbv beta iota; cbn in *;
        autorewrite with sent; rewrite T2, T1, C2, C1; cbn; autorewrite with sent;
        split; eauto.
    + cbn in *. autorewrite with sent. rewrite T1, C1. cbn. autorewrite with sent.
      split; eauto.
  - cbn in *. rewrite T1, C1. cbn. autorewrite with sent. split_and!; auto.
Qed.

(** ** Invariants of a run *)

Lemma add64_wrap64 x d : add64 (wrap64 x) d = wrap64 (x + d).
Proof.
  unfold add64, wrap64.
  replace ((x + 2 ^ 63) mod 2 ^ 64 - 2 ^ 63 + d + 2 ^ 63)
    with ((x + 2 ^ 63) mod 2 ^ 64 + d) by lia.
  rewrite Zplus_mod_idemp_l. f_equal. f_equal. lia.
Qed.

Lemma savePath_of_destination_dir c gallery : savePath_of c gallery = destination_dir c gallery.
Proof. reflexivity. Qed.

Lemma invariant_run (P : RunState -> Prop) env :
  (forall t s s', step env t s = Some s' -> P s -> P s') ->
  forall schedule s s', run env schedule s = Some s' -> P s -> P s'.
Proof.
  intros Hstep schedule. induction schedule as [|t rest IH]; intros s s'; cbn.
  - by intros [= ->].
  - destruct (step env t s) as [s1|] eqn:Hs; [|discriminate]. cbn.
    intros Hrun HP. eapply IH; [exact Hrun|]. eapply Hstep; eauto.
Qed.

(** Every case of a step: the hypothesis [Hstep : step env t s = Some s'] is
    taken apart along the tests of the step functions. *)
Ltac break_step Hstep :=
  unfold step, producer_step, main_step, worker_step, writer_step in Hstep;
  repeat
    match type of Hstep with
    | None = Some _ => discriminate Hstep
    | Some _ = Some _ => injection Hstep as <-
    | _ => progress cbn [mbind option_bind world producerPc mainPc workers writerPc
                          galleryUrls panicked] in Hstep
    | context [mbind _ ?o] => let E := fresh "Hk" in destruct o eqn:E
    | context [match ?x with _ => _ end] =>
        first [ is_var x; destruct x
              | let E := fresh "E" in destruct x eqn:E ]
    end.

Lemma quiet_WriteFile env filename data perm w :
  quiet w (fst (WriteFile env filename data perm w)).
Proof.
  unfold WriteFile, syscall.
  destruct (os_fault env (os_clock w)); cbn; [by constructor|].
  case_decide; cbn; [by constructor|].
  destruct (os_fault env (S (os_clock w))); cbn; [by constructor|].
  destruct (os_fault env (S (S (os_clock w)))); cbn; by constructor.
Qed.


Lemma WriteFile_quiet env filename data perm w w' err :
  WriteFile env filename data perm w = (w', err) -> quiet w w'.
Proof.
  intros E. pose proof (quiet_WriteFile env filename data perm w) as Q.
  by rewrite E in Q.
Qed.

Lemma MkdirAll_quiet env path perm w w' err :
  MkdirAll env path perm w = (w', err) -> quiet w w'.
Proof.
  intros E. pose proof (quiet_MkdirAll env path perm w) as Q.
  by rewrite E in Q.
Qed.

Lemma GalleryInfo_quiet env url w w' r :
  GalleryInfo env url w = (w', r) -> quiet w w'.
Proof. unfold GalleryInfo. intros [= <- _]. by constructor. Qed.

(** What the calls of a step leave alone. *)
Ltac frames :=
  repeat match goal with
         | E : GalleryInfo _ _ _ = (_, _) |- _ =>
             pose proof (GalleryInfo_quiet _ _ _ _ _ E); clear E
         | E : MkdirAll _ _ _ _ = (_, _) |- _ =>
             pose proof (MkdirAll_quiet _ _ _ _ _ _ E); clear E
         | E : WriteFile _ _ _ _ _ = (_, _) |- _ =>
             pose proof (WriteFile_quiet _ _ _ _ _ _ _ E); clear E
         end.

Arguments in_flight_workers : simpl never.
Arguments unstarted_workers : simpl never.

Lemma sum_insert (f : WorkerPc -> nat) pcs k old new :
  pcs !! k = Some old ->
  (sum_list_with f (<[k := new]> pcs) + f old = sum_list_with f pcs + f new)%nat.
Proof.
  revert k. induction pcs as [|pc pcs IH]; intros k Hk.
  - destruct k; discriminate.
  - destruct k as [|k].
    + injection Hk as ->. change (<[0%nat := new]> (old :: pcs)) with (new :: pcs).
      cbn [sum_list_with]. lia.
    + change (<[S k := new]> (pc :: pcs)) with (pc :: <[k := new]> pcs).
      cbn [sum_list_with]. specialize (IH k Hk). lia.
Qed.

(** *** The counters *)

Ltac insert_sums :=
  match goal with
  | Hk : ?pcs !! ?k = Some ?old |- context [<[?k := ?new]> ?pcs] =>
      pose proof (sum_insert in_flight pcs k old new Hk);
      pose proof (sum_insert unstarted pcs k old new Hk);
      fold (in_flight_workers (<[k := new]> pcs)) in *;
      fold (unstarted_workers (<[k := new]> pcs)) in *;
      fold (in_flight_workers pcs) in *;
      fold (unstarted_workers pcs) in *
  | _ => idtac
  end.

Lemma counted_step env t s s' : step env t s = Some s' -> counted s -> counted s'.
Proof.
  intros Hstep. destruct s as [w urls ppc mpc pcs wpc pan]. unfold counted.
  cbn [world workers writerPc]. intros [A B].
  break_step Hstep; frames;
    repeat match goal with Q : quiet _ _ |- _ => destruct Q end;
    cbn [world workers writerPc with_producer with_main with_worker with_writer with_panic];
    insert_sums;
    cbn in *; autorewrite with sent in *;
    repeat match goal with
           | E : queue _ = _ |- _ => rewrite E in *
           | E : writeQueue _ = _ |- _ => rewrite E in *
           | E : galleryQueue _ = _ |- _ => rewrite E in *
           | E : downloadingCount _ = _ |- _ => rewrite E in *
           | E : downloadStartCount _ = _ |- _ => rewrite E in *
           | E : jobs_sent _ = _ |- _ => rewrite E in *
           end;
    rewrite ?add64_wrap64, ?length_app; cbn [length];
    try (split; f_equal; lia).
Qed.

Lemma counted_start env c lines dirs files : counted (start env c lines dirs files).
Proof.
  unfold counted, start, spawn_workers, in_flight_workers, unstarted_workers. cbn.
  assert (forall (f : WorkerPc -> nat) n, f W_select = 0%nat ->
            sum_list_with f (replicate n W_select) = 0%nat) as H.
  { intros f n Hf. induction n as [|n IH]; [done|]. cbn. by rewrite Hf, IH. }
  rewrite !H by done. done.
Qed.

(** *** The shape of the state *)

Ltac quiets := repeat match goal with Q : quiet _ _ |- _ => destruct Q end.

Lemma step_shape env t s s' :
  step env t s = Some s' ->
  conf (world s') = conf (world s)
  /\ length (workers s') = length (workers s)
  /\ galleryUrls s' = galleryUrls s.
Proof.
  intros Hstep. destruct s as [w urls ppc mpc pcs wpc pan].
  break_step Hstep; frames; quiets; cbn; rewrite ?length_insert; done.
Qed.

Lemma run_shape env schedule s s' :
  run env schedule s = Some s' ->
  conf (world s') = conf (world s)
  /\ length (workers s') = length (workers s)
  /\ galleryUrls s' = galleryUrls s.
Proof.
  intros Hrun.
  apply (invariant_run
           (fun x => conf (world x) = conf (world s)
                     /\ length (workers x) = length (workers s)
                     /\ galleryUrls x = galleryUrls s) env) with (2 := Hrun); [|done].
  intros t x x' Hstep (H1 & H2 & H3).
  destruct (step_shape _ _ _ _ Hstep) as (S1 & S2 & S3). split_and!; congruence.
Qed.

(** *** The channels *)

Lemma within_capacity_step env t s s' :
  step env t s = Some s' -> within_capacity s -> within_capacity s'.
Proof.
  intros Hstep. destruct s as [w urls ppc mpc pcs wpc pan].
  unfold within_capacity, cap_queue, cap_galleryQueue, cap_writeQueue. cbn [world].
  intros (A & B & C).
  break_step Hstep; frames; quiets;
    repeat match goal with
           | E : has_room _ _ = true |- _ =>
               unfold has_room, cap_queue, cap_galleryQueue, cap_writeQueue in E;
               apply Z.ltb_lt in E
           end;
    cbn in *;
    repeat match goal with
           | E : queue _ = _ |- _ => rewrite E in *
           | E : writeQueue _ = _ |- _ => rewrite E in *
           | E : galleryQueue _ = _ |- _ => rewrite E in *
           | E : conf _ = _ |- _ => rewrite E in *
           end;
    rewrite ?length_app; cbn [length] in *; try lia.
Qed.

Lemma within_capacity_start env c lines dirs files :
  within_capacity (start env c lines dirs files).
Proof. unfold within_capacity, start. cbn. lia. Qed.

(** *** No panic *)

Lemma ImageUrl_long windows img :
  3 <= len (Hash img) -> is_Some (ImageUrl windows img).
Proof.
  intros Hge. unfold ImageUrl, slice_from. pose proof (len_nonneg (Hash img)) as Hn.
  rewrite !slice_Some by lia. simpl.
  destruct (HasAvif img =? 1), (HasWebp img =? 1); simpl; eauto.
Qed.

Lemma request_of_good env job : good_job job -> request_of env job <> None.
Proof.
  intros Hjob. unfold request_of.
  destruct (ImageUrl_long (GOOS_windows env) (JImage job) Hjob) as [uri ->]. done.
Qed.

Lemma GalleryInfo_good env url w w' g :
  well_decoded env -> GalleryInfo env url w = (w', inl g) -> good_gallery (with_Url url g).
Proof.
  intros Hdec. unfold GalleryInfo. intros [= _ Ha].
  unfold good_gallery, with_Url. cbn [Files].
  unfold GalleryInfo_answer in Ha.
  destruct (GetErr _); [discriminate|]. destruct (negb _); [discriminate|].
  exact (Hdec _ _ Ha).
Qed.

Lemma jobs_of_good g savePath c :
  good_gallery g -> Forall good_job (jobs_of g savePath c).
Proof.
  unfold good_gallery, jobs_of. intros H. induction H; cbn; constructor; done.
Qed.

Ltac sound_solve :=
  repeat match goal with
         | H : Forall _ (_ :: _) |- _ => apply Forall_cons in H; destruct H
         | H : _ /\ _ |- _ => destruct H
         end;
  split_and!;
  first [ done | lia | by apply Forall_insert | by apply jobs_of_good
        | (rewrite ?length_app in *; cbn [length] in *; lia)
        | (apply Forall_app; split; [done|by constructor]) ].

Lemma sound_step env t s s' :
  well_decoded env -> Z.of_nat (length (galleryUrls s)) < 2 ^ 63 ->
  step env t s = Some s' -> sound s -> sound s'.
Proof.
  intros Hdec Hlen Hstep. destruct s as [w urls ppc mpc pcs wpc pan].
  unfold sound, good_main. cbn [world workers producerPc mainPc galleryUrls panicked] in *.
  intros (Hp & Hm & Hpr & Hg & Hq & Hw). subst pan.
  break_step Hstep;
    try match goal with
        | E : GalleryInfo _ _ _ = (_, inl _) |- _ =>
            pose proof (GalleryInfo_good _ _ _ _ _ Hdec E)
        end;
    try match goal with
        | Hk : pcs !! _ = Some _ |- _ => pose proof (Forall_lookup_1 _ _ _ _ Hw Hk)
        end;
    frames; quiets;
    cbn [world workers producerPc mainPc galleryUrls panicked with_producer with_main
         with_worker with_writer with_panic good_producer good_worker remaining] in *;
    repeat match goal with
           | E : queue _ = _ |- _ => rewrite E in *
           | E : galleryQueue _ = _ |- _ => rewrite E in *
           end;
    cbn [set_galleryQueue set_queue galleryQueue queue send_galleryQueue send_queue
         send_writeQueue emit set_trace set_writeQueue fmt_Println fmt_Print log_Println
         log_Print AddInt64_downloadingCount AddInt64_downloadStartCount
         set_downloadingCount set_downloadStartCount length] in *;
    try solve [sound_solve | destruct mpc; sound_solve].
  - destruct Hm as (H0 & H1 & _). unfold add64. rewrite wrap64_small by lia. sound_solve.
  - destruct Hm as (H0 & H1 & _). apply lookup_ge_None in E0. lia.
  - by destruct (request_of_good env job).
Qed.

Lemma sound_start env c lines dirs files :
  sound (start env c lines dirs files).
Proof.
  unfold sound, good_main, start, spawn_workers. cbn.
  split_and!; try done; try lia. apply Forall_replicate. done.
Qed.

(** *** Where the jobs come from *)

Lemma job_from_mono c sent g job : job_from c sent job -> job_from c (g :: sent) job.
Proof. intros (H1 & H2 & H3). split_and!; [by right|done|done]. Qed.

Lemma writeJob_from_mono c sent g writeJob :
  writeJob_from c sent writeJob -> writeJob_from c (g :: sent) writeJob.
Proof. intros (g0 & img & H1 & H2 & H3). exists g0, img. split_and!; [by right|done|done]. Qed.

Lemma worker_from_mono c sent g pc : worker_from c sent pc -> worker_from c (g :: sent) pc.
Proof. destruct pc; cbn; auto using job_from_mono, writeJob_from_mono. Qed.

Lemma main_from_mono c sent g pc : main_from c sent pc -> main_from c (g :: sent) pc.
Proof.
  destruct pc; cbn; try done; try (intros H; by right).
  intros [H1 H2]. split; [by right|]. eapply Forall_impl; [exact H2|].
  intros job. apply job_from_mono.
Qed.

Lemma jobs_of_from c sent g :
  g ∈ sent -> Forall (job_from c sent) (jobs_of g (savePath_of c g) c).
Proof.
  intros Hg. unfold jobs_of. apply Forall_fmap, Forall_forall. intros img Himg.
  unfold job_from. cbn. done.
Qed.

Lemma writeJob_of_from c sent job res :
  job_from c sent job -> writeJob_from c sent (writeJob_of job res).
Proof.
  intros (H1 & H2 & H3). exists (JGallery job), (JImage job). split_and!; [done|done|].
  unfold writeJob_of. cbn. by rewrite H3.
Qed.

Lemma traced_step c env t s s' :
  step env t s = Some s' -> traced c s -> traced c s'.
Proof.
  intros Hstep. destruct s as [w urls ppc mpc pcs wpc pan].
  unfold traced. cbn [world workers producerPc mainPc writerPc].
  intros (Hc & Hg & Hm & Hq & Hw & Hwq & Hwr).
  break_step Hstep;
    try match goal with
        | Hk : pcs !! _ = Some _ |- _ => pose proof (Forall_lookup_1 _ _ _ _ Hw Hk)
        end;
    frames; quiets;
    cbn [world workers producerPc mainPc writerPc with_producer with_main
         with_worker with_writer with_panic main_from worker_from] in *;
    repeat match goal with
           | E : queue _ = _ |- _ => rewrite E in *
           | E : galleryQueue _ = _ |- _ => rewrite E in *
           | E : writeQueue _ = _ |- _ => rewrite E in *
           | E : conf _ = _ |- _ => rewrite E in *
           | E : galleries_sent _ = _ |- _ => rewrite E in *
           end;
    cbn [set_galleryQueue set_queue galleryQueue queue writeQueue conf trace
         send_galleryQueue send_queue set_net_clock
         send_writeQueue emit set_trace set_writeQueue fmt_Println fmt_Print log_Println
         log_Print AddInt64_downloadingCount AddInt64_downloadStartCount
         set_downloadingCount set_downloadStartCount] in *;
    autorewrite with sent in *;
    repeat match goal with
           | H : Forall _ (_ :: _) |- _ => apply Forall_cons in H; destruct H
           | H : _ /\ _ |- _ => destruct H
           end;
    try solve [ split_and!;
                first [ done | by apply Forall_insert
                      | by apply jobs_of_from
                      | by apply writeJob_of_from
                      | (apply Forall_insert; [done|by apply writeJob_of_from])
                      | (apply Forall_app; split; [done|by constructor]) ] ].
  split_and!; [done| | | | | |].
  - apply Forall_app. split.
    + eapply Forall_impl; [exact Hg|]. intros g Hin. by right.
    + constructor; [left|constructor].
  - by apply main_from_mono.
  - eapply Forall_impl; [exact Hq|]. intros job. apply job_from_mono.
  - eapply Forall_impl; [exact Hw|]. intros pc. apply worker_from_mono.
  - eapply Forall_impl; [exact Hwq|]. intros wj. apply writeJob_from_mono.
  - destruct wpc; try done. by apply writeJob_from_mono.
Qed.

Lemma traced_start env c lines dirs files :
  traced (normalize_ThreadNum env c) (start env c lines dirs files).
Proof.
  unfold traced, start, spawn_workers. cbn. split_and!; try done.
  apply Forall_replicate. done.
Qed.

(** *** The first gallery *)

Lemma jobs_of_url g savePath c : Forall (of_url (Url g)) (jobs_of g savePath c).
Proof. unfold jobs_of. apply Forall_fmap, Forall_forall. intros img _. reflexivity. Qed.

Ltac first_solve :=
  repeat match goal with
         | H : Forall _ (_ :: _) |- _ => apply Forall_cons in H; destruct H
         | H : _ /\ _ |- _ => destruct H
         | H : False |- _ => destruct H
         end;
  subst;
  split_and!;
  first [ done | by constructor | by apply jobs_of_url ].

Lemma first_only_step url env t s s' :
  (forall n, exists g,
      GalleryInfo_answer env (Client_Get env n (GalleryInfo_address url)) = inl g) ->
  galleryUrls s !! 0%nat = Some url ->
  step env t s = Some s' -> first_only url s -> first_only url s'.
Proof.
  intros Hres Hurl Hstep. destruct s as [w urls ppc mpc pcs wpc pan].
  unfold first_only. cbn [world producerPc mainPc galleryUrls] in *.
  intros (Hj & Hm).
  break_step Hstep;
    try match goal with
        | E : GalleryInfo _ ?u ?w0 = (_, inr _) |- _ =>
            assert (u <> url)
              by (intros ->; destruct (Hres (net_clock w0)) as [g0 Hg0];
                  unfold GalleryInfo in E; congruence)
        end;
    frames; quiets;
    cbn [world producerPc mainPc galleryUrls with_producer with_main
         with_worker with_writer with_panic] in *;
    repeat match goal with
           | E : queue _ = _ |- _ => rewrite E in *
           | E : galleryQueue _ = _ |- _ => rewrite E in *
           | E : jobs_sent _ = _ |- _ => rewrite E in *
           end;
    cbn [set_galleryQueue set_queue galleryQueue queue writeQueue conf trace
         send_galleryQueue send_queue set_net_clock
         send_writeQueue emit set_trace set_writeQueue fmt_Println fmt_Print log_Println
         log_Print AddInt64_downloadingCount AddInt64_downloadStartCount
         set_downloadingCount set_downloadStartCount] in *;
    autorewrite with sent in *;
    try solve [first_solve | destruct mpc; first_solve
              | destruct mpc; try first_solve; destruct (galleryQueue w); first_solve].
  destruct Hm as (-> & Hu & _). change (Z.to_nat 0) with 0%nat in E0.
  rewrite Hurl in E0. injection E0 as <-.
  rewrite Hu, String.eqb_refl in E1. discriminate E1.
Qed.

Lemma first_only_start env c lines dirs files url rest :
  Unique lines = url :: rest -> first_only url (start env c lines dirs files).
Proof.
  intros Hu. unfold first_only, start. cbn. rewrite Hu. split; [constructor|done].
Qed.

(** *** What holds of every run *)

(** X15.  In every state of every run, [downloadingCount] is the number of
    workers between the addition of line 185 and the send of line 205 or the
    subtraction of line 219, plus the number of write jobs in [writeQueue], plus
    one while the writer is between its receive of line 230 and its
    subtraction of line 246; [downloadStartCount] is the number of jobs sent
    to [queue], less those still in it, less those a worker has taken and not
    yet added at line 186.  Both as [int64]. *)
Theorem run_counters (env : Env) (c : Conf) (lines : list string)
    (dirs : gset string) (files : gmap string string) (s : RunState) :
  reachable env (start env c lines dirs files) s ->
  downloadingCount (world s)
    = wrap64 (Z.of_nat (in_flight_workers (workers s) + length (writeQueue (world s))
                        + writing (writerPc s)))
  /\ downloadStartCount (world s)
     = wrap64 (Z.of_nat (length (jobs_sent (trace (world s))))
               - Z.of_nat (length (queue (world s)))
               - Z.of_nat (unstarted_workers (workers s))).
Proof.
  intros [schedule Hrun].
  exact (invariant_run counted env (counted_step env) _ _ _ Hrun
           (counted_start env c lines dirs files)).
Qed.

Lemma run_counters_witness :
  exists s,
    reachable (Sample.env_good 2)
      (start (Sample.env_good 2) (Sample.conf_of 2 2) [Sample.url_1] ∅ ∅) s
    /\ workers s = [W_started Sample.job_a; W_select]
    /\ downloadingCount (world s)
       = wrap64 (Z.of_nat (in_flight_workers (workers s) + length (writeQueue (world s))
                           + writing (writerPc s)))
    /\ downloadStartCount (world s)
       = wrap64 (Z.of_nat (length (jobs_sent (trace (world s))))
                 - Z.of_nat (length (queue (world s)))
                 - Z.of_nat (unstarted_workers (workers s))).
Proof.
  destruct (run (Sample.env_good 2)
              (replicate 2 T_producer ++ replicate 5 T_main ++ replicate 3 (T_worker 0))
              (start (Sample.env_good 2) (Sample.conf_of 2 2) [Sample.url_1] ∅ ∅))
    as [s|] eqn:Hrun; [|vm_compute in Hrun; discriminate Hrun].
  assert (reachable (Sample.env_good 2)
            (start (Sample.env_good 2) (Sample.conf_of 2 2) [Sample.url_1] ∅ ∅) s) as Hr
    by (eexists; exact Hrun).
  exists s. split; [exact Hr|]. split.
  - vm_compute in Hrun. injection Hrun as <-. reflexivity.
  - exact (run_counters (Sample.env_good 2) (Sample.conf_of 2 2) [Sample.url_1] ∅ ∅ s Hr).
Defined.

Lemma in_flight_workers_le pcs : (in_flight_workers pcs <= length pcs)%nat.
Proof.
  unfold in_flight_workers. induction pcs as [|pc pcs IH]; cbn; [lia|].
  destruct pc; cbn; lia.
Qed.

Lemma normalize_ThreadNum_range env c :
  0 <= NumCPU env -> 0 <= ThreadNum (normalize_ThreadNum env c) <= NumCPU env.
Proof.
  intros Hcpu. unfold normalize_ThreadNum.
  destruct (ThreadNum c <? 1) eqn:H1; cbn; [lia|].
  destruct (NumCPU env <? ThreadNum c) eqn:H2; cbn; [lia|].
  apply Z.ltb_ge in H1, H2. lia.
Qed.

(** X16.  On a machine with a sensible number of processors
    [downloadingCount] does not wrap, and the test of line 127 that ends
    [main] holds exactly when no worker is between its addition and its send
    or subtraction, no write job waits and the writer holds none.  Jobs that
    wait in [queue], or that a worker has taken and not yet counted, do not
    show in it. *)
Theorem main_done_means_idle (env : Env) (c : Conf) (lines : list string)
    (dirs : gset string) (files : gmap string string) (s : RunState) :
  0 <= NumCPU env -> NumCPU env * 101 + 1 < 2 ^ 63 ->
  reachable env (start env c lines dirs files) s ->
  downloadingCount (world s)
    = Z.of_nat (in_flight_workers (workers s) + length (writeQueue (world s))
                + writing (writerPc s))
  /\ (main_done (world s) = true
      <-> in_flight_workers (workers s) = 0%nat
          /\ writeQueue (world s) = []
          /\ writing (writerPc s) = 0%nat).
Proof.
  intros Hcpu Hbig [schedule Hrun].
  pose proof (invariant_run counted env (counted_step env) _ _ _ Hrun
                (counted_start env c lines dirs files)) as [Hd _].
  pose proof (invariant_run within_capacity env (within_capacity_step env) _ _ _ Hrun
                (within_capacity_start env c lines dirs files)) as (_ & _ & Hw).
  destruct (run_shape _ _ _ _ Hrun) as (Hc & Hl & _).
  pose proof (in_flight_workers_le (workers s)) as Hb.
  pose proof (normalize_ThreadNum_range env c Hcpu) as Ht.
  assert (writing (writerPc s) <= 1)%nat as Hwr by (destruct (writerPc s); cbn; lia).
  unfold cap_writeQueue in Hw. rewrite Hc in Hw. rewrite Hl in Hb.
  unfold start, spawn_workers in Hw, Hb. cbn [world conf workers] in Hw, Hb.
  rewrite length_replicate in Hb.
  rewrite wrap64_small in Hw by lia.
  rewrite wrap64_small in Hd by lia.
  split; [exact Hd|]. unfold main_done. rewrite Hd, Z.eqb_eq.
  destruct (writeQueue (world s)) as [|writeJob rest]; cbn [length].
  - split; [intros H; split_and!; [lia|done|lia] | intros (H1 & _ & H2); lia].
  - split; [lia | intros (_ & H & _); discriminate H].
Qed.

Lemma main_done_means_idle_witness :
  exists s,
    reachable (Sample.env_good 2)
      (start (Sample.env_good 2) (Sample.conf_of 2 2) [Sample.url_1] ∅ ∅) s
    /\ workers s = [W_count Sample.job_a; W_select]
    /\ downloadingCount (world s)
       = Z.of_nat (in_flight_workers (workers s) + length (writeQueue (world s))
                   + writing (writerPc s))
    /\ (main_done (world s) = true
        <-> in_flight_workers (workers s) = 0%nat
            /\ writeQueue (world s) = []
            /\ writing (writerPc s) = 0%nat).
Proof.
  destruct (run (Sample.env_good 2)
              (replicate 2 T_producer ++ replicate 5 T_main ++ replicate 2 (T_worker 0))
              (start (Sample.env_good 2) (Sample.conf_of 2 2) [Sample.url_1] ∅ ∅))
    as [s|] eqn:Hrun; [|vm_compute in Hrun; discriminate Hrun].
  assert (reachable (Sample.env_good 2)
            (start (Sample.env_good 2) (Sample.conf_of 2 2) [Sample.url_1] ∅ ∅) s) as Hr
    by (eexists; exact Hrun).
  exists s. split; [exact Hr|]. split.
  - vm_compute in Hrun. injection Hrun as <-. reflexivity.
  - apply (main_done_means_idle (Sample.env_good 2) (Sample.conf_of 2 2) [Sample.url_1] ∅ ∅ s);
      [cbn; lia | cbn; lia | exact Hr].
Defined.

(** X17.  When every image the decoder yields has a hash of at least three
    bytes, no run panics: no slice expression of [ImageUrl] and no index
    [galleryUrls[i]] is out of range. *)
Theorem run_never_panics (env : Env) (c : Conf) (lines : list string)
    (dirs : gset string) (files : gmap string string) (s : RunState) :
  well_decoded env ->
  Z.of_nat (length (Unique lines)) < 2 ^ 63 ->
  reachable env (start env c lines dirs files) s ->
  panicked s = false.
Proof.
  intros Hdec Hlen [schedule Hrun].
  assert (sound s /\ galleryUrls s = Unique lines) as [Hs _]; [|apply Hs].
  apply (invariant_run (fun x => sound x /\ galleryUrls x = Unique lines) env)
    with (2 := Hrun); [|split; [apply sound_start|reflexivity]].
  intros t x x' Hstep [Hx Hu]. split.
  - eapply sound_step; [exact Hdec| |exact Hstep|exact Hx]. by rewrite Hu.
  - destruct (step_shape _ _ _ _ Hstep) as (_ & _ & ->). exact Hu.
Qed.

Lemma decode_well (cpus : Z) : well_decoded (Sample.env_good cpus).
Proof.
  intros body g. cbn. unfold Sample.decode.
  repeat (destruct (String.eqb body _); [intros [= <-]; repeat constructor; by vm_compute|]).
  discriminate.
Qed.

Lemma run_never_panics_witness :
  exists s,
    reachable (Sample.env_good 2)
      (start (Sample.env_good 2) (Sample.conf_of 0 2) [Sample.url_1; Sample.url_2] ∅ ∅) s
    /\ panicked s = false.
Proof.
  destruct (run (Sample.env_good 2) Sample.schedule_two
              (start (Sample.env_good 2) (Sample.conf_of 0 2)
                     [Sample.url_1; Sample.url_2] ∅ ∅))
    as [s|] eqn:Hrun; [|vm_compute in Hrun; discriminate Hrun].
  assert (reachable (Sample.env_good 2)
            (start (Sample.env_good 2) (Sample.conf_of 0 2)
                   [Sample.url_1; Sample.url_2] ∅ ∅) s) as Hr
    by (exists Sample.schedule_two; exact Hrun).
  exists s. split; [exact Hr|].
  apply (run_never_panics (Sample.env_good 2) (Sample.conf_of 0 2)
           [Sample.url_1; Sample.url_2] ∅ ∅ s (decode_well 2)); [|exact Hr].
  vm_compute. reflexivity.
Defined.

(** X18.  Whenever the writer is about to call [ioutil.WriteFile], the name
    it passes is that of an image of a gallery the producer has sent: the
    directory [DownloadGallery] computes for the gallery, a slash, and the
    file name [DownloadImageHandler] computes for the image. *)
Theorem run_writes_only_images (env : Env) (c : Conf) (lines : list string)
    (dirs : gset string) (files : gmap string string) (s : RunState)
    (writeJob : WriteJob) :
  reachable env (start env c lines dirs files) s ->
  writerPc s = Wr_write writeJob ->
  exists gallery img,
    gallery ∈ galleries_sent (trace (world s))
    /\ img ∈ Files gallery
    /\ FileName writeJob
       = (savePath_of (normalize_ThreadNum env c) gallery +:+ "/" +:+ fileName_of img)%string.
Proof.
  intros [schedule Hrun] Hpc.
  pose proof (invariant_run (traced (normalize_ThreadNum env c)) env
                (traced_step (normalize_ThreadNum env c) env) _ _ _ Hrun
                (traced_start env c lines dirs files)) as (_ & _ & _ & _ & _ & _ & Hw).
  rewrite Hpc in Hw. exact Hw.
Qed.

Lemma run_writes_only_images_witness :
  exists s writeJob,
    reachable (Sample.env_good 2)
      (start (Sample.env_good 2) (Sample.conf_of 2 2) [Sample.url_1] ∅ ∅) s
    /\ writerPc s = Wr_write writeJob
    /\ FileName writeJob = "save/null/T/1.jpg"%string
    /\ exists gallery img,
         gallery ∈ galleries_sent (trace (world s))
         /\ img ∈ Files gallery
         /\ FileName writeJob
            = (savePath_of (normalize_ThreadNum (Sample.env_good 2) (Sample.conf_of 2 2))
                           gallery +:+ "/" +:+ fileName_of img)%string.
Proof.
  destruct (run (Sample.env_good 2)
              (replicate 2 T_producer ++ replicate 5 T_main ++ replicate 6 (T_worker 0)
                 ++ [T_writer])
              (start (Sample.env_good 2) (Sample.conf_of 2 2) [Sample.url_1] ∅ ∅))
    as [s|] eqn:Hrun; [|vm_compute in Hrun; discriminate Hrun].
  assert (reachable (Sample.env_good 2)
            (start (Sample.env_good 2) (Sample.conf_of 2 2) [Sample.url_1] ∅ ∅) s) as Hr
    by (eexists; exact Hrun).
  assert (writerPc s = Wr_write (mkWriteJob "abc" "save/null/T/1.jpg")) as Hpc
    by (vm_compute in Hrun; injection Hrun as <-; reflexivity).
  exists s, (mkWriteJob "abc" "save/null/T/1.jpg").
  split; [exact Hr|]. split; [exact Hpc|]. split; [reflexivity|].
  exact (run_writes_only_images (Sample.env_good 2) (Sample.conf_of 2 2) [Sample.url_1] ∅ ∅ s
           (mkWriteJob "abc" "save/null/T/1.jpg") Hr Hpc).
Defined.

(** X19.  When the first identifier of the list resolves, [main] leaves its
    first loop after the first gallery it receives: in every state of every
    run, every job that was sent is a job of the gallery of the first
    identifier. *)
Theorem main_fans_out_first_gallery_only (env : Env) (c : Conf) (lines : list string)
    (dirs : gset string) (files : gmap string string) (url : string)
    (rest : list string) (s : RunState) :
  Unique lines = url :: rest ->
  (forall n, exists g,
      GalleryInfo_answer env (Client_Get env n (GalleryInfo_address url)) = inl g) ->
  reachable env (start env c lines dirs files) s ->
  Forall (of_url url) (jobs_sent (trace (world s))).
Proof.
  intros Hu Hres [schedule Hrun].
  assert (first_only url s /\ galleryUrls s = url :: rest) as [[H _] _]; [|exact H].
  apply (invariant_run (fun x => first_only url x /\ galleryUrls x = url :: rest) env)
    with (2 := Hrun); [|split; [exact (first_only_start env c lines dirs files url rest Hu)|exact Hu]].
  intros t x x' Hstep [Hx Hg]. split.
  - eapply first_only_step; [exact Hres| |exact Hstep|exact Hx]. by rewrite Hg.
  - destruct (step_shape _ _ _ _ Hstep) as (_ & _ & ->). exact Hg.
Qed.

Lemma main_fans_out_first_gallery_only_witness :
  exists s,
    reachable (Sample.env_good 2)
      (start (Sample.env_good 2) (Sample.conf_of 2 2) [Sample.url_1; Sample.url_2] ∅ ∅) s
    /\ all_ended s = true
    /\ map Id (galleries_sent (trace (world s))) = ["2"; "1"]%string
    /\ Forall (of_url Sample.url_1) (jobs_sent (trace (world s))).
Proof.
  destruct (run (Sample.env_good 2) Sample.schedule_two
              (start (Sample.env_good 2) (Sample.conf_of 2 2)
                     [Sample.url_1; Sample.url_2] ∅ ∅))
    as [s|] eqn:Hrun; [|vm_compute in Hrun; discriminate Hrun].
  assert (reachable (Sample.env_good 2)
            (start (Sample.env_good 2) (Sample.conf_of 2 2)
                   [Sample.url_1; Sample.url_2] ∅ ∅) s) as Hr
    by (exists Sample.schedule_two; exact Hrun).
  exists s. split; [exact Hr|]. split; [|split].
  - vm_compute in Hrun. injection Hrun as <-. reflexivity.
  - vm_compute in Hrun. injection Hrun as <-. reflexivity.
  - apply (main_fans_out_first_gallery_only (Sample.env_good 2) (Sample.conf_of 2 2)
             [Sample.url_1; Sample.url_2] ∅ ∅ Sample.url_1 [Sample.url_2] s);
      [reflexivity | intros n; eexists; reflexivity | exact Hr].
Defined.

(** ** The steps of a goroutine and the functions of [main.go]

    A goroutine that runs without the others between its steps does what the
    function it runs does. *)

Lemma alone_S env t n s : alone env t (S n) s = step env t s ≫= alone env t n.
Proof. reflexivity. Qed.

Lemma with_worker_again w w' k pc pc' s :
  with_worker w' k pc' (with_worker w k pc s) = with_worker w' k pc' s.
Proof. unfold with_worker. cbn. by rewrite list_insert_insert_eq. Qed.

Lemma attempt_steps env job tries w :
  attempt env job tries w
  = match request_of env job with
    | None => None
    | Some req =>
        let res := Client_Do env (net_clock w) req in
        let w1 := set_net_clock (S (net_clock w)) w in
        if response_ok res then Some (w1, Succeeded (writeJob_of job res))
        else if Retry (conf w) <? tries
        then Some (AddInt64_downloadingCount (-1) (log_Println (toPrint_of env job res) w1),
                   Abandoned)
        else Some (w1, Again)
    end.
Proof.
  unfold attempt, writeJob_of, fileName_of, toPrint_of.
  destruct (request_of env job) as [req|]; [|reflexivity]. cbn [mbind option_bind].
  destruct (response_ok _); [reflexivity|]. cbn [conf set_net_clock].
  destruct (_ <? tries); reflexivity.
Qed.

Lemma step_worker env k s pc :
  panicked s = false -> workers s !! k = Some pc ->
  step env (T_worker k) s = worker_step env k s.
Proof. intros Hpan _. unfold step. by rewrite Hpan. Qed.

Lemma worker_at w k pc s pc0 :
  workers s !! k = Some pc0 -> workers (with_worker w k pc s) !! k = Some pc.
Proof. intros Hk. cbn. apply list_lookup_insert_eq. by eapply lookup_lt_Some. Qed.

Lemma world_with_worker w k pc s : world (with_worker w k pc s) = w.
Proof. reflexivity. Qed.

Lemma panicked_with_worker w k pc s : panicked (with_worker w k pc s) = panicked s.
Proof. reflexivity. Qed.

(** One step of a worker that is at [pc]. *)
Ltac worker_steps Hpan Hk :=
  rewrite alone_S;
  erewrite step_worker;
    [ | rewrite ?panicked_with_worker; exact Hpan
      | first [exact Hk | eapply worker_at; exact Hk] ];
  unfold worker_step at 1;
  first [rewrite Hk | erewrite worker_at by exact Hk];
  cbn [mbind option_bind]; rewrite ?world_with_worker.

(** The loop of [DownloadImageHandler], from the request numbered [tries]. *)
Lemma worker_alone_loop env k job fuel :
  forall tries s w',
    panicked s = false ->
    workers s !! k = Some (W_try job tries) ->
    has_room (writeQueue (world s)) (cap_writeQueue (world s)) = true ->
    DownloadImageHandler_loop fuel env job tries (world s) = Returns w' ->
    exists n, alone env (T_worker k) n s = Some (with_worker w' k W_check s).
Proof.
  induction fuel as [|fuel IH]; intros tries s w' Hpan Hk Hroom; cbn [DownloadImageHandler_loop];
    [discriminate|].
  rewrite attempt_steps.
  destruct (request_of env job) as [req|] eqn:Hreq; [|discriminate]. cbv zeta.
  destruct (response_ok _) eqn:Hok.
  - intros [= <-]. exists 2%nat.
    worker_steps Hpan Hk. rewrite Hreq, Hok. cbn [mbind option_bind].
    worker_steps Hpan Hk.
    change (has_room (writeQueue (set_net_clock (S (net_clock (world s))) (world s)))
              (cap_writeQueue (set_net_clock (S (net_clock (world s))) (world s))))
      with (has_room (writeQueue (world s)) (cap_writeQueue (world s))).
    rewrite Hroom. cbn [mbind option_bind]. rewrite with_worker_again. reflexivity.
  - destruct (_ <? tries) eqn:Hmax.
    + intros [= <-]. exists 3%nat.
      worker_steps Hpan Hk. rewrite Hreq, Hok. cbn [conf set_net_clock]. rewrite Hmax.
      cbn [mbind option_bind].
      worker_steps Hpan Hk. rewrite with_worker_again.
      worker_steps Hpan Hk. rewrite with_worker_again. reflexivity.
    + intros Hloop.
      destruct (IH (add64 tries 1)
                  (with_worker (set_net_clock (S (net_clock (world s))) (world s)) k
                               (W_try job (add64 tries 1)) s) w') as [n Hn];
        [exact Hpan | eapply worker_at; exact Hk | exact Hroom | exact Hloop |].
      exists (S n).
      worker_steps Hpan Hk. rewrite Hreq, Hok. cbn [conf set_net_clock]. rewrite Hmax.
      cbn [mbind option_bind]. rewrite Hn, with_worker_again. reflexivity.
Qed.

(** [DownloadImageHandler], from the moment a worker has taken the job. *)
Lemma worker_alone_DownloadImageHandler env k job fuel s w' :
  panicked s = false ->
  workers s !! k = Some (W_print job) ->
  has_room (writeQueue (world s)) (cap_writeQueue (world s)) = true ->
  DownloadImageHandler fuel env job (world s) = Returns w' ->
  exists n, alone env (T_worker k) n s = Some (with_worker w' k W_check s).
Proof.
  intros Hpan Hk Hroom Hrun. unfold DownloadImageHandler, DownloadImageHandler_enter in Hrun.
  destruct (worker_alone_loop env k job fuel 1
              (with_worker (AddInt64_downloadStartCount 1
                              (AddInt64_downloadingCount 1 (fmt_Print "." (world s))))
                           k (W_try job 1) s) w') as [n Hn];
    [exact Hpan | eapply worker_at; exact Hk | exact Hroom | exact Hrun |].
  exists (S (S (S n))).
  worker_steps Hpan Hk. worker_steps Hpan Hk. rewrite with_worker_again.
  worker_steps Hpan Hk. rewrite with_worker_again.
  rewrite Hn, with_worker_again. reflexivity.
Qed.

Lemma step_writer env s : panicked s = false -> step env T_writer s = writer_step env s.
Proof. intros Hpan. unfold step. by rewrite Hpan. Qed.

Lemma step_main env s : panicked s = false -> step env T_main s = main_step env s.
Proof. intros Hpan. unfold step. by rewrite Hpan. Qed.

Ltac writer_steps :=
  rewrite alone_S, step_writer by reflexivity; unfold writer_step at 1;
  cbn [writerPc world with_writer galleryUrls producerPc mainPc workers panicked].

Ltac main_steps :=
  rewrite alone_S, step_main by reflexivity; unfold main_step at 1;
  cbn [writerPc world with_main galleryUrls producerPc mainPc workers panicked].

(** [WriterHandler], from the moment the writer has taken the write job. *)
Lemma writer_alone_WriterHandler env job s :
  panicked s = false ->
  writerPc s = Wr_write job ->
  exists n,
    alone env T_writer n s = Some (with_writer (WriterHandler env job (world s)) Wr_check s).
Proof.
  intros Hpan Hpc. destruct s as [w urls ppc mpc pcs wpc pan]. cbn in Hpan, Hpc. subst.
  unfold WriterHandler. cbn [world].
  destruct (WriteFile env (FileName job) (Content job) os_ModeAppend w) as [w1 [err|]] eqn:E.
  - exists 3%nat. writer_steps. rewrite E. cbn [mbind option_bind].
    writer_steps. cbn [mbind option_bind]. writer_steps. reflexivity.
  - exists 2%nat. writer_steps. rewrite E. cbn [mbind option_bind].
    writer_steps. reflexivity.
Qed.

(** [DownloadGallery] up to its loop, from the moment [main] has received the
    gallery. *)
Lemma main_alone_DownloadGallery_dir env i gallery s :
  panicked s = false ->
  mainPc s = M_blank i gallery ->
  let call := DownloadGallery_dir env gallery i (Z.of_nat (length (galleryUrls s)))
                                  (conf (world s)) (world s) in
  exists n,
    alone env T_main n s
    = Some (with_main (fst call)
              (M_send i gallery
                 (match snd call with
                  | Some savePath => jobs_of gallery savePath (conf (world s))
                  | None => []
                  end)) s).
Proof.
  intros Hpan Hpc. destruct s as [w urls ppc mpc pcs wpc pan]. cbn in Hpan, Hpc. subst.
  cbn [world galleryUrls]. unfold DownloadGallery_dir.
  change (SavePath (conf w)
            +:+ (if String.eqb (Lang gallery) EmptyString then "null" else Lang gallery)
            +:+ "/"
            +:+ ValidFileName (if String.eqb (JpTitle gallery) EmptyString
                               then Title gallery else JpTitle gallery)
            +:+ " - " +:+ Id gallery)%string
    with (savePath_with_id (conf w) gallery).
  change (SavePath (conf w)
            +:+ (if String.eqb (Lang gallery) EmptyString then "null" else Lang gallery)
            +:+ "/"
            +:+ ValidFileName (if String.eqb (JpTitle gallery) EmptyString
                               then Title gallery else JpTitle gallery))%string
    with (savePath_of (conf w) gallery).
  change ("Start Download (" +:+ Itoa (add64 i 1) +:+ "/"
            +:+ Itoa (Z.of_nat (length urls)) +:+ "): "
            +:+ (if String.eqb (JpTitle gallery) EmptyString
                 then Title gallery else JpTitle gallery))%string
    with (start_line gallery i (Z.of_nat (length urls))).
  destruct (MkdirAll env (savePath_of (conf w) gallery) os_ModeDir
              (log_Println (start_line gallery i (Z.of_nat (length urls))) (fmt_Println w)))
    as [w1 [err|]] eqn:E1.
  - destruct (IsExist err) eqn:Hex.
    + assert (conf w1 = conf w) as Hc.
      { pose proof (quiet_MkdirAll env (savePath_of (conf w) gallery) os_ModeDir
                      (log_Println (start_line gallery i (Z.of_nat (length urls)))
                                   (fmt_Println w))) as Q.
        rewrite E1 in Q. by destruct Q. }
      destruct (MkdirAll env (savePath_with_id (conf w) gallery) os_ModeDir w1)
        as [w2 [err2|]] eqn:E2.
      * exists 5%nat. cbn [fst snd]. do 3 (main_steps; cbn [mbind option_bind]).
        change (conf (log_Println (start_line gallery i (Z.of_nat (length urls)))
                                  (fmt_Println w))) with (conf w).
        rewrite E1, Hex. cbn [mbind option_bind]. main_steps. rewrite Hc, E2.
        cbn [mbind option_bind]. main_steps. reflexivity.
      * exists 5%nat. cbn [fst snd]. do 3 (main_steps; cbn [mbind option_bind]).
        change (conf (log_Println (start_line gallery i (Z.of_nat (length urls)))
                                  (fmt_Println w))) with (conf w).
        rewrite E1, Hex. cbn [mbind option_bind]. main_steps. rewrite Hc, E2.
        cbn [mbind option_bind]. main_steps. reflexivity.
    + exists 4%nat. cbn [fst snd]. do 3 (main_steps; cbn [mbind option_bind]).
      change (conf (log_Println (start_line gallery i (Z.of_nat (length urls)))
                                (fmt_Println w))) with (conf w).
      rewrite E1, Hex. cbn [mbind option_bind]. main_steps. reflexivity.
  - exists 3%nat. cbn [fst snd]. do 3 (main_steps; cbn [mbind option_bind]).
    change (conf (log_Println (start_line gallery i (Z.of_nat (length urls)))
                              (fmt_Println w))) with (conf w).
    rewrite E1. cbn [mbind option_bind].
    assert (conf w1 = conf w) as Hc.
    { pose proof (quiet_MkdirAll env (savePath_of (conf w) gallery) os_ModeDir
                    (log_Println (start_line gallery i (Z.of_nat (length urls)))
                                 (fmt_Println w))) as Q.
      rewrite E1 in Q. by destruct Q. }
    rewrite Hc. reflexivity.
Qed.
